(** * Run execution coordinator (PerformRunExecutionV3Service)

    A shallow embedding of [src/unnamed/part_001]: the service class
    [PerformRunExecutionV3Service] with its [call], [#executePreprocessing],
    [#executeJob] and the outcome handlers, over an explicit model of the
    relational store, the worker queue (same database, same transaction), the
    telemetry sink and the force-yield registry.

    Conventions.
    - Every [new Date()] of one [call] reads the same clock value [now].
    - Numbers ([durationInMs], counters, limits, timestamps) are [Z].
    - String templates are kept structured ([Message]) so that the values they
      quote stay visible.
    - What the HTTP client returns is an input of the call ([CallInput]); the
      endpoint is user code whose answers the service cannot predict.
    - A handler takes the loaded run (the snapshot [FoundRun.t]) and the
      current store as two separate things, as the code does. Inside [call]
      only the service writes to the store; what other processes write while
      the call waits for the endpoint (the tasks that the endpoint creates
      through the API, for one) shows in the statements about handlers, which
      hold for any store next to any loaded run.

    The development ends with the resume service [ResumeAttemptService], the
    second unit of [src/apps/webapp/app/services/accessInfo.server.ts], in a
    module of its own. *)

From stdpp Require Import gmap strings list.
From Stdlib Require Import ZArith Lia.

Local Open Scope Z_scope.

(** ** Enumerations of the database schema *)

Module JobRunStatus.
Inductive t :=
| QUEUED | STARTED | WAITING_TO_RESUME | SUCCESS | FAILURE | ABORTED
| TIMED_OUT | UNRESOLVED_AUTH | INVALID_PAYLOAD | CANCELED.
#[global] Instance JobRunStatus_eq_dec : EqDecision t.
Proof. solve_decision. Defined.
End JobRunStatus.

Module TaskStatus.
Inductive t := PENDING | WAITING | RUNNING | COMPLETED | ERRORED | CANCELED.
#[global] Instance TaskStatus_eq_dec : EqDecision t.
Proof. solve_decision. Defined.
End TaskStatus.

Module TaskAttemptStatus.
Inductive t := PENDING | ERRORED.
#[global] Instance TaskAttemptStatus_eq_dec : EqDecision t.
Proof. solve_decision. Defined.
End TaskAttemptStatus.

Module RuntimeEnvironmentType.
Inductive t := PRODUCTION | STAGING | DEVELOPMENT | PREVIEW.
#[global] Instance RuntimeEnvironmentType_eq_dec : EqDecision t.
Proof. solve_decision. Defined.
End RuntimeEnvironmentType.

Module SubscriptionEvent.
Inductive t := SUCCESS | FAILURE.
#[global] Instance SubscriptionEvent_eq_dec : EqDecision t.
Proof. solve_decision. Defined.
End SubscriptionEvent.

Module RecipientMethod.
Inductive t := ENDPOINT | WEBHOOK.
#[global] Instance RecipientMethod_eq_dec : EqDecision t.
Proof. solve_decision. Defined.
End RecipientMethod.

Module SubscriptionStatus.
Inductive t := ACTIVE | INACTIVE.
#[global] Instance SubscriptionStatus_eq_dec : EqDecision t.
Proof. solve_decision. Defined.
End SubscriptionStatus.

(** ** Outputs written on a run *)

(** Which code the timeout diagnostic blames:
    [This is likely caused by task "<displayKey ?? name>" execution exceeding
    the function timeout] or [... executing code outside of a task ...]. *)
Inductive TimeoutCause :=
| CausedByTask (displayKeyOrName : string)
| CausedByCodeOutsideTask.

(** The [message] templates of the file, with the values they interpolate. *)
Inductive Message :=
| CouldNotConnect                              (* "Could not connect to the endpoint" *)
| RespondedWithStatus (status : Z)             (* `Endpoint responded with ${status} status code` *)
| InvalidJSON                                  (* "Endpoint responded with invalid JSON" *)
| SchemaIssues (issues : string)               (* generateErrorMessage(safeBody.error.issues) *)
| EndpointAborted                              (* "Endpoint aborted the run" *)
| CouldNotResolveConnections (runId : string)  (* `Could not resolve all connections for run ${run.id}...` *)
| ConnectionNotEstablished (url : string)      (* `Connection could not be established to the endpoint (${url})` *)
| YieldedTooManyTimes (maximum : Z)            (* `Run has yielded too many times, the maximum is ${MAX_RUN_YIELDED_EXECUTIONS}` *)
| ExecutionTimedOut (limitInMs : Z)            (* `Execution timed out after ${limit / 1000} seconds` *)
| FunctionTimeout (durationInMs : Z) (cause : TimeoutCause).
                                               (* `Function timeout detected in ${durationInMs / 1000.0}s without any task creation. ... ${cause}` *)

(** A run's [output]: a message object built by the service, or an opaque
    JSON payload that came from the endpoint. *)
Inductive Output :=
| OutMessage (m : Message)
| OutPayload (json : string).

Definition messageReferences (o : option Output) (n : Z) : Prop :=
  o = Some (OutMessage (YieldedTooManyTimes n)).

(** ** Rows *)

Module JobRun.
(** A row of the [jobRun] table; its [id] is the key it is stored under.
    [environmentType] and [maximumExecutionTimePerRunInMs] are read through
    the joins [run.environment.type] and
    [run.organization.maximumExecutionTimePerRunInMs]; no code of the file
    writes those rows, so the two values are kept on the run. *)
Record t := mk {
  status : JobRunStatus.t;
  startedAt : option Z;
  completedAt : option Z;
  executionCount : Z;
  executionDuration : Z;
  yieldedExecutions : list string;
  output : option Output;
  properties : option string;
  forceYieldImmediately : bool;
  internal : bool;
  isTest : bool;
  organizationId : string;
  endpointId : string;
  environmentType : RuntimeEnvironmentType.t;
  maximumExecutionTimePerRunInMs : Z;
}.

(** Field updates, for the [data] of an [update]. *)
Definition set_status (v : JobRunStatus.t) (r : t) : t :=
  mk v (startedAt r) (completedAt r) (executionCount r) (executionDuration r)
     (yieldedExecutions r) (output r) (properties r) (forceYieldImmediately r)
     (internal r) (isTest r) (organizationId r) (endpointId r)
     (environmentType r) (maximumExecutionTimePerRunInMs r).
Definition set_startedAt (v : option Z) (r : t) : t :=
  mk (status r) v (completedAt r) (executionCount r) (executionDuration r)
     (yieldedExecutions r) (output r) (properties r) (forceYieldImmediately r)
     (internal r) (isTest r) (organizationId r) (endpointId r)
     (environmentType r) (maximumExecutionTimePerRunInMs r).
Definition set_completedAt (v : option Z) (r : t) : t :=
  mk (status r) (startedAt r) v (executionCount r) (executionDuration r)
     (yieldedExecutions r) (output r) (properties r) (forceYieldImmediately r)
     (internal r) (isTest r) (organizationId r) (endpointId r)
     (environmentType r) (maximumExecutionTimePerRunInMs r).
Definition set_executionCount (v : Z) (r : t) : t :=
  mk (status r) (startedAt r) (completedAt r) v (executionDuration r)
     (yieldedExecutions r) (output r) (properties r) (forceYieldImmediately r)
     (internal r) (isTest r) (organizationId r) (endpointId r)
     (environmentType r) (maximumExecutionTimePerRunInMs r).
Definition set_executionDuration (v : Z) (r : t) : t :=
  mk (status r) (startedAt r) (completedAt r) (executionCount r) v
     (yieldedExecutions r) (output r) (properties r) (forceYieldImmediately r)
     (internal r) (isTest r) (organizationId r) (endpointId r)
     (environmentType r) (maximumExecutionTimePerRunInMs r).
Definition set_yieldedExecutions (v : list string) (r : t) : t :=
  mk (status r) (startedAt r) (completedAt r) (executionCount r)
     (executionDuration r) v (output r) (properties r)
     (forceYieldImmediately r) (internal r) (isTest r) (organizationId r)
     (endpointId r) (environmentType r) (maximumExecutionTimePerRunInMs r).
Definition set_output (v : option Output) (r : t) : t :=
  mk (status r) (startedAt r) (completedAt r) (executionCount r)
     (executionDuration r) (yieldedExecutions r) v (properties r)
     (forceYieldImmediately r) (internal r) (isTest r) (organizationId r)
     (endpointId r) (environmentType r) (maximumExecutionTimePerRunInMs r).
Definition set_properties (v : option string) (r : t) : t :=
  mk (status r) (startedAt r) (completedAt r) (executionCount r)
     (executionDuration r) (yieldedExecutions r) (output r) v
     (forceYieldImmediately r) (internal r) (isTest r) (organizationId r)
     (endpointId r) (environmentType r) (maximumExecutionTimePerRunInMs r).
Definition set_forceYieldImmediately (v : bool) (r : t) : t :=
  mk (status r) (startedAt r) (completedAt r) (executionCount r)
     (executionDuration r) (yieldedExecutions r) (output r) (properties r) v
     (internal r) (isTest r) (organizationId r) (endpointId r)
     (environmentType r) (maximumExecutionTimePerRunInMs r).
End JobRun.

Module Endpoint.
(** A row of the [endpoint] table; its [id] is the key it is stored under. *)
Record t := mk {
  url : string;
  version : string;
  runChunkExecutionLimit : Z;
  startTaskThreshold : Z;
  beforeExecuteTaskThreshold : Z;
  beforeCompleteTaskThreshold : Z;
  afterCompleteTaskThreshold : Z;
}.

(** Field updates, for the [data] of an [update]. *)
Definition set_version (v : string) (r : t) : t :=
  mk (url r) v (runChunkExecutionLimit r) (startTaskThreshold r)
     (beforeExecuteTaskThreshold r) (beforeCompleteTaskThreshold r)
     (afterCompleteTaskThreshold r).
Definition set_runChunkExecutionLimit (v : Z) (r : t) : t :=
  mk (url r) (version r) v (startTaskThreshold r)
     (beforeExecuteTaskThreshold r) (beforeCompleteTaskThreshold r)
     (afterCompleteTaskThreshold r).
End Endpoint.

Module Task.
Record t := mk {
  id : string;
  runId : string;
  idempotencyKey : string;
  name : string;
  displayKey : option string;
  status : TaskStatus.t;
  noop : bool;
  output : option string;
  outputProperties : option string;
  completedAt : option Z;
  createdAt : Z;
}.

(** Field updates, for the [data] of an [update]. *)
Definition set_status (v : TaskStatus.t) (r : t) : t :=
  mk (id r) (runId r) (idempotencyKey r) (name r) (displayKey r) v (noop r)
     (output r) (outputProperties r) (completedAt r) (createdAt r).
Definition set_output (v : option string) (r : t) : t :=
  mk (id r) (runId r) (idempotencyKey r) (name r) (displayKey r) (status r)
     (noop r) v (outputProperties r) (completedAt r) (createdAt r).
Definition set_outputProperties (v : option string) (r : t) : t :=
  mk (id r) (runId r) (idempotencyKey r) (name r) (displayKey r) (status r)
     (noop r) (output r) v (completedAt r) (createdAt r).
Definition set_completedAt (v : option Z) (r : t) : t :=
  mk (id r) (runId r) (idempotencyKey r) (name r) (displayKey r) (status r)
     (noop r) (output r) (outputProperties r) v (createdAt r).
End Task.

Module TaskAttempt.
Record t := mk {
  id : nat;
  taskId : string;
  number : Z;
  status : TaskAttemptStatus.t;
  runAt : option Z;
  error : option string;
}.

(** Field updates, for the [data] of an [update]. *)
Definition set_status (v : TaskAttemptStatus.t) (r : t) : t :=
  mk (id r) (taskId r) (number r) v (runAt r) (error r).
Definition set_error (v : option string) (r : t) : t :=
  mk (id r) (taskId r) (number r) (status r) (runAt r) v.
End TaskAttempt.

Module JobRunSubscription.
Record t := mk {
  runId : string;
  recipient : string;
  recipientMethod : RecipientMethod.t;
  event : SubscriptionEvent.t;
  status : SubscriptionStatus.t;
}.
End JobRunSubscription.

Module AutoYieldExecution.
Record t := mk {
  runId : string;
  location : string;
  timeRemaining : Z;
  timeElapsed : Z;
  limit : Z;
}.
End AutoYieldExecution.

(** Jobs put on the worker queue. The queue lives in the same database, so an
    enqueue issued with [{ tx }] commits or rolls back with the transaction.
    [PerformRunExecutionV3] is the job that [enqueueRunExecutionV3] enqueues:
    an execution of the run with reason EXECUTE_JOB. *)
Inductive QueueJob :=
| PerformRunExecutionV3 (runId : string) (skipRetrying : bool)
| DeliverRunSubscriptions (runId : string)
| ResumeTask (taskId : string) (runAt : option Z).

(** ** The store *)

Record Store := mkStore {
  jobRun : gmap string JobRun.t;
  endpoint : gmap string Endpoint.t;
  task : list Task.t;                       (* in creation order *)
  taskAttempt : list TaskAttempt.t;         (* in creation order *)
  jobRunSubscription : list JobRunSubscription.t;
  autoYieldExecution : list AutoYieldExecution.t;
  workerQueue : list QueueJob;
}.

Definition withJobRun (f : gmap string JobRun.t -> gmap string JobRun.t) (s : Store) : Store :=
  mkStore (f (jobRun s)) (endpoint s) (task s) (taskAttempt s)
          (jobRunSubscription s) (autoYieldExecution s) (workerQueue s).
Definition withEndpoint (f : gmap string Endpoint.t -> gmap string Endpoint.t) (s : Store) : Store :=
  mkStore (jobRun s) (f (endpoint s)) (task s) (taskAttempt s)
          (jobRunSubscription s) (autoYieldExecution s) (workerQueue s).
Definition withTask (f : list Task.t -> list Task.t) (s : Store) : Store :=
  mkStore (jobRun s) (endpoint s) (f (task s)) (taskAttempt s)
          (jobRunSubscription s) (autoYieldExecution s) (workerQueue s).
Definition withTaskAttempt (f : list TaskAttempt.t -> list TaskAttempt.t) (s : Store) : Store :=
  mkStore (jobRun s) (endpoint s) (task s) (f (taskAttempt s))
          (jobRunSubscription s) (autoYieldExecution s) (workerQueue s).
Definition withJobRunSubscription
    (f : list JobRunSubscription.t -> list JobRunSubscription.t) (s : Store) : Store :=
  mkStore (jobRun s) (endpoint s) (task s) (taskAttempt s)
          (f (jobRunSubscription s)) (autoYieldExecution s) (workerQueue s).
Definition withAutoYieldExecution
    (f : list AutoYieldExecution.t -> list AutoYieldExecution.t) (s : Store) : Store :=
  mkStore (jobRun s) (endpoint s) (task s) (taskAttempt s)
          (jobRunSubscription s) (f (autoYieldExecution s)) (workerQueue s).
Definition withWorkerQueue (f : list QueueJob -> list QueueJob) (s : Store) : Store :=
  mkStore (jobRun s) (endpoint s) (task s) (taskAttempt s)
          (jobRunSubscription s) (autoYieldExecution s) (f (workerQueue s)).

(** ** Effects outside the store *)

Inductive ExecutionEventType := start | finish.

(** The part of [RunJobBody] that depends on the run's state; the identity
    blocks ([event], [job], [environment], [organization], [project],
    [account], [connections], [source]) are copies of rows nothing here
    writes and are left out. *)
Record LazyLoadedFields := mkLazy {
  cachedTaskCursor : option string;
  noopTasksSet : string;
  body_yieldedExecutions : list string;
  body_runChunkExecutionLimit : Z;
  autoYieldConfig : Z * Z * Z * Z;
}.

Record RunJobBody := mkBody {
  body_runId : string;
  body_isTest : bool;
  body_startedAt : Z;
  body_isRetry : bool;
  body_tasks : list Task.t;
  body_lazy : option LazyLoadedFields;
}.

Inductive Effect :=
| PreprocessRunRequest (runId : string)          (* client.preprocessRunRequest *)
| ExecuteJobRequest (body : RunJobBody)          (* client.executeJobRequest *)
| ExecutionEvent (eventType : ExecutionEventType) (drift : Z) (runId : string).
                                                 (* createExecutionEvent *)

Record World := mkWorld {
  db : Store;
  effects : list Effect;           (* oldest first *)
  registeredRuns : gset string;    (* forceYieldCoordinator *)
}.

(** ** Exceptions, and the monad the service runs in *)

Inductive Exn :=
| RecordNotFound                   (* Prisma: record to update / find does not exist *)
| RetryError (output : Output)     (* #failRunExecutionWithRetry: new Error(JSON.stringify(output)) *)
| SyntaxError                      (* JSON.parse *)
| StoreUnavailable.                (* the store refuses a call *)

(** A computation reads and writes the world and either returns or throws;
    what it wrote before throwing stays, unless a transaction undoes it. *)
Definition M (A : Type) : Type := World -> (Exn + A) * World.

Definition ret {A} (a : A) : M A := fun w => (inr a, w).
Definition throw {A} (e : Exn) : M A := fun w => (inl e, w).
Definition bind {A B} (m : M A) (k : A -> M B) : M B :=
  fun w => match m w with
           | (inl e, w') => (inl e, w')
           | (inr a, w') => k a w'
           end.

Declare Scope run_scope.
Delimit Scope run_scope with run.
Notation "'do' x <- m ; k" := (bind m (fun x => k))
  (at level 10, x name, m at level 100, k at level 200) : run_scope.
Notation "m ;; k" := (bind m (fun _ => k))
  (at level 100, k at level 200, right associativity) : run_scope.
Local Open Scope run_scope.

Definition when (b : bool) (m : M unit) : M unit := if b then m else ret tt.

(** [try { m } finally { h }] with a handler that does not throw. *)
Definition finally {A} (m : M A) (h : World -> World) : M A :=
  fun w => let '(r, w') := m w in (r, h w').

(** Modelled from the spec: [$transaction(prisma, fn)] of ~/db.server, which
    is not among the sources. "Mutations occur inside a single transaction
    per branch, so an observer either sees the entire outcome of a chunk or
    none of it": the writes of [fn] to the store (queue included) are undone
    when it throws, and the exception goes on to the caller. With a
    transaction client as [prisma] the helper runs [fn] in the enclosing
    transaction; as nothing catches in between, undoing the inner part first
    gives the same store. Telemetry is not part of the store. *)
Definition transaction {A} (m : M A) : M A :=
  fun w => match m w with
           | (inl e, w') => (inl e, mkWorld (db w) (effects w') (registeredRuns w'))
           | (inr a, w') => (inr a, w')
           end.

Definition getStore : M Store := fun w => (inr (db w), w).
Definition modifyStore (f : Store -> Store) : M unit :=
  fun w => (inr tt, mkWorld (f (db w)) (effects w) (registeredRuns w)).
Definition emit (e : Effect) : M unit :=
  fun w => (inr tt, mkWorld (db w) (effects w ++ [e]) (registeredRuns w)).

(** Modelled from the spec: forceYieldCoordinator (./forceYieldCoordinator.server
    is not among the sources) "tracks which runs are currently executing a
    chunk" through [registerRun] and [deregisterRun]. *)
Definition registerRun (id : string) : M unit :=
  fun w => (inr tt, mkWorld (db w) (effects w) ({[id]} ∪ registeredRuns w)).
Definition deregister (id : string) (w : World) : World :=
  mkWorld (db w) (effects w) (registeredRuns w ∖ {[id]}).
Definition deregisterRun (id : string) : M unit := fun w => (inr tt, deregister id w).

(** ** Store primitives (the Prisma calls the file makes) *)

(** [jobRun.update({ where: { id }, data })]; returns the updated row. *)
Definition jobRun_update (id : string) (data : JobRun.t -> JobRun.t) : M JobRun.t :=
  do s <- getStore;
  match jobRun s !! id with
  | None => throw RecordNotFound
  | Some r => modifyStore (withJobRun (insert id (data r)));; ret (data r)
  end.

(** [endpoint.update({ where: { id }, data })] *)
Definition endpoint_update (id : string) (data : Endpoint.t -> Endpoint.t) : M unit :=
  do s <- getStore;
  match endpoint s !! id with
  | None => throw RecordNotFound
  | Some e => modifyStore (withEndpoint (insert id (data e)))
  end.

Definition hasTaskId (id : string) (t : Task.t) : bool := bool_decide (Task.id t = id).

(** [task.findUnique({ where: { id } })] *)
Definition task_findUnique (id : string) : M (option Task.t) :=
  do s <- getStore; ret (find (hasTaskId id) (task s)).

(** [task.update({ where: { id }, data })]; [id] is the primary key. *)
Definition task_update (id : string) (data : Task.t -> Task.t) : M Task.t :=
  do s <- getStore;
  match find (hasTaskId id) (task s) with
  | None => throw RecordNotFound
  | Some t =>
      modifyStore (withTask (map (fun t' => if hasTaskId id t' then data t' else t')));;
      ret (data t)
  end.

(** The first row of [orderBy: { key: "desc" }]; among equal keys the row
    created first is taken. *)
Definition latestBy {A} (key : A -> Z) (l : list A) : option A :=
  foldl (fun acc a => match acc with
                      | None => Some a
                      | Some b => if key b <? key a then Some a else Some b
                      end) None l.

(** [taskAttempt.findFirst({ where: { taskId, status: "PENDING" },
                            orderBy: { number: "desc" } })] *)
Definition isPendingAttemptOf (taskId : string) (a : TaskAttempt.t) : bool :=
  bool_decide (TaskAttempt.taskId a = taskId)
  && bool_decide (TaskAttempt.status a = TaskAttemptStatus.PENDING).

Definition latestPendingAttempt (taskId : string) (rows : list TaskAttempt.t)
  : option TaskAttempt.t :=
  latestBy TaskAttempt.number (filter (fun a => isPendingAttemptOf taskId a = true) rows).

Definition taskAttempt_findFirstPending (taskId : string) : M (option TaskAttempt.t) :=
  do s <- getStore; ret (latestPendingAttempt taskId (taskAttempt s)).

(** [jobRunSubscription.upsert({ where: { runId_recipient_event }, create, update: {} })] *)
Definition sameSubscriptionKey (a b : JobRunSubscription.t) : bool :=
  bool_decide (JobRunSubscription.runId a = JobRunSubscription.runId b)
  && bool_decide (JobRunSubscription.recipient a = JobRunSubscription.recipient b)
  && bool_decide (JobRunSubscription.event a = JobRunSubscription.event b).

Definition jobRunSubscription_upsert (create : JobRunSubscription.t) : M unit :=
  modifyStore (withJobRunSubscription
    (fun rows => if existsb (sameSubscriptionKey create) rows then rows else rows ++ [create])).

(** [workerQueue.enqueue(job, payload, { tx })] *)
Definition enqueue (j : QueueJob) : M unit :=
  modifyStore (withWorkerQueue (fun q => q ++ [j])).

(** ** What the endpoint answers (types of @trigger.dev/core, as the file reads them) *)

Module ServerTask.
Record t := mk {
  id : string;
  outputProperties : option string;
  operation : option string;
  callbackUrl : option string;
  delayUntil : option Z;
}.
End ServerTask.

Module AutoYieldMetadata.
Record t := mk {
  location : string;
  timeRemaining : Z;
  timeElapsed : Z;
  limit : option Z;
}.
End AutoYieldMetadata.

(** A non-empty string field that the service hands to [JSON.parse]: what it
    parses to, or that it does not parse. An absent or empty field is falsy
    and is [None] where the field is optional. *)
Inductive JsonText :=
| WellFormed (value : string)
| Malformed.

(** [RunJobError]: the variants a chunk can end with short of success, which
    are also the elements of [childErrors]. *)
Inductive RunJobError :=
| AUTO_YIELD_EXECUTION (data : AutoYieldMetadata.t)
| AUTO_YIELD_EXECUTION_WITH_COMPLETED_TASK
    (id : string) (properties : option string) (output : option JsonText)
    (data : AutoYieldMetadata.t)
| CANCELED
| ERROR (error : option string) (task : option ServerTask.t)
| INVALID_PAYLOAD (errors : string)
| RESUME_WITH_TASK (task : ServerTask.t)
| RETRY_WITH_TASK (task : ServerTask.t) (error : string) (retryAt : Z)
| UNRESOLVED_AUTH_ERROR (issues : string)
| YIELD_EXECUTION (key : string).

(** The body of a 2xx answer to [executeJobRequest]. *)
Inductive RunJobResponse :=
| SUCCESS (output : option string)
| RESUME_WITH_PARALLEL_TASK (task : ServerTask.t) (childErrors : list RunJobError)
| Errored (e : RunJobError).

(** [safeJsonZodParse(parser, rawBody)]: [undefined] when the text is not
    JSON, else the schema's verdict. *)
Inductive SafeParse (A : Type) :=
| NotJson
| Invalid (issues : string)
| Parsed (data : A).
Arguments NotJson {A}.
Arguments Invalid {A} issues.
Arguments Parsed {A} data.

Record RunMetadata := mkRunMetadata {
  successSubscription : bool;
  failedSubscription : bool;
}.

(** [headersParser.safeParse(rawHeaders)] when it succeeds. *)
Record ResponseHeaders := mkHeaders {
  trigger_version : option string;            (* "trigger-version" *)
  x_trigger_run_metadata : option RunMetadata (* "x-trigger-run-metadata" *)
}.

(** How [headersParser.safeParse(rawHeaders)] ends. The call is under the
    [try ... finally] of [#executeJob], which has no [catch]. The parser is a schema of @trigger.dev/core, which
    is not among the sources: it hands the x-trigger-run-metadata header to
    [JSON.parse] before it validates, and [safeParse] lets the exception of
    that step through. *)
Inductive HeadersParse :=
| HeadersVerdict (verdict : option ResponseHeaders)   (* None: headers.success is false *)
| HeadersThrow.                                       (* the header is not JSON *)

Module Response.
Record t := mk {
  status : Z;
  headers : HeadersParse;                 (* headersParser.safeParse(rawHeaders) *)
  errorBody : SafeParse string;           (* safeJsonZodParse(errorParser, rawBody) *)
  body : SafeParse RunJobResponse;        (* safeJsonZodParse(parser, rawBody) *)
}.
Definition ok (r : t) : bool := (200 <=? status r) && (status r <=? 299).
End Response.

Record PreprocessBody := mkPreprocessBody {
  abort : bool;
  preprocess_properties : option string;
}.

Module PreprocessResponse.
Record t := mk {
  status : Z;
  body : SafeParse PreprocessBody;
}.
Definition ok (r : t) : bool := (200 <=? status r) && (status r <=? 299).
End PreprocessResponse.

(** ** The loaded aggregate *)

Module FoundRun.
(** The value of [findRun]: a snapshot taken once, at the start of [call].
    Handlers read it, and it does not follow later writes to the store. *)
Record t := mk {
  id : string;
  run : JobRun.t;
  endpoint : Endpoint.t;
  tasks : list Task.t;                         (* COMPLETED only *)
  subscriptions : list JobRunSubscription.t;   (* recipientMethod ENDPOINT only *)
  count_tasks : Z;                             (* _count.tasks *)
}.
(** [run.endpoint.id]: the endpoint is joined through [run.endpointId]. *)
Definition endpoint_id (r : t) : string := JobRun.endpointId (run r).
End FoundRun.

Fixpoint insertById (t : Task.t) (l : list Task.t) : list Task.t :=
  match l with
  | [] => [t]
  | u :: l' => if String.leb (Task.id t) (Task.id u) then t :: l else u :: insertById t l'
  end.

(** [orderBy: { id: "asc" }] *)
Definition sortById (l : list Task.t) : list Task.t := foldr insertById [] l.

Definition tasksOfRun (id : string) (s : Store) : list Task.t :=
  filter (fun t => Task.runId t = id) (task s).

Definition findRun (s : Store) (id : string) : option FoundRun.t :=
  r ← jobRun s !! id;
  e ← endpoint s !! JobRun.endpointId r;
  Some (FoundRun.mk id r e
    (sortById (filter (fun t => Task.status t = TaskStatus.COMPLETED) (tasksOfRun id s)))
    (filter (fun x => JobRunSubscription.runId x = id
                      ∧ JobRunSubscription.recipientMethod x = RecipientMethod.ENDPOINT)
            (jobRunSubscription s))
    (Z.of_nat (length (tasksOfRun id s)))).

(** ** The inbound work item, and what the outside world does during one call *)

Inductive Reason := PREPROCESS | EXECUTE_JOB.

Record PerformRunExecutionV3Input := mkInput {
  input_id : string;
  reason : Reason;
  isRetry : bool;
  resumeTaskId : option string;
}.

Record CallInput := mkCallInput {
  BLOCKED_ORGS : option string;             (* process.env.BLOCKED_ORGS *)
  blockedOrgWriteFails : bool;              (* the store rejects the CANCELED write *)
  connectionsResolve : bool;                (* resolveRunConnections(...).success *)
  preprocessRunRequest : option PreprocessResponse.t;
  executeJobRequest : option Response.t;
  durationInMs : Z;                         (* measured by executeJobRequest *)
}.

(** ** Imports of the file that are not among the sources

    Constants of [~/consts] and helper functions whose code is elsewhere; they
    are taken as parameters. *)
Class Imports := {
  MAX_RUN_CHUNK_EXECUTION_LIMIT : Z;
  MAX_RUN_YIELDED_EXECUTIONS : Z;
  RUN_CHUNK_EXECUTION_BUFFER : Z;
  (* supportsFeature("lazyLoadedCachedTasks", version) *)
  supportsLazyLoadedCachedTasks : string -> bool;
  prepareTasksForCaching : list Task.t -> Z -> list Task.t * option string;
  prepareTasksForCachingLegacy : list Task.t -> Z -> list Task.t;
  (* new BloomFilter(NOOP_TASK_SET_SIZE), add every key, serialize *)
  bloomFilterOf : list string -> string;
  detectResponseIsTimeout : Response.t -> bool;
  formatError : string -> string;
}.

(** [String.prototype.includes] *)
Fixpoint includes (s sub : string) : bool :=
  String.prefix sub s
  || match s with
     | EmptyString => false
     | String _ s' => includes s' sub
     end.

Definition try_catch {A} (m : M A) (handler : M A) : M A :=
  fun w => match m w with
           | (inl _, w') => handler w'
           | r => r
           end.

Definition TOTAL_CACHED_TASK_BYTE_LIMIT : Z := 3500000.

Section Service.

Context `{Imports}.

(** The value every [new Date()] of the call evaluates to. *)
Variable now : Z.

Definition isDevelopment (run : FoundRun.t) : bool :=
  bool_decide (JobRun.environmentType (FoundRun.run run) = RuntimeEnvironmentType.DEVELOPMENT).

(** Modelled from the spec: enqueueRunExecutionV3 (~/models/jobRunExecution.server
    is not among the sources) "enqueues a new EXECUTE_JOB" re-execution of the
    run, "skipping retry enqueueing in DEVELOPMENT environments". *)
Definition enqueueRunExecutionV3 (run : FoundRun.t) (skipRetrying : bool) : M unit :=
  enqueue (PerformRunExecutionV3 (FoundRun.id run) skipRetrying).

(** Modelled from the spec: ResumeTaskService.enqueue (../tasks/resumeTask.server
    is not among the sources) enqueues "a ResumeTask job at" the given time. *)
Definition ResumeTaskService_enqueue (taskId : string) (runAt : option Z) : M unit :=
  enqueue (ResumeTask taskId runAt).

(** Modelled from the spec: CompleteRunTaskService.call (the route module is
    not among the sources) "completes the named task with {properties, output}";
    a task that is not of this run is left alone. *)
Definition CompleteRunTaskService_call
    (runId id : string) (properties : option string) (output : option string) : M unit :=
  modifyStore (withTask (map (fun t =>
    if hasTaskId id t && bool_decide (Task.runId t = runId)
    then Task.set_status TaskStatus.COMPLETED
           (Task.set_completedAt (Some now)
             (Task.set_output output (Task.set_outputProperties properties t)))
    else t))).

Inductive FailStatus :=
| F_FAILURE | F_ABORTED | F_TIMED_OUT | F_UNRESOLVED_AUTH | F_INVALID_PAYLOAD.

Definition toRunStatus (st : FailStatus) : JobRunStatus.t :=
  match st with
  | F_FAILURE => JobRunStatus.FAILURE
  | F_ABORTED => JobRunStatus.ABORTED
  | F_TIMED_OUT => JobRunStatus.TIMED_OUT
  | F_UNRESOLVED_AUTH => JobRunStatus.UNRESOLVED_AUTH
  | F_INVALID_PAYLOAD => JobRunStatus.INVALID_PAYLOAD
  end.

(** Prisma leaves a column alone when its [data] value is [undefined]. *)
Definition setIfDefined {A R} (set : option A -> R -> R) (v : option A) (r : R) : R :=
  match v with
  | Some _ => set v r
  | None => r
  end.

Definition isOpenTask (t : Task.t) : bool :=
  match Task.status t with
  | TaskStatus.WAITING | TaskStatus.RUNNING | TaskStatus.PENDING => true
  | _ => false
  end.

(** [#failRunExecution] *)
Definition failRunExecution
    (reason : Reason) (run : FoundRun.t) (output : option Output)
    (status : FailStatus) (durationInMs : Z) : M unit :=
  transaction
    match reason with
    | EXECUTE_JOB =>
        jobRun_update (FoundRun.id run) (fun r =>
          JobRun.set_completedAt (Some now)
            (JobRun.set_status (toRunStatus status)
              (setIfDefined JobRun.set_output output
                (JobRun.set_executionDuration (JobRun.executionDuration r + durationInMs)
                  (JobRun.set_forceYieldImmediately false r)))));;
        modifyStore (withTask (map (fun t =>
          if bool_decide (Task.runId t = FoundRun.id run) && isOpenTask t
          then Task.set_status
                 (match status with
                  | F_TIMED_OUT => TaskStatus.CANCELED
                  | _ => TaskStatus.ERRORED
                  end)
                 (Task.set_completedAt (Some now) t)
          else t)));;
        enqueue (DeliverRunSubscriptions (FoundRun.id run))
    | PREPROCESS =>
        match status with
        | F_ABORTED =>
            jobRun_update (FoundRun.id run) (fun r =>
              JobRun.set_completedAt (Some now)
                (JobRun.set_status (toRunStatus status)
                  (setIfDefined JobRun.set_output output r)));;
            ret tt
        | _ =>
            jobRun_update (FoundRun.id run) (fun r =>
              JobRun.set_status JobRunStatus.STARTED
                (JobRun.set_startedAt (Some now) r));;
            enqueueRunExecutionV3 run (isDevelopment run)
        end
    end.

(** [#failRunExecutionWithRetry] *)
Definition failRunExecutionWithRetry (output : Output) : M unit :=
  throw (RetryError output).

(** [#cancelExecution] *)
Definition cancelExecution (run : FoundRun.t) : M unit := ret tt.

(** [#executePreprocessing] *)
Definition executePreprocessing (run : FoundRun.t) (env : CallInput) : M unit :=
  emit (PreprocessRunRequest (FoundRun.id run));;
  match preprocessRunRequest env with
  | None =>
      failRunExecution PREPROCESS run (Some (OutMessage CouldNotConnect)) F_FAILURE 0
  | Some response =>
      if negb (PreprocessResponse.ok response) then
        failRunExecution PREPROCESS run
          (Some (OutMessage (RespondedWithStatus (PreprocessResponse.status response))))
          F_FAILURE 0
      else
        match PreprocessResponse.body response with
        | NotJson =>
            failRunExecution PREPROCESS run (Some (OutMessage InvalidJSON)) F_FAILURE 0
        | Invalid issues =>
            failRunExecution PREPROCESS run (Some (OutMessage (SchemaIssues issues))) F_FAILURE 0
        | Parsed data =>
            if abort data then
              failRunExecution PREPROCESS run (Some (OutMessage EndpointAborted)) F_ABORTED 0
            else
              transaction
                (jobRun_update (FoundRun.id run) (fun r =>
                   JobRun.set_status JobRunStatus.STARTED
                     (JobRun.set_startedAt (Some now)
                       (setIfDefined JobRun.set_properties (preprocess_properties data)
                         (JobRun.set_forceYieldImmediately false r))));;
                 enqueueRunExecutionV3 run (isDevelopment run))
        end
  end.

(** [#completeRunWithSuccess] *)
Definition completeRunWithSuccess
    (run : FoundRun.t) (output : option string) (durationInMs : Z) : M unit :=
  transaction
    (jobRun_update (FoundRun.id run) (fun r =>
       JobRun.set_completedAt (Some now)
         (JobRun.set_status JobRunStatus.SUCCESS
           (setIfDefined JobRun.set_output (OutPayload <$> output)
             (JobRun.set_executionDuration (JobRun.executionDuration r + durationInMs) r))));;
     enqueue (DeliverRunSubscriptions (FoundRun.id run))).

(** A JavaScript string is truthy when it is not empty. *)
Definition truthy (o : option string) : bool :=
  match o with
  | Some v => negb (bool_decide (v = ""))
  | None => false
  end.

(** [#resumeRunWithTask] *)
Definition resumeRunWithTask
    (run : FoundRun.t) (task : ServerTask.t) (durationInMs executionCount : Z) : M unit :=
  transaction
    (jobRun_update (FoundRun.id run) (fun r =>
       JobRun.set_executionDuration (JobRun.executionDuration r + durationInMs)
         (JobRun.set_executionCount (JobRun.executionCount r + executionCount) r));;
     match ServerTask.outputProperties task with
     | Some props =>
         task_update (ServerTask.id task) (Task.set_outputProperties (Some props));; ret tt
     | None => ret tt
     end;;
     when (negb (truthy (ServerTask.operation task)) && negb (truthy (ServerTask.callbackUrl task)))
       (ResumeTaskService_enqueue (ServerTask.id task) (ServerTask.delayUntil task))).

(** [#resumeYieldedRun] *)
Definition resumeYieldedRun
    (run : FoundRun.t) (key : string) (durationInMs executionCount : Z) : M unit :=
  transaction
    (if MAX_RUN_YIELDED_EXECUTIONS
          <? Z.of_nat (length (JobRun.yieldedExecutions (FoundRun.run run))) + 1
     then
       failRunExecution EXECUTE_JOB run
         (Some (OutMessage (YieldedTooManyTimes MAX_RUN_YIELDED_EXECUTIONS)))
         F_FAILURE durationInMs
     else
       jobRun_update (FoundRun.id run) (fun r =>
         JobRun.set_executionDuration (JobRun.executionDuration r + durationInMs)
           (JobRun.set_executionCount (JobRun.executionCount r + executionCount)
             (JobRun.set_yieldedExecutions (JobRun.yieldedExecutions r ++ [key])
               (JobRun.set_forceYieldImmediately false r))));;
       enqueueRunExecutionV3 run (isDevelopment run)).

Definition autoYieldRow (run : FoundRun.t) (data : AutoYieldMetadata.t) : AutoYieldExecution.t :=
  AutoYieldExecution.mk (FoundRun.id run)
    (AutoYieldMetadata.location data) (AutoYieldMetadata.timeRemaining data)
    (AutoYieldMetadata.timeElapsed data) (default 0 (AutoYieldMetadata.limit data)).

(** The [jobRun.update] shared by the two auto-yield handlers, with its
    nested [autoYieldExecution: { create: [...] }]. *)
Definition recordAutoYield
    (run : FoundRun.t) (data : AutoYieldMetadata.t) (durationInMs executionCount : Z) : M unit :=
  jobRun_update (FoundRun.id run) (fun r =>
    JobRun.set_executionDuration (JobRun.executionDuration r + durationInMs)
      (JobRun.set_executionCount (JobRun.executionCount r + executionCount)
        (JobRun.set_forceYieldImmediately false r)));;
  modifyStore (withAutoYieldExecution (fun rows => rows ++ [autoYieldRow run data])).

(** [#resumeAutoYieldedRun] *)
Definition resumeAutoYieldedRun
    (run : FoundRun.t) (data : AutoYieldMetadata.t) (durationInMs executionCount : Z) : M unit :=
  transaction
    (recordAutoYield run data durationInMs executionCount;;
     enqueueRunExecutionV3 run (isDevelopment run)).

(** [data.output ? JSON.parse(data.output) : undefined] *)
Definition parseIfPresent (o : option JsonText) : M (option string) :=
  match o with
  | None => ret None
  | Some (WellFormed v) => ret (Some v)
  | Some Malformed => throw SyntaxError
  end.

(** [#resumeAutoYieldedRunWithCompletedTask] *)
Definition resumeAutoYieldedRunWithCompletedTask
    (run : FoundRun.t) (id : string) (properties : option string) (output : option JsonText)
    (data : AutoYieldMetadata.t) (durationInMs executionCount : Z) : M unit :=
  transaction
    (recordAutoYield run data durationInMs executionCount;;
     do parsed <- parseIfPresent output;
     CompleteRunTaskService_call (FoundRun.id run) id properties parsed;;
     enqueueRunExecutionV3 run (isDevelopment run)).

(** [#retryRunWithTask] *)
Definition retryRunWithTask
    (run : FoundRun.t) (task : ServerTask.t) (error : string) (retryAt : Z)
    (durationInMs executionCount : Z) : M unit :=
  transaction
    (do existingAttempt <- taskAttempt_findFirstPending (ServerTask.id task);
     match existingAttempt with
     | Some existing =>
         modifyStore (withTaskAttempt (map (fun a =>
           if bool_decide (TaskAttempt.id a = TaskAttempt.id existing)
           then TaskAttempt.set_status TaskAttemptStatus.ERRORED
                  (TaskAttempt.set_error (Some (formatError error)) a)
           else a)))
     | None => ret tt
     end;;
     modifyStore (withTaskAttempt (fun rows =>
       rows ++ [TaskAttempt.mk (length rows) (ServerTask.id task)
                  (match existingAttempt with
                   | Some existing => TaskAttempt.number existing + 1
                   | None => 1
                   end)
                  TaskAttemptStatus.PENDING (Some retryAt) None]));;
     do updated <- task_update (ServerTask.id task) (Task.set_status TaskStatus.WAITING);
     jobRun_update (Task.runId updated) (fun r =>
       JobRun.set_executionDuration (JobRun.executionDuration r + durationInMs)
         (JobRun.set_executionCount (JobRun.executionCount r + executionCount) r));;
     ResumeTaskService_enqueue (ServerTask.id task) (Some retryAt)).

(** [jobRun.findUniqueOrThrow] with the latest task and the task count. *)
Definition findRunWithLatestTask (id : string) : M (option Task.t * Z) :=
  do s <- getStore;
  match jobRun s !! id with
  | None => throw RecordNotFound
  | Some _ => ret (latestBy Task.createdAt (tasksOfRun id s),
                   Z.of_nat (length (tasksOfRun id s)))
  end.

Definition timeoutCause (latestTask : option Task.t) : TimeoutCause :=
  match latestTask with
  | Some t =>
      if bool_decide (Task.status t = TaskStatus.RUNNING)
      then CausedByTask (default (Task.name t) (Task.displayKey t))
      else CausedByCodeOutsideTask
  | None => CausedByCodeOutsideTask
  end.

(** The new [endpoint.runChunkExecutionLimit] after a timeout with progress. *)
Definition adaptedChunkLimit (durationInMs : Z) : Z :=
  Z.min (Z.max durationInMs 10000) MAX_RUN_CHUNK_EXECUTION_LIMIT.

(** [#resumeRunExecutionAfterTimeout] *)
Definition resumeRunExecutionAfterTimeout
    (run : FoundRun.t) (input : PerformRunExecutionV3Input)
    (durationInMs executionCount : Z) : M unit :=
  transaction
    (let executionDuration := JobRun.executionDuration (FoundRun.run run) + durationInMs in
     if JobRun.maximumExecutionTimePerRunInMs (FoundRun.run run) <=? executionDuration then
       failRunExecution EXECUTE_JOB run
         (Some (OutMessage
            (ExecutionTimedOut (JobRun.maximumExecutionTimePerRunInMs (FoundRun.run run)))))
         F_TIMED_OUT durationInMs
     else
       do runWithLatestTask <- findRunWithLatestTask (FoundRun.id run);
       if bool_decide (runWithLatestTask.2 = FoundRun.count_tasks run) then
         failRunExecution EXECUTE_JOB run
           (Some (OutMessage (FunctionTimeout durationInMs (timeoutCause runWithLatestTask.1))))
           F_TIMED_OUT durationInMs
       else
         do updated <- jobRun_update (FoundRun.id run) (fun r =>
           JobRun.set_executionDuration (JobRun.executionDuration r + durationInMs)
             (JobRun.set_forceYieldImmediately false r));
         endpoint_update (JobRun.endpointId updated)
           (Endpoint.set_runChunkExecutionLimit (adaptedChunkLimit durationInMs));;
         enqueueRunExecutionV3 run (isDevelopment run)).

(** [#failRunWithError] *)
Definition failRunWithError
    (execution : FoundRun.t) (error : option string) (task : option ServerTask.t)
    (durationInMs : Z) : M unit :=
  transaction
    (match task with
     | Some t =>
         task_update (ServerTask.id t) (fun row =>
           Task.set_status TaskStatus.ERRORED
             (Task.set_completedAt (Some now)
               (setIfDefined Task.set_output error row)));;
         ret tt
     | None => ret tt
     end;;
     failRunExecution EXECUTE_JOB execution (OutPayload <$> error) F_FAILURE durationInMs).

(** [#failRunWithUnresolvedAuthError] *)
Definition failRunWithUnresolvedAuthError
    (execution : FoundRun.t) (issues : string) (durationInMs : Z) : M unit :=
  transaction
    (failRunExecution EXECUTE_JOB execution (Some (OutPayload issues))
       F_UNRESOLVED_AUTH durationInMs).

(** [#failRunWithInvalidPayloadError] *)
Definition failRunWithInvalidPayloadError
    (execution : FoundRun.t) (errors : string) (durationInMs : Z) : M unit :=
  transaction
    (failRunExecution EXECUTE_JOB execution (Some (OutPayload errors))
       F_INVALID_PAYLOAD durationInMs).

(** What one turn of the [for ... of data.childErrors] loop does next. *)
Inductive LoopStep := Continue | Return.

(** The [switch (childError.status)] of [#resumeParallelRunWithTask]. *)
Definition dispatchChildError
    (run : FoundRun.t) (durationInMs : Z) (childError : RunJobError) : M LoopStep :=
  match childError with
  | AUTO_YIELD_EXECUTION data =>
      resumeAutoYieldedRun run data 0 0;; ret Continue
  | AUTO_YIELD_EXECUTION_WITH_COMPLETED_TASK id properties output data =>
      resumeAutoYieldedRunWithCompletedTask run id properties output data 0 0;; ret Continue
  | CANCELED => ret Continue
  | ERROR error _ =>
      failRunExecution EXECUTE_JOB run (OutPayload <$> error) F_FAILURE durationInMs;;
      ret Return
  | INVALID_PAYLOAD errors =>
      failRunExecution EXECUTE_JOB run (Some (OutPayload errors)) F_INVALID_PAYLOAD durationInMs;;
      ret Return
  | RESUME_WITH_TASK task =>
      resumeRunWithTask run task 0 0;; ret Continue
  | RETRY_WITH_TASK task error retryAt =>
      retryRunWithTask run task error retryAt 0 0;; ret Continue
  | UNRESOLVED_AUTH_ERROR issues =>
      failRunExecution EXECUTE_JOB run (Some (OutPayload issues)) F_UNRESOLVED_AUTH durationInMs;;
      ret Return
  | YIELD_EXECUTION key =>
      resumeYieldedRun run key 0 0;; ret Continue
  end.

Fixpoint forEachChildError
    (run : FoundRun.t) (durationInMs : Z) (childErrors : list RunJobError) : M unit :=
  match childErrors with
  | [] => ret tt
  | childError :: rest =>
      do step <- dispatchChildError run durationInMs childError;
      match step with
      | Continue => forEachChildError run durationInMs rest
      | Return => ret tt
      end
  end.

(** [#resumeParallelRunWithTask]; its writes are not inside one transaction. *)
Definition resumeParallelRunWithTask
    (run : FoundRun.t) (task : ServerTask.t) (childErrors : list RunJobError)
    (durationInMs : Z) : M unit :=
  jobRun_update (FoundRun.id run) (fun r =>
    JobRun.set_executionDuration (JobRun.executionDuration r + durationInMs)
      (JobRun.set_executionCount (JobRun.executionCount r + 1)
        (JobRun.set_forceYieldImmediately false r)));;
  match ServerTask.outputProperties task with
  | Some props =>
      task_update (ServerTask.id task) (Task.set_outputProperties (Some props));; ret tt
  | None => ret tt
  end;;
  forEachChildError run durationInMs childErrors.

(** [prepareNoOpTasksBloomFilter] *)
Definition prepareNoOpTasksBloomFilter (possibleTasks : list Task.t) : string :=
  bloomFilterOf
    (map Task.idempotencyKey
       (filter (fun t => Task.status t = TaskStatus.COMPLETED ∧ Task.noop t = true)
               possibleTasks)).

(** [#createExecutionBody] *)
Definition createExecutionBody
    (run : FoundRun.t) (tasks : list Task.t) (startedAt : Z) (isRetry : bool) : RunJobBody :=
  if supportsLazyLoadedCachedTasks (Endpoint.version (FoundRun.endpoint run)) then
    let preparedTasks := prepareTasksForCaching tasks TOTAL_CACHED_TASK_BYTE_LIMIT in
    mkBody (FoundRun.id run) (JobRun.isTest (FoundRun.run run)) startedAt isRetry
      preparedTasks.1
      (Some (mkLazy preparedTasks.2
               (prepareNoOpTasksBloomFilter tasks)
               (JobRun.yieldedExecutions (FoundRun.run run))
               (Endpoint.runChunkExecutionLimit (FoundRun.endpoint run)
                  - RUN_CHUNK_EXECUTION_BUFFER)
               (Endpoint.startTaskThreshold (FoundRun.endpoint run),
                Endpoint.beforeExecuteTaskThreshold (FoundRun.endpoint run),
                Endpoint.beforeCompleteTaskThreshold (FoundRun.endpoint run),
                Endpoint.afterCompleteTaskThreshold (FoundRun.endpoint run))))
  else
    mkBody (FoundRun.id run) (JobRun.isTest (FoundRun.run run)) startedAt isRetry
      (prepareTasksForCachingLegacy tasks TOTAL_CACHED_TASK_BYTE_LIMIT)
      None.

Definition isBlockedOrg (env : CallInput) (run : FoundRun.t) : bool :=
  match BLOCKED_ORGS env with
  | Some blocked => includes blocked (JobRun.organizationId (FoundRun.run run))
  | None => false
  end.

(** The [try { if (blocked) { ...; return; } } catch (e) {}] of [#executeJob];
    [true] when it returned from [#executeJob]. *)
Definition blockedOrgGuard (run : FoundRun.t) (env : CallInput) : M bool :=
  try_catch
    (if isBlockedOrg env run then
       (if blockedOrgWriteFails env then throw StoreUnavailable else ret tt);;
       jobRun_update (FoundRun.id run) (fun r =>
         JobRun.set_status JobRunStatus.CANCELED (JobRun.set_completedAt (Some now) r));;
       ret true
     else ret false)
    (ret false).

Definition subscriptionFor (run : FoundRun.t) (event : SubscriptionEvent.t)
  : JobRunSubscription.t :=
  JobRunSubscription.mk (FoundRun.id run) (FoundRun.endpoint_id run)
    RecipientMethod.ENDPOINT event SubscriptionStatus.ACTIVE.

Definition hasSubscriptionTo (event : SubscriptionEvent.t) (run : FoundRun.t) : bool :=
  existsb (fun s => bool_decide (JobRunSubscription.event s = event))
          (FoundRun.subscriptions run).

(** The events for which the answer's run metadata makes [#executeJob] issue
    an upsert, in the order of the two [if]s. *)
Definition subscriptionUpserts (run : FoundRun.t) (headers : option ResponseHeaders)
  : list SubscriptionEvent.t :=
  match headers with
  | Some data =>
      match x_trigger_run_metadata data with
      | Some metadata =>
          if negb (JobRun.internal (FoundRun.run run)) then
            (if successSubscription metadata
                && negb (hasSubscriptionTo SubscriptionEvent.SUCCESS run)
             then [SubscriptionEvent.SUCCESS] else [])
            ++
            (if failedSubscription metadata
                && negb (hasSubscriptionTo SubscriptionEvent.FAILURE run)
             then [SubscriptionEvent.FAILURE] else [])
          else []
      | None => []
      end
  | None => []
  end.

Fixpoint forEach {A} (f : A -> M unit) (l : list A) : M unit :=
  match l with
  | [] => ret tt
  | a :: l' => f a;; forEach f l'
  end.

(** The header side effects of [#executeJob], once the headers are parsed:
    endpoint version, then the subscriptions asked for by
    [x-trigger-run-metadata]. *)
Definition applyResponseHeaders (run : FoundRun.t) (headers : option ResponseHeaders) : M unit :=
  match headers with
  | Some data =>
      when (truthy (trigger_version data)
            && negb (bool_decide (trigger_version data
                                  = Some (Endpoint.version (FoundRun.endpoint run)))))
        (endpoint_update (FoundRun.endpoint_id run)
           (Endpoint.set_version (default "" (trigger_version data))))
  | None => ret tt
  end;;
  forEach (fun event => jobRunSubscription_upsert (subscriptionFor run event))
          (subscriptionUpserts run headers).

Definition is4xx (status : Z) : bool := (400 <=? status) && (status <=? 499).

(** The [switch (status)] of [#executeJob]. *)
Definition dispatchResponse
    (run : FoundRun.t) (data : RunJobResponse) (durationInMs : Z) : M unit :=
  match data with
  | SUCCESS output => completeRunWithSuccess run output durationInMs
  | RESUME_WITH_PARALLEL_TASK task childErrors =>
      resumeParallelRunWithTask run task childErrors durationInMs
  | Errored (RESUME_WITH_TASK task) => resumeRunWithTask run task durationInMs 1
  | Errored (ERROR error task) => failRunWithError run error task durationInMs
  | Errored (RETRY_WITH_TASK task error retryAt) =>
      retryRunWithTask run task error retryAt durationInMs 1
  | Errored CANCELED => cancelExecution run
  | Errored (UNRESOLVED_AUTH_ERROR issues) =>
      failRunWithUnresolvedAuthError run issues durationInMs
  | Errored (INVALID_PAYLOAD errors) =>
      failRunWithInvalidPayloadError run errors durationInMs
  | Errored (YIELD_EXECUTION key) => resumeYieldedRun run key durationInMs 1
  | Errored (AUTO_YIELD_EXECUTION data) => resumeAutoYieldedRun run data durationInMs 1
  | Errored (AUTO_YIELD_EXECUTION_WITH_COMPLETED_TASK id properties output data) =>
      resumeAutoYieldedRunWithCompletedTask run id properties output data durationInMs 1
  end.

(** [#executeJob] from the answer of [executeJobRequest] on. *)
Definition interpretResponse
    (run : FoundRun.t) (input : PerformRunExecutionV3Input) (env : CallInput)
    (executionCount : Z) : M unit :=
  match executeJobRequest env with
  | None =>
      failRunExecutionWithRetry
        (OutMessage (ConnectionNotEstablished (Endpoint.url (FoundRun.endpoint run))))
  | Some response =>
      do headers <- match Response.headers response with
                    | HeadersVerdict verdict => ret verdict
                    | HeadersThrow => throw SyntaxError
                    end;
      applyResponseHeaders run headers;;
      if negb (Response.ok response) then
        match Response.errorBody response with
        | Parsed data =>
            if is4xx (Response.status response)
            then failRunExecution EXECUTE_JOB run (Some (OutPayload data)) F_FAILURE 0
            else failRunExecutionWithRetry (OutPayload data)
        | _ =>
            if is4xx (Response.status response)
               && negb (bool_decide (Response.status response = 408))
            then failRunExecution EXECUTE_JOB run
                   (Some (OutMessage (RespondedWithStatus (Response.status response))))
                   F_FAILURE (durationInMs env)
            else if detectResponseIsTimeout response
            then resumeRunExecutionAfterTimeout run input (durationInMs env) executionCount
            else failRunExecutionWithRetry
                   (OutMessage (RespondedWithStatus (Response.status response)))
        end
      else
        match Response.body response with
        | NotJson =>
            failRunExecution EXECUTE_JOB run (Some (OutMessage InvalidJSON))
              F_FAILURE (durationInMs env)
        | Invalid issues =>
            failRunExecution EXECUTE_JOB run (Some (OutMessage (SchemaIssues issues)))
              F_FAILURE (durationInMs env)
        | Parsed data => dispatchResponse run data (durationInMs env)
        end
  end.

(** The first [jobRun.update] of [#executeJob]: count the chunk, and start a
    queued run. The new status and start time come from the loaded [run]. *)
Definition startChunk (run : FoundRun.t) : M JobRun.t :=
  jobRun_update (FoundRun.id run) (fun r =>
    JobRun.set_status
      (if bool_decide (JobRun.status (FoundRun.run run) = JobRunStatus.QUEUED)
       then JobRunStatus.STARTED else JobRun.status (FoundRun.run run))
      (JobRun.set_startedAt (Some (default now (JobRun.startedAt (FoundRun.run run))))
        (JobRun.set_executionCount (JobRun.executionCount r + 1) r))).

(** The deprecated [resumeTaskId] branch of [#executeJob]. *)
Definition resumeTaskById (resumeTaskId : option string) : M (option Task.t) :=
  match resumeTaskId with
  | Some id =>
      if truthy resumeTaskId then
        do found <- task_findUnique id;
        match found with
        | Some resumedTask =>
            do updated <- task_update id (fun t =>
              Task.set_status
                (if Task.noop resumedTask then TaskStatus.COMPLETED else TaskStatus.RUNNING)
                (if Task.noop resumedTask then Task.set_completedAt (Some now) t else t));
            ret (Some updated)
        | None => ret None
        end
      else ret None
  | None => ret None
  end.

(** [#executeJob] *)
Definition executeJob
    (run : FoundRun.t) (input : PerformRunExecutionV3Input) (driftInMs : Z)
    (env : CallInput) : M unit :=
  finally
    (if bool_decide (JobRun.status (FoundRun.run run) = JobRunStatus.CANCELED) then
       cancelExecution run
     else
       do returned <- blockedOrgGuard run env;
       if returned then ret tt else
       let startedAt := now in
       do updated <- startChunk run;
       let executionCount := JobRun.executionCount updated in
       if negb (connectionsResolve env) then
         failRunExecution EXECUTE_JOB run
           (Some (OutMessage (CouldNotResolveConnections (FoundRun.id run)))) F_FAILURE 0
       else
         do resumedTask <- resumeTaskById (resumeTaskId input);
         let executionBody :=
           createExecutionBody run (FoundRun.tasks run ++ option_list resumedTask)
             startedAt (isRetry input) in
         registerRun (FoundRun.id run);;
         emit (ExecutionEvent start driftInMs (FoundRun.id run));;
         emit (ExecuteJobRequest executionBody);;
         emit (ExecutionEvent finish 0 (FoundRun.id run));;
         deregisterRun (FoundRun.id run);;
         interpretResponse run input env executionCount)
    (deregister (FoundRun.id run)).

(** [call] *)
Definition call (input : PerformRunExecutionV3Input) (driftInMs : Z) (env : CallInput)
  : M unit :=
  do s <- getStore;
  match findRun s (input_id input) with
  | None => ret tt
  | Some run =>
      match reason input with
      | PREPROCESS => executePreprocessing run env
      | EXECUTE_JOB => executeJob run input driftInMs env
      end
  end.

End Service.

(** * Vocabulary of the statements *)

(** ** Relations between the store before and after a computation *)

(** [m] relates the store it starts from to the store it leaves, whether it
    returns or throws. *)
Definition preserves (R : relation Store) {A} (m : M A) : Prop :=
  forall w, R (db w) (db (m w).2).

(** The pairs (task id, run id) of the task table, in table order. *)
Definition taskKeys (s : Store) : list (string * string) :=
  map (fun t => (Task.id t, Task.runId t)) (task s).

Definition countStep (exact : bool) (c c' : Z) : Prop :=
  if exact then c' = c else c <= c'.

(** From [s] to [s']: tasks keep their ids and runs, every run is still
    there, and its execution count is the same ([exact]) or not smaller. *)
Definition steady (exact : bool) (s s' : Store) : Prop :=
  taskKeys s' = taskKeys s
  /\ forall id r, jobRun s !! id = Some r ->
       exists r', jobRun s' !! id = Some r'
                  /\ countStep exact (JobRun.executionCount r) (JobRun.executionCount r').

(** How a handler's [executionCount] argument fits the two readings. *)
Definition fits (exact : bool) (executionCount : Z) : Prop :=
  if exact then executionCount = 0 else 0 <= executionCount.

(** When [m] returns, run [id] has gained exactly [d] executions; [P] is what
    [m] needs to know about which task belongs to which run. *)
Definition counts (P : list (string * string) -> Prop) (id : string) (d : Z)
    {A} (m : M A) : Prop :=
  forall w a w', P (taskKeys (db w)) -> m w = (inr a, w') ->
    taskKeys (db w') = taskKeys (db w)
    /\ forall r, jobRun (db w) !! id = Some r ->
         exists r', jobRun (db w') !! id = Some r'
                    /\ JobRun.executionCount r' = JobRun.executionCount r + d.

Definition silent {A} (m : M A) : Prop := forall w, effects (m w).2 = effects w.

Section Vocabulary.

Context `{Imports}.

(** What the handler that [dispatchResponse] picks adds to the execution
    count of the run: the [executionCount] argument it is called with (the
    default, 1) where the handler counts, and nothing where it does not. *)
Definition countedByHandler (run : FoundRun.t) (data : RunJobResponse) : Z :=
  match data with
  | SUCCESS _ => 0
  | RESUME_WITH_PARALLEL_TASK _ _ => 1
  | Errored (RESUME_WITH_TASK _) => 1
  | Errored (RETRY_WITH_TASK _ _ _) => 1
  | Errored (AUTO_YIELD_EXECUTION _) => 1
  | Errored (AUTO_YIELD_EXECUTION_WITH_COMPLETED_TASK _ _ _ _) => 1
  | Errored (YIELD_EXECUTION _) =>
      if MAX_RUN_YIELDED_EXECUTIONS
           <? Z.of_nat (length (JobRun.yieldedExecutions (FoundRun.run run))) + 1
      then 0 else 1
  | Errored (ERROR _ _) | Errored (INVALID_PAYLOAD _)
  | Errored (UNRESOLVED_AUTH_ERROR _) | Errored CANCELED => 0
  end.

(** The task that a RETRY_WITH_TASK answer names is a task of run [owner],
    which need not be the run of the chunk. *)
Definition namesTaskOf (data : RunJobResponse) (owner : string)
    (keys : list (string * string)) : Prop :=
  match data with
  | Errored (RETRY_WITH_TASK task _ _) =>
      forall k, k ∈ keys -> k.1 = ServerTask.id task -> k.2 = owner
  | _ => True
  end.

(** [d] for the run [target], nothing for another run. *)
Definition onRun (id target : string) (d : Z) : Z :=
  if bool_decide (id = target) then d else 0.

(** What the handler adds to the execution count of run [id]: the handler of
    RETRY_WITH_TASK counts on the run of the task that the answer names
    ([owner]), the other handlers on the run of the chunk. *)
Definition countedOn (id : string) (run : FoundRun.t) (data : RunJobResponse)
    (owner : string) : Z :=
  match data with
  | Errored (RETRY_WITH_TASK _ _ _) => onRun id owner 1
  | _ => onRun id (FoundRun.id run) (countedByHandler run data)
  end.

(** The chunk is one whose outcome the service accepts: the run is not
    cancelled or blocked, its connections resolve, and the endpoint answers
    2xx with a body [data] that passes the schema. *)
Definition acceptedChunk (env : CallInput) (run : FoundRun.t) (data : RunJobResponse) : Prop :=
  JobRun.status (FoundRun.run run) <> JobRunStatus.CANCELED
  /\ isBlockedOrg env run = false
  /\ connectionsResolve env = true
  /\ exists response,
       executeJobRequest env = Some response
       /\ Response.ok response = true
       /\ Response.body response = Parsed data.

End Vocabulary.

(** The headers of the answer to the execute request, if there is one, are
    read without a throw: [safeParse] returns. *)
Definition headersAreRead (env : CallInput) : bool :=
  match executeJobRequest env with
  | Some response =>
      match Response.headers response with
      | HeadersVerdict _ => true
      | HeadersThrow => false
      end
  | None => true
  end.

(** The preprocess step fails: no HTTP response, a non-2xx status, a body
    that is not JSON or does not pass the schema, or [abort = true]. *)
Definition preprocessFails (env : CallInput) : Prop :=
  match preprocessRunRequest env with
  | None => True
  | Some response =>
      PreprocessResponse.ok response = false
      \/ match PreprocessResponse.body response with
         | NotJson | Invalid _ => True
         | Parsed data => abort data = true
         end
  end.

(** The failure is the endpoint's [abort = true] in a valid 2xx body. *)
Definition preprocessAborts (env : CallInput) : bool :=
  match preprocessRunRequest env with
  | None => false
  | Some response =>
      PreprocessResponse.ok response
      && match PreprocessResponse.body response with
         | Parsed data => abort data
         | _ => false
         end
  end.

(** The same call in a process whose BLOCKED_ORGS is not set. *)
Definition withoutBlockedOrgs (env : CallInput) : CallInput :=
  mkCallInput None (blockedOrgWriteFails env) (connectionsResolve env)
    (preprocessRunRequest env) (executeJobRequest env) (durationInMs env).

(** The subscription rows for one event. *)
Definition rowsFor (event : SubscriptionEvent.t) (s : Store) : list JobRunSubscription.t :=
  filter (fun x => JobRunSubscription.event x = event) (jobRunSubscription s).

(** The child errors on which the loop of [#resumeParallelRunWithTask] returns. *)
Definition isTerminalChild (childError : RunJobError) : bool :=
  match childError with
  | ERROR _ _ | INVALID_PAYLOAD _ | UNRESOLVED_AUTH_ERROR _ => true
  | _ => false
  end.

Definition failStatusOfChild (childError : RunJobError) : JobRunStatus.t :=
  match childError with
  | INVALID_PAYLOAD _ => JobRunStatus.INVALID_PAYLOAD
  | UNRESOLVED_AUTH_ERROR _ => JobRunStatus.UNRESOLVED_AUTH
  | _ => JobRunStatus.FAILURE
  end.






(** * Further vocabulary: what the rest of the service keeps *)

(** [m] leaves the projection [f] of the world as it was, whether it returns
    or throws. *)
Definition frames {X A} (f : World -> X) (m : M A) : Prop := forall w, f (m w).2 = f w.

(** [f] does not look at the store. *)
Definition storeBlind {X} (f : World -> X) : Prop :=
  forall w s, f (mkWorld s (effects w) (registeredRuns w)) = f w.

(** Every exception that [m] can throw is in [E]. *)
Definition throwsOnly {A} (E : Exn -> Prop) (m : M A) : Prop :=
  forall w e, (m w).1 = inl e -> E e.

Definition isRetryError (e : Exn) : Prop :=
  match e with
  | RetryError _ => True
  | _ => False
  end.

Definition notRetry (e : Exn) : Prop := ~ isRetryError e.

(** The outcome is the exception of [#failRunExecutionWithRetry], on which
    the queue runs the job again. *)
Definition asksForRetry {A} (outcome : Exn + A) : bool :=
  match outcome with
  | inl (RetryError _) => true
  | _ => false
  end.

(** What [#failRunExecution] makes of an open task of the failed run. *)
Definition closedTask (now : Z) (status : FailStatus) (t : Task.t) : Task.t :=
  Task.set_status
    (match status with
     | F_TIMED_OUT => TaskStatus.CANCELED
     | _ => TaskStatus.ERRORED
     end)
    (Task.set_completedAt (Some now) t).

(** Everything but the run rows and the queue is the same in [s] and [s']. *)
Definition sameBesidesRunsAndQueue (s s' : Store) : Prop :=
  endpoint s' = endpoint s
  /\ task s' = task s
  /\ taskAttempt s' = taskAttempt s
  /\ jobRunSubscription s' = jobRunSubscription s
  /\ autoYieldExecution s' = autoYieldExecution s.

(** The key (run, recipient, event) of a subscription row. *)
Definition subscriptionKey (x : JobRunSubscription.t)
  : string * string * SubscriptionEvent.t :=
  (JobRunSubscription.runId x, JobRunSubscription.recipient x, JobRunSubscription.event x).

(** The columns that account for executions are the same in [r] and [r']. *)
Definition sameAccounting (r r' : JobRun.t) : Prop :=
  JobRun.executionCount r' = JobRun.executionCount r
  /\ JobRun.executionDuration r' = JobRun.executionDuration r
  /\ JobRun.yieldedExecutions r' = JobRun.yieldedExecutions r.

(** From [s] to [s'] only the row of run [id] was written, without a change
    to what accounts for its executions, and only executions of that run
    were queued. *)
Definition touchesRunOnly (id : string) (s s' : Store) : Prop :=
  sameBesidesRunsAndQueue s s'
  /\ (forall id', id' <> id -> jobRun s' !! id' = jobRun s !! id')
  /\ (forall r, jobRun s !! id = Some r ->
        exists r', jobRun s' !! id = Some r' /\ sameAccounting r r')
  /\ exists added,
       workerQueue s' = workerQueue s ++ added
       /\ forall j, j ∈ added -> exists skipRetrying, j = PerformRunExecutionV3 id skipRetrying.

(** What identifies an attempt: its id, its task, its number and when it is due. *)
Definition attemptIdentity (a : TaskAttempt.t) : nat * string * Z * option Z :=
  (TaskAttempt.id a, TaskAttempt.taskId a, TaskAttempt.number a, TaskAttempt.runAt a).

(** What identifies a task: its id, its run, its idempotency key, its name,
    when it was created and whether it is a no-op. *)
Definition taskIdentity (t : Task.t) : string * string * string * string * Z * bool :=
  (Task.id t, Task.runId t, Task.idempotencyKey t, Task.name t, Task.createdAt t, Task.noop t).

(** From [r] to [r'] the run has kept what it is and what it has used: its
    organization, endpoint, environment and limits are the same, and its
    yield keys are still there in front of the new ones. *)
Record runHistory (r r' : JobRun.t) : Prop := {
  organization_kept : JobRun.organizationId r' = JobRun.organizationId r;
  endpoint_kept : JobRun.endpointId r' = JobRun.endpointId r;
  environment_kept : JobRun.environmentType r' = JobRun.environmentType r;
  isTest_kept : JobRun.isTest r' = JobRun.isTest r;
  internal_kept : JobRun.internal r' = JobRun.internal r;
  limit_kept :
    JobRun.maximumExecutionTimePerRunInMs r' = JobRun.maximumExecutionTimePerRunInMs r;
  yields_kept : JobRun.yieldedExecutions r `prefix_of` JobRun.yieldedExecutions r';
}.

(** From [s] to [s'] nothing recorded was lost: the queue, the auto-yield
    rows, the subscriptions and the attempts (as identified) of [s] are the
    front of those of [s'], subscription keys that were unique are unique,
    the tasks are the same ones, and every run is still there with its
    history. *)
Record keepsHistory (s s' : Store) : Prop := {
  queue_kept : workerQueue s `prefix_of` workerQueue s';
  autoYields_kept : autoYieldExecution s `prefix_of` autoYieldExecution s';
  subscriptions_kept : jobRunSubscription s `prefix_of` jobRunSubscription s';
  subscriptions_unique :
    NoDup (map subscriptionKey (jobRunSubscription s)) ->
    NoDup (map subscriptionKey (jobRunSubscription s'));
  attempts_kept :
    map attemptIdentity (taskAttempt s) `prefix_of` map attemptIdentity (taskAttempt s');
  tasks_kept : map taskIdentity (task s') = map taskIdentity (task s);
  runs_kept :
    forall id r, jobRun s !! id = Some r ->
      exists r', jobRun s' !! id = Some r' /\ runHistory r r';
}.

(** From [s] to [s'] jobs were only added to the queue, every run is still
    there, and a run whose completion time is not the one it had has the
    delivery of its subscriptions among the jobs added. *)
Definition completionsAreDelivered (s s' : Store) : Prop :=
  exists added,
    workerQueue s' = workerQueue s ++ added
    /\ forall id r, jobRun s !! id = Some r ->
         exists r', jobRun s' !! id = Some r'
           /\ (JobRun.completedAt r' = JobRun.completedAt r
               \/ DeliverRunSubscriptions id ∈ added).

(** * The resume service: ResumeAttemptService

    The second unit of src/apps/webapp/app/services/accessInfo.server.ts: the
    answer of the platform to READY_FOR_RESUME from a coordinator. Statuses
    are the string literals of the code. The log calls are left out. *)

Module ResumeAttemptService.

Module TaskRun.
Record t := mk {
  status : string;
  lockedAt : option Z;
  lockedById : option string;
}.
Definition set_status v (r : t) : t := mk v (lockedAt r) (lockedById r).
End TaskRun.

Module TaskRunAttempt.
Record t := mk {
  id : string;
  friendlyId : string;
  taskRunId : string;
  number : Z;
  status : string;
}.
Definition set_status v (a : t) : t := mk (id a) (friendlyId a) (taskRunId a) (number a) v.
End TaskRunAttempt.

(** A row of [attempt.dependencies]: the run that the attempt waits for. *)
Module TaskRunDependency.
Record t := mk {
  taskRunId : string;
  dependentAttemptId : option string;
  createdAt : Z;
}.
End TaskRunDependency.

(** A row of [attempt.batchDependencies]; an item is given by its run. *)
Module BatchTaskRun.
Record t := mk {
  dependentTaskAttemptId : option string;
  items : list string;
  createdAt : Z;
}.
End BatchTaskRun.

Record Store := mkStore {
  taskRun : gmap string TaskRun.t;
  taskRunAttempt : list TaskRunAttempt.t;
  taskRunDependency : list TaskRunDependency.t;
  batchTaskRun : list BatchTaskRun.t;
}.

(** ** What leaves the service *)

Section Service.

(** [TaskRunExecutionResult] and [TaskRunExecution] of @trigger.dev/core/v3. *)
Variables Completion Execution : Type.

Inductive Message :=
| RESUME_AFTER_DURATION (attemptId attemptFriendlyId : string)
| RESUME_AFTER_DEPENDENCY (runId attemptId attemptFriendlyId : string)
    (completions : list Completion) (executions : list Execution).

Inductive Effect :=
| Emit (message : Message)                 (* socketIo.coordinatorNamespace.emit *)
| AcknowledgeMessage (taskRunId : string).  (* marqs?.acknowledgeMessage *)

Inductive Exn :=
| TypeError          (* a property of undefined is read *)
| ValidationError.   (* Prisma: findUnique without a unique field *)

(** How a call ends: the store and what it sent, and the exception if it
    threw. The one write of [call] is its last statement but one, and the
    last does not throw, so that [$transaction] has nothing to undo. *)
Record Outcome := mkOutcome {
  thrown : option Exn;
  db : Store;
  effects : list Effect;
}.

(** ** Imports of the file that are not among the sources *)

(** [marqs] is defined. *)
Variable marqs : bool.
(** [sharedQueueTasks.getCompletionPayloadFromAttempt(id)] and
    [(await sharedQueueTasks.getExecutionPayloadFromAttempt(id))?.execution];
    they read the store. *)
Variable getCompletionPayloadFromAttempt : Store -> string -> option Completion.
Variable getExecutionPayloadFromAttempt : Store -> string -> option Execution.

(** ** The attempt with what [call] includes *)

Inductive WaitType := WAIT_FOR_DURATION | WAIT_FOR_TASK | WAIT_FOR_BATCH.

(** The READY_FOR_RESUME message, as far as [call] reads it. *)
Record Params := mkParams {
  attemptFriendlyId : string;
  type : WaitType;
}.

(** [taskRun: { include: { attempts: { orderBy: { number: "desc" }, take: 1,
    select: { id: true } } } }]: the id of [taskRun.attempts[0]], if any. *)
Definition latestAttemptId (s : Store) (runId : string) : option string :=
  TaskRunAttempt.id
    <$> latestBy TaskRunAttempt.number
          (filter (fun a => TaskRunAttempt.taskRunId a = runId) (taskRunAttempt s)).

Record FoundAttempt := mkFound {
  attempt : TaskRunAttempt.t;
  attempt_taskRun : TaskRun.t;
  (* [orderBy: { createdAt: "desc" }, take: 1], each with [taskRun.attempts[0]?.id] *)
  dependencies : list (option string);
  (* [orderBy: { createdAt: "desc" }, take: 1], each with the
     [taskRun.attempts[0]?.id] of its items *)
  batchDependencies : list (list (option string));
}.

(** [tx.taskRunAttempt.findUnique({ where: { friendlyId }, include })] *)
Definition findAttempt (s : Store) (friendlyId : string) : option FoundAttempt :=
  a ← find (fun a => bool_decide (TaskRunAttempt.friendlyId a = friendlyId)) (taskRunAttempt s);
  r ← taskRun s !! TaskRunAttempt.taskRunId a;
  Some (mkFound a r
    ((fun d => latestAttemptId s (TaskRunDependency.taskRunId d))
       <$> option_list
             (latestBy TaskRunDependency.createdAt
                (filter (fun d => TaskRunDependency.dependentAttemptId d
                                  = Some (TaskRunAttempt.id a))
                        (taskRunDependency s))))
    ((fun b => latestAttemptId s <$> BatchTaskRun.items b)
       <$> option_list
             (latestBy BatchTaskRun.createdAt
                (filter (fun b => BatchTaskRun.dependentTaskAttemptId b
                                  = Some (TaskRunAttempt.id a))
                        (batchTaskRun s))))).

(** [tx.taskRunAttempt.findUnique({ where: { id, taskRun: { lockedAt: { not:
    null }, lockedById: { not: null } } } })] *)
Definition findLockedAttempt (s : Store) (id : string) : option TaskRunAttempt.t :=
  a ← find (fun a => bool_decide (TaskRunAttempt.id a = id)) (taskRunAttempt s);
  r ← taskRun s !! TaskRunAttempt.taskRunId a;
  match TaskRun.lockedAt r, TaskRun.lockedById r with
  | Some _, Some _ => Some a
  | _, _ => None
  end.

(** ** [#handleDependencyResume] *)

(** How the [for ... of completedAttemptIds] loop ends. *)
Inductive Collected :=
| Threw (e : Exn)
| Acknowledged                   (* [marqs?.acknowledgeMessage] and [return] *)
| Done (completions : list Completion) (executions : list Execution).

Fixpoint collect (s : Store) (completedAttemptIds : list (option string))
    (completions : list Completion) (executions : list Execution) : Collected :=
  match completedAttemptIds with
  | [] => Done completions executions
  | None :: _ => Threw ValidationError
  | Some completedAttemptId :: rest =>
      match findLockedAttempt s completedAttemptId with
      | None => Acknowledged
      | Some completedAttempt =>
          match getCompletionPayloadFromAttempt s (TaskRunAttempt.id completedAttempt) with
          | None => Acknowledged
          | Some completion =>
              match getExecutionPayloadFromAttempt s (TaskRunAttempt.id completedAttempt) with
              | None => Acknowledged
              | Some execution =>
                  collect s rest (completions ++ [completion]) (executions ++ [execution])
              end
          end
      end
  end.

(** [tx.taskRunAttempt.update({ where: { id }, data: { status, taskRun: {
    update: { data: { status } } } } })] *)
Definition resumeAttempt (a : TaskRunAttempt.t) (s : Store) : Store :=
  mkStore
    (alter (TaskRun.set_status
              (if 1 <? TaskRunAttempt.number a then "RETRYING_AFTER_FAILURE" else "EXECUTING"))
           (TaskRunAttempt.taskRunId a) (taskRun s))
    (map (fun row =>
            if bool_decide (TaskRunAttempt.id row = TaskRunAttempt.id a)
            then TaskRunAttempt.set_status "EXECUTING" row else row)
         (taskRunAttempt s))
    (taskRunDependency s) (batchTaskRun s).

Definition acknowledgeMessage (taskRunId : string) : list Effect :=
  if marqs then [AcknowledgeMessage taskRunId] else [].

(** [sent] is what [call] has sent before. *)
Definition handleDependencyResume
    (a : TaskRunAttempt.t) (completedAttemptIds : list (option string))
    (s : Store) (sent : list Effect) : Outcome :=
  match completedAttemptIds with
  | [] => mkOutcome None s sent
  | _ =>
      match collect s completedAttemptIds [] [] with
      | Threw e => mkOutcome (Some e) s sent
      | Acknowledged =>
          mkOutcome None s (sent ++ acknowledgeMessage (TaskRunAttempt.taskRunId a))
      | Done completions executions =>
          mkOutcome None (resumeAttempt a s)
            (sent ++ [Emit (RESUME_AFTER_DEPENDENCY (TaskRunAttempt.taskRunId a)
                              (TaskRunAttempt.id a) (TaskRunAttempt.friendlyId a)
                              completions executions)])
      end
  end.

(** ** [call] *)

Definition call (params : Params) (s : Store) : Outcome :=
  match findAttempt s (attemptFriendlyId params) with
  | None => mkOutcome None s []
  | Some found =>
      let a := attempt found in
      if negb (bool_decide (TaskRun.status (attempt_taskRun found) = "WAITING_TO_RESUME"))
      then mkOutcome None s []
      else
        match type params with
        | WAIT_FOR_DURATION =>
            handleDependencyResume a [] s
              [Emit (RESUME_AFTER_DURATION (TaskRunAttempt.id a) (TaskRunAttempt.friendlyId a))]
        | WAIT_FOR_TASK =>
            match dependencies found with
            | dependency :: _ =>
                match dependency with
                | Some dependentAttemptId =>
                    handleDependencyResume a [Some dependentAttemptId] s []
                | None => mkOutcome None s []
                end
            | [] => mkOutcome None s []
            end
        | WAIT_FOR_BATCH =>
            match batchDependencies found with
            | dependentBatchItems :: _ => handleDependencyResume a dependentBatchItems s []
            | [] => mkOutcome (Some TypeError) s []
            end
        end
  end.

End Service.

Arguments RESUME_AFTER_DURATION {Completion Execution}.
Arguments RESUME_AFTER_DEPENDENCY {Completion Execution}.
Arguments Emit {Completion Execution}.
Arguments AcknowledgeMessage {Completion Execution}.
Arguments mkOutcome {Completion Execution}.
Arguments thrown {Completion Execution}.
Arguments db {Completion Execution}.
Arguments effects {Completion Execution}.
Arguments Threw {Completion Execution}.
Arguments Acknowledged {Completion Execution}.
Arguments Done {Completion Execution}.
Arguments collect {Completion Execution}.
Arguments acknowledgeMessage {Completion Execution}.
Arguments handleDependencyResume {Completion Execution}.
Arguments call {Completion Execution}.

End ResumeAttemptService.

(** ** Vocabulary for the resume service *)

(** The dependency whose latest attempt is [completedAttemptId] can be
    resumed from: the attempt is there, its run is locked, and both payloads
    can be had. *)
Definition resumableFrom {Completion Execution : Type}
    (getCompletionPayloadFromAttempt : ResumeAttemptService.Store -> string -> option Completion)
    (getExecutionPayloadFromAttempt : ResumeAttemptService.Store -> string -> option Execution)
    (s : ResumeAttemptService.Store)
    (completedAttemptId : option string) (completion : Completion) (execution : Execution)
  : Prop :=
  exists id completedAttempt,
    completedAttemptId = Some id
    /\ ResumeAttemptService.findLockedAttempt s id = Some completedAttempt
    /\ getCompletionPayloadFromAttempt s
         (ResumeAttemptService.TaskRunAttempt.id completedAttempt) = Some completion
    /\ getExecutionPayloadFromAttempt s
         (ResumeAttemptService.TaskRunAttempt.id completedAttempt) = Some execution.

(** The effect is the message that sends an attempt back to work after its
    dependencies. *)
Definition isResumeAfterDependency {Completion Execution : Type}
    (e : ResumeAttemptService.Effect Completion Execution) : Prop :=
  match e with
  | ResumeAttemptService.Emit (ResumeAttemptService.RESUME_AFTER_DEPENDENCY _ _ _ _ _) => True
  | _ => False
  end.

(** * Concrete runs of the service *)

Module Scenario.

(** Values for the constants of [~/consts] and stand-ins for the helpers
    that live in other files, for running the service on concrete inputs. *)
Definition imports : Imports := {|
  MAX_RUN_CHUNK_EXECUTION_LIMIT := 120000;
  MAX_RUN_YIELDED_EXECUTIONS := 100;
  RUN_CHUNK_EXECUTION_BUFFER := 350;
  supportsLazyLoadedCachedTasks := fun _ => true;
  prepareTasksForCaching := fun tasks _ => (tasks, None);
  prepareTasksForCachingLegacy := fun tasks _ => tasks;
  bloomFilterOf := fun _ => "";
  detectResponseIsTimeout := fun r =>
    bool_decide (Response.status r = 504) || bool_decide (Response.status r = 408);
  formatError := fun e => e;
|}.

Definition r1 : JobRun.t :=
  JobRun.mk JobRunStatus.QUEUED None None 0 0 [] None None false false false
    "org1" "ep1" RuntimeEnvironmentType.PRODUCTION 60000.

Definition ep1 : Endpoint.t := Endpoint.mk "https://example.test/api/trigger" "3.0.0" 60000 1 2 3 4.

Definition store0 : Store := mkStore {["r1" := r1]} {["ep1" := ep1]} [] [] [] [] [].

Definition world (s : Store) : World := mkWorld s [] ∅.

Definition executeR1 : PerformRunExecutionV3Input := mkInput "r1" EXECUTE_JOB false None.
Definition preprocessR1 : PerformRunExecutionV3Input := mkInput "r1" PREPROCESS false None.

(** The endpoint answers 200 with [data] after [d] ms. *)
Definition answers (data : RunJobResponse) (d : Z) : CallInput :=
  mkCallInput None false true None
    (Some (Response.mk 200 (HeadersVerdict None) NotJson (Parsed data))) d.

(** S2: YIELD_EXECUTION with key k1 after 200 ms, then SUCCESS after 150 ms. *)
Definition yieldK1 : CallInput := answers (Errored (YIELD_EXECUTION "k1")) 200.
Definition succeeds : CallInput := answers (SUCCESS (Some "{ok:true}")) 150.

Definition afterYield : World := (call (H := imports) 1000 executeR1 12 yieldK1 (world store0)).2.
Definition afterSuccess : World := (call (H := imports) 2000 executeR1 0 succeeds afterYield).2.

(** A run that has completed with SUCCESS. *)
Definition completedR1 : JobRun.t :=
  JobRun.mk JobRunStatus.SUCCESS (Some 100) (Some 500) 1 300 [] (Some (OutPayload "{ok:true}"))
    None false false false "org1" "ep1" RuntimeEnvironmentType.PRODUCTION 60000.

Definition storeCompleted : Store := mkStore {["r1" := completedR1]} {["ep1" := ep1]} [] [] [] [] [].

(** A run that has been cancelled. *)
Definition canceledR1 : JobRun.t :=
  JobRun.mk JobRunStatus.CANCELED (Some 100) (Some 500) 1 300 [] None
    None false false false "org1" "ep1" RuntimeEnvironmentType.PRODUCTION 60000.

Definition storeCanceled : Store := mkStore {["r1" := canceledR1]} {["ep1" := ep1]} [] [] [] [] [].

End Scenario.

(** ** The cases of the claims *)

Module Cases.

Import Scenario.

(** C3: 99 keys so far, the ceiling (100) leaves one slot. *)
Definition oneSlotLeft : JobRun.t :=
  JobRun.mk JobRunStatus.STARTED (Some 100) None 99 5000 (replicate 99 "k") None None
    false false false "org1" "ep1" RuntimeEnvironmentType.PRODUCTION 600000.
Definition storeOneSlotLeft : Store :=
  mkStore {["r1" := oneSlotLeft]} {["ep1" := ep1]} [] [] [] [] [].
Definition loadedOneSlotLeft : FoundRun.t := FoundRun.mk "r1" oneSlotLeft ep1 [] [] 0.
Definition parentTask : ServerTask.t := ServerTask.mk "t0" None None None None.

(** C4 (S4): a task was created during the chunk that timed out after 9 s. *)
Definition startedR1 : JobRun.t :=
  JobRun.mk JobRunStatus.STARTED (Some 100) None 1 0 [] None None
    true false false "org1" "ep1" RuntimeEnvironmentType.PRODUCTION 60000.
Definition t1 : Task.t :=
  Task.mk "t1" "r1" "key-1" "fetch" None TaskStatus.RUNNING false None None None 150.
Definition storeWithTask : Store :=
  mkStore {["r1" := startedR1]} {["ep1" := ep1]} [t1] [] [] [] [].
Definition loadedBeforeTask : FoundRun.t := FoundRun.mk "r1" startedR1 ep1 [] [] 0.

Definition loadedWithTask : FoundRun.t := FoundRun.mk "r1" startedR1 ep1 [] [] 1.
Definition namedT1 : ServerTask.t := ServerTask.mk "t1" None None None None.

(** C5: next to r1 there is run r2 with its task t2, and an answer to a chunk
    of r1 names t2. *)
Definition otherRun : JobRun.t :=
  JobRun.mk JobRunStatus.STARTED (Some 50) None 7 4000 [] None None
    false false false "org1" "ep1" RuntimeEnvironmentType.PRODUCTION 600000.
Definition t2 : Task.t :=
  Task.mk "t2" "r2" "key-2" "charge" None TaskStatus.RUNNING false None None None 160.
Definition storeTwoRuns : Store :=
  mkStore (<["r2" := otherRun]> {["r1" := startedR1]}) {["ep1" := ep1]} [t2] [] [] [] [].
Definition namedT2 : ServerTask.t := ServerTask.mk "t2" None None None None.
Definition retryNamingT2 : CallInput :=
  answers (Errored (RETRY_WITH_TASK namedT2 "boom" 7000)) 100.
Definition afterRetryNamingT2 : World :=
  (call (H := imports) 3000 executeR1 0 retryNamingT2 (world storeTwoRuns)).2.

(** C7: the endpoint cannot be reached for the preprocess request. *)
Definition unreachable : CallInput := mkCallInput None false true None None 0.
Definition loadedR1 : FoundRun.t := FoundRun.mk "r1" r1 ep1 [] [] 0.

(** C9: the run's organisation is listed in BLOCKED_ORGS and the store
    refuses the CANCELED write. *)
Definition blockedWriteFails : CallInput :=
  mkCallInput (Some "org0,org1,org2") true true None
    (Some (Response.mk 200 (HeadersVerdict None) NotJson (Parsed (SUCCESS None)))) 150.

(** C10: the run has a SUCCESS subscription to another recipient, and the
    endpoint asks for a SUCCESS subscription in its run metadata. *)
Definition otherRecipient : JobRunSubscription.t :=
  JobRunSubscription.mk "r1" "ep2" RecipientMethod.ENDPOINT SubscriptionEvent.SUCCESS
    SubscriptionStatus.ACTIVE.
Definition storeSubscribed : Store :=
  mkStore {["r1" := r1]} {["ep1" := ep1]} [] [] [otherRecipient] [] [].
Definition loadedSubscribed : FoundRun.t := FoundRun.mk "r1" r1 ep1 [] [otherRecipient] 0.
Definition asksForSuccess : option ResponseHeaders :=
  Some (mkHeaders None (Some (mkRunMetadata true false))).

(** S3: a 504 after 9 s, and no task before or after. *)
Definition gatewayTimeout : CallInput :=
  mkCallInput None false true None
    (Some (Response.mk 504 (HeadersVerdict None) NotJson NotJson)) 9000.

(** S6: the run holds as many keys as the ceiling allows. *)
Definition atTheCeiling : JobRun.t :=
  JobRun.mk JobRunStatus.STARTED (Some 100) None 100 5000 (replicate 100 "k") None None
    false false false "org1" "ep1" RuntimeEnvironmentType.PRODUCTION 600000.
Definition storeAtTheCeiling : Store :=
  mkStore {["r1" := atTheCeiling]} {["ep1" := ep1]} [] [] [] [] [].

End Cases.

(** ** Concrete cases of the resume service *)

Module ResumeCases.

Import ResumeAttemptService.

(** An attempt of run_p waits for run_c, whose one attempt is done on a
    locked run; payloads are stood for by the id of the attempt. *)
Definition parentRun : TaskRun.t := TaskRun.mk "WAITING_TO_RESUME" (Some 10) (Some "worker_1").
Definition childRun : TaskRun.t := TaskRun.mk "COMPLETED_SUCCESSFULLY" (Some 20) (Some "worker_1").
Definition parentAttempt : TaskRunAttempt.t :=
  TaskRunAttempt.mk "attempt_p" "attempt_friendly_p" "run_p" 1 "PAUSED".
Definition childAttempt : TaskRunAttempt.t :=
  TaskRunAttempt.mk "attempt_c" "attempt_friendly_c" "run_c" 1 "COMPLETED".
Definition waiting : Store :=
  mkStore (<["run_c" := childRun]> {["run_p" := parentRun]})
    [parentAttempt; childAttempt]
    [TaskRunDependency.mk "run_c" (Some "attempt_p") 15] [].
Definition found : FoundAttempt := mkFound parentAttempt parentRun [Some "attempt_c"] [].

Definition payloadOf (s : Store) (id : string) : option string := Some id.

Definition readyAfter (type : WaitType) : Params := mkParams "attempt_friendly_p" type.

End ResumeCases.

(** * Reasoning about computations *)

(** ** What every run of a computation does to the store *)

Section Preserves.

Variable R : relation Store.
Context `{!PreOrder R}.

Lemma preserves_ret {A} (a : A) : preserves R (ret a).
Proof. intros w. reflexivity. Qed.

Lemma preserves_throw {A} (e : Exn) : preserves R (@throw A e).
Proof. intros w. reflexivity. Qed.

Lemma preserves_bind {A B} (m : M A) (k : A -> M B) :
  preserves R m -> (forall a, preserves R (k a)) -> preserves R (bind m k).
Proof.
  intros Hm Hk w. unfold bind. specialize (Hm w).
  destruct (m w) as [[e|a] w1]; simpl in *; [done|].
  etransitivity; [exact Hm | apply Hk].
Qed.

Lemma preserves_transaction {A} (m : M A) : preserves R m -> preserves R (transaction m).
Proof.
  intros Hm w. unfold transaction. specialize (Hm w).
  destruct (m w) as [[e|a] w1]; simpl in *; [reflexivity | done].
Qed.

Lemma preserves_finally {A} (m : M A) (h : World -> World) :
  (forall w, db (h w) = db w) -> preserves R m -> preserves R (finally m h).
Proof.
  intros Hh Hm w. unfold finally. specialize (Hm w).
  destruct (m w) as [r w1]; simpl in *. by rewrite Hh.
Qed.

Lemma preserves_try_catch {A} (m handler : M A) :
  preserves R m -> preserves R handler -> preserves R (try_catch m handler).
Proof.
  intros Hm Hh w. unfold try_catch. specialize (Hm w).
  destruct (m w) as [[e|a] w1]; simpl in *; [|done].
  etransitivity; [exact Hm | apply Hh].
Qed.

Lemma preserves_when (b : bool) (m : M unit) : preserves R m -> preserves R (when b m).
Proof. intros Hm. destruct b; [done | apply preserves_ret]. Qed.

Lemma preserves_getStore : preserves R getStore.
Proof. intros w. reflexivity. Qed.

Lemma preserves_emit (e : Effect) : preserves R (emit e).
Proof. intros w. reflexivity. Qed.

Lemma preserves_registerRun (id : string) : preserves R (registerRun id).
Proof. intros w. reflexivity. Qed.

Lemma preserves_deregisterRun (id : string) : preserves R (deregisterRun id).
Proof. intros w. reflexivity. Qed.

Lemma preserves_modifyStore (f : Store -> Store) :
  (forall s, R s (f s)) -> preserves R (modifyStore f).
Proof. intros Hf w. apply Hf. Qed.

Lemma preserves_forEach {A} (f : A -> M unit) (l : list A) :
  (forall a, preserves R (f a)) -> preserves R (forEach f l).
Proof.
  intros Hf. induction l as [|a l IH]; simpl.
  - apply preserves_ret.
  - apply preserves_bind; [apply Hf | intros _; exact IH].
Qed.

Lemma preserves_jobRun_update (id : string) (data : JobRun.t -> JobRun.t) :
  (forall s r, jobRun s !! id = Some r -> R s (withJobRun (insert id (data r)) s)) ->
  preserves R (jobRun_update id data).
Proof.
  intros Hd w. unfold jobRun_update, bind, getStore; simpl.
  destruct (jobRun (db w) !! id) as [r|] eqn:Hr; simpl; [by apply Hd | reflexivity].
Qed.

Lemma preserves_endpoint_update (id : string) (data : Endpoint.t -> Endpoint.t) :
  (forall s e, endpoint s !! id = Some e -> R s (withEndpoint (insert id (data e)) s)) ->
  preserves R (endpoint_update id data).
Proof.
  intros Hd w. unfold endpoint_update, bind, getStore; simpl.
  destruct (endpoint (db w) !! id) as [e|] eqn:He; simpl; [by apply Hd | reflexivity].
Qed.

Lemma preserves_task_update (id : string) (data : Task.t -> Task.t) :
  (forall s, R s (withTask (map (fun t' => if hasTaskId id t' then data t' else t')) s)) ->
  preserves R (task_update id data).
Proof.
  intros Hd w. unfold task_update, bind, getStore; simpl.
  destruct (find (hasTaskId id) (task (db w))); simpl; [apply Hd | reflexivity].
Qed.

End Preserves.

(** One step of a proof of [preserves R m], by the shape of [m]; [side]
    proves that a single write is in [R]. *)
Ltac preserves_step R side :=
  lazymatch goal with
  | |- preserves _ (ret _) => apply (preserves_ret R)
  | |- preserves _ (throw _) => apply (preserves_throw R)
  | |- preserves _ getStore => apply (preserves_getStore R)
  | |- preserves _ (emit _) => apply (preserves_emit R)
  | |- preserves _ (registerRun _) => apply (preserves_registerRun R)
  | |- preserves _ (deregisterRun _) => apply (preserves_deregisterRun R)
  | |- preserves _ (transaction _) => apply (preserves_transaction R)
  | |- preserves _ (when _ _) => apply (preserves_when R)
  | |- preserves _ (try_catch _ _) => apply (preserves_try_catch R)
  | |- preserves _ (finally _ _) => apply (preserves_finally R); [done|]
  | |- preserves _ (bind _ _) => apply (preserves_bind R); [|intros ?]
  | |- preserves _ (forEach _ _) => apply (preserves_forEach R); intros ?
  | |- preserves _ (modifyStore _) => apply (preserves_modifyStore R); intros ?; side
  | |- preserves _ (jobRun_update _ _) =>
      apply (preserves_jobRun_update R); intros ? ? ?; side
  | |- preserves _ (endpoint_update _ _) =>
      apply (preserves_endpoint_update R); intros ? ? ?; side
  | |- preserves _ (task_update _ _) =>
      apply (preserves_task_update R); intros ?; side
  | |- preserves _ (match ?x with _ => _ end) => destruct x
  end.

(** ** Execution counts and task ownership across a computation *)

#[local] Instance steady_preorder exact : PreOrder (steady exact).
Proof.
  split.
  - intros s. split; [done|]. intros id r Hr. exists r. split; [done|].
    destruct exact; simpl; lia.
  - intros s1 s2 s3 [Hk12 H12] [Hk23 H23]. split; [congruence|].
    intros id r Hr.
    destruct (H12 _ _ Hr) as (r2 & Hr2 & Hle2).
    destruct (H23 _ _ Hr2) as (r3 & Hr3 & Hle3).
    exists r3. split; [done|]. destruct exact; simpl in *; lia.
Qed.

Lemma steady_same exact (s s' : Store) :
  jobRun s' = jobRun s -> taskKeys s' = taskKeys s -> steady exact s s'.
Proof.
  intros Heq Hk. split; [done|]. intros id r Hr. exists r. rewrite Heq.
  split; [done|]. destruct exact; simpl; lia.
Qed.

Lemma steady_update exact (s : Store) (id : string) (r new : JobRun.t) :
  jobRun s !! id = Some r ->
  countStep exact (JobRun.executionCount r) (JobRun.executionCount new) ->
  steady exact s (withJobRun (insert id new) s).
Proof.
  intros Hr Hle. split; [done|]. intros id' r' Hr'. simpl.
  destruct (decide (id = id')) as [->|Hne].
  - rewrite lookup_insert_eq. exists new. split; [done|]. congruence.
  - rewrite lookup_insert_ne by done. exists r'. split; [done|].
    destruct exact; simpl; lia.
Qed.

Lemma taskKeys_map (f : Task.t -> Task.t) (s : Store) :
  (forall t, Task.id (f t) = Task.id t /\ Task.runId (f t) = Task.runId t) ->
  taskKeys (withTask (map f) s) = taskKeys s.
Proof.
  intros Hf. unfold taskKeys. simpl. rewrite map_map. apply map_ext.
  intros t. destruct (Hf t) as [-> ->]. done.
Qed.

Ltac steady_side :=
  first
    [ apply steady_same; [reflexivity | reflexivity]
    | apply steady_same;
      [ reflexivity
      | apply taskKeys_map; intros ?; unfold setIfDefined;
        repeat case_match; split; reflexivity ]
    | eapply steady_update;
      [ eassumption
      | unfold countStep, fits, setIfDefined in *; repeat case_match; simpl; lia ] ].

Ltac steady_step :=
  lazymatch goal with
  | |- preserves (steady ?exact) _ => preserves_step (steady exact) ltac:(steady_side)
  end.

Section Steady.

Context `{Imports}.
Variable now : Z.
Variable exact : bool.

Lemma steady_enqueue (j : QueueJob) : preserves (steady exact) (enqueue j).
Proof. unfold enqueue. repeat steady_step. Qed.

Lemma steady_failRunExecution reason run output status d :
  preserves (steady exact) (failRunExecution now reason run output status d).
Proof.
  unfold failRunExecution, enqueueRunExecutionV3.
  destruct reason; [destruct status|]; repeat first [apply steady_enqueue | steady_step].
Qed.

Lemma steady_executePreprocessing run env :
  preserves (steady exact) (executePreprocessing now run env).
Proof.
  unfold executePreprocessing, enqueueRunExecutionV3.
  repeat first [apply steady_enqueue | apply steady_failRunExecution | steady_step].
Qed.

Lemma steady_completeRunWithSuccess run output d :
  preserves (steady exact) (completeRunWithSuccess now run output d).
Proof.
  unfold completeRunWithSuccess. repeat first [apply steady_enqueue | steady_step].
Qed.

Lemma steady_resumeRunWithTask run task d ec :
  fits exact ec -> preserves (steady exact) (resumeRunWithTask run task d ec).
Proof.
  intros Hec. unfold resumeRunWithTask, ResumeTaskService_enqueue.
  repeat first [apply steady_enqueue | steady_step].
Qed.

Lemma steady_resumeYieldedRun run key d ec :
  fits exact ec -> preserves (steady exact) (resumeYieldedRun now run key d ec).
Proof.
  intros Hec. unfold resumeYieldedRun, enqueueRunExecutionV3.
  repeat first [apply steady_enqueue | apply steady_failRunExecution | steady_step].
Qed.

Lemma steady_recordAutoYield run data d ec :
  fits exact ec -> preserves (steady exact) (recordAutoYield run data d ec).
Proof. intros Hec. unfold recordAutoYield. repeat steady_step. Qed.

Lemma steady_resumeAutoYieldedRun run data d ec :
  fits exact ec -> preserves (steady exact) (resumeAutoYieldedRun run data d ec).
Proof.
  intros Hec. unfold resumeAutoYieldedRun, enqueueRunExecutionV3.
  repeat first [apply steady_enqueue | apply steady_recordAutoYield; assumption | steady_step].
Qed.

Lemma steady_resumeAutoYieldedRunWithCompletedTask run id properties output data d ec :
  fits exact ec ->
  preserves (steady exact)
    (resumeAutoYieldedRunWithCompletedTask now run id properties output data d ec).
Proof.
  intros Hec.
  unfold resumeAutoYieldedRunWithCompletedTask, enqueueRunExecutionV3,
    CompleteRunTaskService_call, parseIfPresent.
  repeat first [apply steady_enqueue | apply steady_recordAutoYield; assumption | steady_step].
Qed.

Lemma steady_retryRunWithTask run task error retryAt d ec :
  fits exact ec -> preserves (steady exact) (retryRunWithTask run task error retryAt d ec).
Proof.
  intros Hec.
  unfold retryRunWithTask, ResumeTaskService_enqueue, taskAttempt_findFirstPending.
  repeat first [apply steady_enqueue | steady_step].
Qed.

Lemma steady_resumeRunExecutionAfterTimeout run input d ec :
  preserves (steady exact) (resumeRunExecutionAfterTimeout now run input d ec).
Proof.
  unfold resumeRunExecutionAfterTimeout, enqueueRunExecutionV3, findRunWithLatestTask.
  repeat first [apply steady_enqueue | apply steady_failRunExecution | steady_step].
Qed.

Lemma steady_failRunWithError run error task d :
  preserves (steady exact) (failRunWithError now run error task d).
Proof.
  unfold failRunWithError. repeat first [apply steady_failRunExecution | steady_step].
Qed.

Lemma fits_zero : fits exact 0.
Proof. unfold fits. destruct exact; lia. Qed.

Lemma steady_dispatchChildError run d childError :
  preserves (steady exact) (dispatchChildError now run d childError).
Proof.
  unfold dispatchChildError.
  destruct childError;
    repeat first
      [ apply steady_failRunExecution
      | apply steady_resumeRunWithTask, fits_zero
      | apply steady_resumeYieldedRun, fits_zero
      | apply steady_resumeAutoYieldedRun, fits_zero
      | apply steady_resumeAutoYieldedRunWithCompletedTask, fits_zero
      | apply steady_retryRunWithTask, fits_zero
      | steady_step ].
Qed.

Lemma steady_forEachChildError run d childErrors :
  preserves (steady exact) (forEachChildError now run d childErrors).
Proof.
  induction childErrors as [|c rest IH]; simpl.
  - apply (preserves_ret (steady exact)).
  - apply (preserves_bind (steady exact)); [apply steady_dispatchChildError|].
    intros [|]; [exact IH | apply (preserves_ret (steady exact))].
Qed.

Lemma steady_applyResponseHeaders run headers :
  preserves (steady exact) (applyResponseHeaders run headers).
Proof.
  unfold applyResponseHeaders, jobRunSubscription_upsert. repeat steady_step.
Qed.

Lemma steady_resumeTaskById resumeTaskId :
  preserves (steady exact) (resumeTaskById now resumeTaskId).
Proof. unfold resumeTaskById, task_findUnique. repeat steady_step. Qed.

Lemma steady_blockedOrgGuard run env :
  preserves (steady exact) (blockedOrgGuard now run env).
Proof. unfold blockedOrgGuard. repeat steady_step. Qed.

End Steady.

Section CountsGrow.

Context `{Imports}.
Variable now : Z.

Lemma fits_grow_1 : fits false 1.
Proof. unfold fits. lia. Qed.

Lemma grows_resumeParallelRunWithTask run task childErrors d :
  preserves (steady false) (resumeParallelRunWithTask now run task childErrors d).
Proof.
  unfold resumeParallelRunWithTask.
  repeat first [apply steady_forEachChildError | steady_step].
Qed.

Lemma grows_dispatchResponse run data d :
  preserves (steady false) (dispatchResponse now run data d).
Proof.
  unfold dispatchResponse, failRunWithUnresolvedAuthError, failRunWithInvalidPayloadError,
    cancelExecution.
  destruct data as [ | | []];
    repeat first
      [ apply steady_failRunExecution
      | apply steady_failRunWithError
      | apply steady_completeRunWithSuccess
      | apply grows_resumeParallelRunWithTask
      | apply steady_resumeRunWithTask, fits_grow_1
      | apply steady_resumeYieldedRun, fits_grow_1
      | apply steady_resumeAutoYieldedRun, fits_grow_1
      | apply steady_resumeAutoYieldedRunWithCompletedTask, fits_grow_1
      | apply steady_retryRunWithTask, fits_grow_1
      | steady_step ].
Qed.

Lemma grows_interpretResponse run input env ec :
  preserves (steady false) (interpretResponse now run input env ec).
Proof.
  unfold interpretResponse, failRunExecutionWithRetry.
  repeat first
    [ apply steady_failRunExecution
    | apply steady_resumeRunExecutionAfterTimeout
    | apply steady_applyResponseHeaders
    | apply grows_dispatchResponse
    | steady_step ].
Qed.

Lemma grows_executeJob run input drift env :
  preserves (steady false) (executeJob now run input drift env).
Proof.
  unfold executeJob, startChunk, cancelExecution.
  repeat first
    [ apply steady_failRunExecution
    | apply steady_blockedOrgGuard
    | apply steady_resumeTaskById
    | apply grows_interpretResponse
    | steady_step ].
Qed.

Lemma grows_call input drift env : preserves (steady false) (call now input drift env).
Proof.
  unfold call.
  repeat first [apply steady_executePreprocessing | apply grows_executeJob | steady_step].
Qed.

End CountsGrow.

(** ** Computations that return *)

Lemma bind_returns {A B} (m : M A) (k : A -> M B) (w w' : World) (b : B) :
  bind m k w = (inr b, w') ->
  exists a w1, m w = (inr a, w1) /\ k a w1 = (inr b, w').
Proof.
  unfold bind. destruct (m w) as [[e|a] w1]; [done|]. intros Hk. by exists a, w1.
Qed.

Lemma transaction_returns {A} (m : M A) (w w' : World) (a : A) :
  transaction m w = (inr a, w') -> m w = (inr a, w').
Proof. unfold transaction. destruct (m w) as [[e|a'] w1]; [done|]. done. Qed.

Lemma finally_returns {A} (m : M A) (h : World -> World) (w w' : World) (a : A) :
  finally m h w = (inr a, w') -> exists w1, m w = (inr a, w1) /\ w' = h w1.
Proof.
  unfold finally. destruct (m w) as [r w1]. intros [= <- <-]. by exists w1.
Qed.

Lemma preserves_run (R : relation Store) {A} (m : M A) (w w' : World) (r : Exn + A) :
  preserves R m -> m w = (r, w') -> R (db w) (db w').
Proof. intros Hm Hrun. specialize (Hm w). by rewrite Hrun in Hm. Qed.

Lemma jobRun_update_returns (id : string) (data : JobRun.t -> JobRun.t)
    (w w' : World) (a : JobRun.t) :
  jobRun_update id data w = (inr a, w') ->
  exists r, jobRun (db w) !! id = Some r /\ a = data r
            /\ db w' = withJobRun (insert id (data r)) (db w).
Proof.
  unfold jobRun_update, bind, getStore; simpl.
  destruct (jobRun (db w) !! id) as [r|]; simpl; [|done].
  intros [= <- <-]. by exists r.
Qed.

Lemma task_update_returns (id : string) (data : Task.t -> Task.t)
    (w w' : World) (a : Task.t) :
  task_update id data w = (inr a, w') ->
  exists t, t ∈ task (db w) /\ Task.id t = id /\ a = data t
            /\ db w' = withTask (map (fun t' => if hasTaskId id t' then data t' else t')) (db w).
Proof.
  unfold task_update, bind, getStore; simpl.
  destruct (find (hasTaskId id) (task (db w))) as [t|] eqn:Hfind; simpl; [|done].
  intros [= <- <-]. exists t. apply find_some in Hfind as [Hin Hid].
  unfold hasTaskId in Hid. apply bool_decide_eq_true_1 in Hid.
  split; [by apply list_elem_of_In|]. done.
Qed.

(** ** Exact accounting of the execution count *)

Section Counts.

Variable P : list (string * string) -> Prop.
Variable id : string.

Lemma counts_steady {A} (m : M A) : preserves (steady true) m -> counts P id 0 m.
Proof.
  intros Hm w a w' _ Hrun. destruct (preserves_run _ _ _ _ _ Hm Hrun) as [Hk Hc].
  split; [done|]. intros r Hr. destruct (Hc _ _ Hr) as (r' & Hr' & Heq).
  exists r'. split; [done|]. simpl in Heq. lia.
Qed.

Lemma counts_bind {A B} (d1 d2 : Z) (m : M A) (k : A -> M B) :
  counts P id d1 m -> (forall a, counts P id d2 (k a)) ->
  counts P id (d1 + d2) (bind m k).
Proof.
  intros Hm Hk w b w' HP Hrun.
  apply bind_returns in Hrun as (a & w1 & Hrun1 & Hrun2).
  destruct (Hm _ _ _ HP Hrun1) as [Hk1 Hc1].
  rewrite <- Hk1 in HP.
  destruct (Hk a _ _ _ HP Hrun2) as [Hk2 Hc2].
  split; [congruence|]. intros r Hr.
  destruct (Hc1 _ Hr) as (r1 & Hr1 & Heq1).
  destruct (Hc2 _ Hr1) as (r2 & Hr2 & Heq2).
  exists r2. split; [done | lia].
Qed.

Lemma counts_weaken {A} (d d' : Z) (m : M A) : d = d' -> counts P id d' m -> counts P id d m.
Proof. by intros ->. Qed.

Lemma counts_then_steady {A B} (d : Z) (m : M A) (k : A -> M B) :
  counts P id d m -> (forall a, preserves (steady true) (k a)) -> counts P id d (bind m k).
Proof.
  intros Hm Hk. apply (counts_weaken _ (d + 0)); [lia|].
  apply counts_bind; [done|]. intros a. by apply counts_steady.
Qed.

Lemma counts_after_steady {A B} (d : Z) (m : M A) (k : A -> M B) :
  preserves (steady true) m -> (forall a, counts P id d (k a)) -> counts P id d (bind m k).
Proof.
  intros Hm Hk. apply (counts_weaken _ (0 + d)); [lia|].
  apply counts_bind; [by apply counts_steady | done].
Qed.

Lemma counts_transaction {A} (d : Z) (m : M A) : counts P id d m -> counts P id d (transaction m).
Proof. intros Hm w a w' HP Hrun. apply transaction_returns in Hrun. exact (Hm _ _ _ HP Hrun). Qed.

Lemma counts_finally {A} (d : Z) (m : M A) (h : World -> World) :
  (forall w, db (h w) = db w) -> counts P id d m -> counts P id d (finally m h).
Proof.
  intros Hh Hm w a w' HP Hrun. apply finally_returns in Hrun as (w1 & Hrun & ->).
  rewrite Hh. exact (Hm _ _ _ HP Hrun).
Qed.

Lemma counts_jobRun_update (d : Z) (data : JobRun.t -> JobRun.t) :
  (forall r, JobRun.executionCount (data r) = JobRun.executionCount r + d) ->
  counts P id d (jobRun_update id data).
Proof.
  intros Hd w a w' _ Hrun.
  apply jobRun_update_returns in Hrun as (r & Hr & -> & ->).
  split; [done|]. intros r0 Hr0. simpl. rewrite lookup_insert_eq.
  exists (data r). split; [done|]. rewrite Hd. congruence.
Qed.

Lemma counts_ret_bind {A B} (d : Z) (a : A) (k : A -> M B) :
  counts P id d (k a) -> counts P id d (bind (ret a) k).
Proof. intros Hk w b w' HP Hrun. exact (Hk _ _ _ HP Hrun). Qed.

Lemma counts_jobRun_update_on (target : string) (d : Z) (data : JobRun.t -> JobRun.t) :
  (forall r, JobRun.executionCount (data r) = JobRun.executionCount r + d) ->
  counts P id (onRun id target d) (jobRun_update target data).
Proof.
  intros Hd w a w' _ Hrun.
  apply jobRun_update_returns in Hrun as (r & Hr & -> & ->).
  split; [done|]. intros r0 Hr0. simpl. unfold onRun. case_bool_decide as Hid.
  - subst target. rewrite lookup_insert_eq.
    exists (data r). split; [done|]. rewrite Hd. congruence.
  - rewrite lookup_insert_ne by done. exists r0. split; [done | lia].
Qed.

Lemma counts_nothing {A} (target : string) (m : M A) :
  preserves (steady true) m -> counts P id (onRun id target 0) m.
Proof.
  intros Hm. apply (counts_weaken _ 0); [|by apply counts_steady].
  unfold onRun. by case_bool_decide.
Qed.

End Counts.

Lemma counts_mono_pre (P P' : list (string * string) -> Prop) (id : string) (d : Z)
    {A} (m : M A) :
  (forall keys, P keys -> P' keys) -> counts P' id d m -> counts P id d m.
Proof. intros HPP Hm w a w' HP Hrun. exact (Hm _ _ _ (HPP _ HP) Hrun). Qed.

Section Accounting.

Context `{Imports}.
Variable now : Z.

(** The run whose execution count is followed. *)
Variable id : string.

Lemma counts_resumeRunWithTask P run task d ec :
  counts P id (onRun id (FoundRun.id run) ec) (resumeRunWithTask run task d ec).
Proof.
  unfold resumeRunWithTask, ResumeTaskService_enqueue.
  apply counts_transaction, counts_then_steady.
  - apply counts_jobRun_update_on. intros r. reflexivity.
  - intros _. repeat first [apply steady_enqueue | steady_step].
Qed.

Lemma counts_resumeYieldedRun P run key d ec :
  counts P id
    (onRun id (FoundRun.id run)
       (if MAX_RUN_YIELDED_EXECUTIONS
             <? Z.of_nat (length (JobRun.yieldedExecutions (FoundRun.run run))) + 1
        then 0 else ec))
    (resumeYieldedRun now run key d ec).
Proof.
  unfold resumeYieldedRun, enqueueRunExecutionV3.
  apply counts_transaction. case_match.
  - apply counts_nothing, steady_failRunExecution.
  - apply counts_then_steady.
    + apply counts_jobRun_update_on. intros r. reflexivity.
    + intros _. apply steady_enqueue.
Qed.

Lemma counts_recordAutoYield P run data d ec :
  counts P id (onRun id (FoundRun.id run) ec) (recordAutoYield run data d ec).
Proof.
  unfold recordAutoYield. apply counts_then_steady.
  - apply counts_jobRun_update_on. intros r. reflexivity.
  - intros _. repeat steady_step.
Qed.

Lemma counts_resumeAutoYieldedRun P run data d ec :
  counts P id (onRun id (FoundRun.id run) ec) (resumeAutoYieldedRun run data d ec).
Proof.
  unfold resumeAutoYieldedRun, enqueueRunExecutionV3.
  apply counts_transaction, counts_then_steady; [apply counts_recordAutoYield|].
  intros _. apply steady_enqueue.
Qed.

Lemma counts_resumeAutoYieldedRunWithCompletedTask P run task properties output data d ec :
  counts P id (onRun id (FoundRun.id run) ec)
    (resumeAutoYieldedRunWithCompletedTask now run task properties output data d ec).
Proof.
  unfold resumeAutoYieldedRunWithCompletedTask, enqueueRunExecutionV3,
    CompleteRunTaskService_call, parseIfPresent.
  apply counts_transaction, counts_then_steady; [apply counts_recordAutoYield|].
  intros _. repeat first [apply steady_enqueue | steady_step].
Qed.

(** The retry handler counts on the run of the task it is given. *)
Lemma counts_retryRunWithTask run task error retryAt d ec owner :
  counts (namesTaskOf (Errored (RETRY_WITH_TASK task error retryAt)) owner)
    id (onRun id owner ec)
    (retryRunWithTask run task error retryAt d ec).
Proof.
  unfold retryRunWithTask, ResumeTaskService_enqueue, taskAttempt_findFirstPending.
  apply counts_transaction.
  apply counts_after_steady; [repeat steady_step|]. intros existing.
  apply counts_after_steady; [repeat steady_step|]. intros _.
  apply counts_after_steady; [repeat steady_step|]. intros _.
  intros w a w' HP Hrun.
  apply bind_returns in Hrun as (updated & w1 & Hupd & Hrest).
  pose proof (preserves_run _ _ _ _ _
    (preserves_task_update (steady true) (ServerTask.id task)
       (Task.set_status TaskStatus.WAITING) ltac:(intros ?; steady_side)) Hupd) as [Hk1 _].
  apply task_update_returns in Hupd as (t & Hin & Hid & -> & Hdb).
  assert (Task.runId t = owner) as Hown.
  { apply (HP (Task.id t, Task.runId t)); [|done].
    unfold taskKeys. apply list_elem_of_fmap. by exists t. }
  simpl in Hrest. rewrite Hown in Hrest.
  assert (counts (fun _ => True) id (onRun id owner ec)
            (jobRun_update owner (fun r =>
               JobRun.set_executionDuration (JobRun.executionDuration r + d)
                 (JobRun.set_executionCount (JobRun.executionCount r + ec) r));;
             enqueue (ResumeTask (ServerTask.id task) (Some retryAt)))) as Hc.
  { apply counts_then_steady.
    - apply counts_jobRun_update_on. intros r. reflexivity.
    - intros _. apply steady_enqueue. }
  destruct (Hc _ _ _ I Hrest) as [Hk2 Hc2].
  split; [congruence|]. intros r Hr.
  apply Hc2. rewrite Hdb. exact Hr.
Qed.

Lemma counts_resumeParallelRunWithTask P run task childErrors d :
  counts P id (onRun id (FoundRun.id run) 1)
    (resumeParallelRunWithTask now run task childErrors d).
Proof.
  unfold resumeParallelRunWithTask.
  apply counts_then_steady.
  - apply counts_jobRun_update_on. intros r. reflexivity.
  - intros _. repeat first [apply steady_forEachChildError | steady_step].
Qed.

Lemma counts_dispatchResponse run data d owner :
  counts (namesTaskOf data owner) id (countedOn id run data owner)
    (dispatchResponse now run data d).
Proof.
  unfold dispatchResponse, countedOn, countedByHandler, failRunWithUnresolvedAuthError,
    failRunWithInvalidPayloadError, cancelExecution.
  destruct data as [output | task childErrors | []].
  - apply counts_nothing, steady_completeRunWithSuccess.
  - apply counts_resumeParallelRunWithTask.
  - apply counts_resumeAutoYieldedRun.
  - apply counts_resumeAutoYieldedRunWithCompletedTask.
  - apply counts_nothing. steady_step.
  - apply counts_nothing, steady_failRunWithError.
  - apply counts_nothing. steady_step. apply steady_failRunExecution.
  - apply counts_resumeRunWithTask.
  - apply counts_retryRunWithTask.
  - apply counts_nothing. steady_step. apply steady_failRunExecution.
  - apply counts_resumeYieldedRun.
Qed.

Lemma counts_interpretResponse run input env ec data owner :
  acceptedChunk env run data ->
  counts (namesTaskOf data owner) id (countedOn id run data owner)
    (interpretResponse now run input env ec).
Proof.
  intros (_ & _ & _ & response & Hresp & Hok & Hbody).
  unfold interpretResponse. rewrite Hresp, Hok, Hbody. simpl.
  apply counts_after_steady; [case_match; steady_step|]. intros headers.
  apply counts_after_steady; [apply steady_applyResponseHeaders|].
  intros _. apply counts_dispatchResponse.
Qed.

Lemma blockedOrgGuard_not_blocked run env :
  isBlockedOrg env run = false -> blockedOrgGuard now run env = ret false.
Proof. intros Hnb. unfold blockedOrgGuard. rewrite Hnb. reflexivity. Qed.

Lemma counts_executeJob run input drift env data owner :
  acceptedChunk env run data ->
  counts (namesTaskOf data owner) id
    (onRun id (FoundRun.id run) 1 + countedOn id run data owner)
    (executeJob now run input drift env).
Proof.
  intros Hacc. pose proof Hacc as (Hstatus & Hnb & Hconn & _).
  unfold executeJob. apply counts_finally; [done|].
  rewrite bool_decide_eq_false_2 by done.
  rewrite blockedOrgGuard_not_blocked by done.
  apply counts_ret_bind. simpl.
  apply counts_bind.
  - unfold startChunk. apply counts_jobRun_update_on. intros r. reflexivity.
  - intros updated. rewrite Hconn. simpl.
    apply counts_after_steady; [apply steady_resumeTaskById|]. intros resumedTask.
    do 5 (apply counts_after_steady; [steady_step|]; intros _).
    by apply counts_interpretResponse.
Qed.

End Accounting.

(** ** Computations that emit nothing *)

Lemma silent_ret {A} (a : A) : silent (ret a).
Proof. done. Qed.

Lemma silent_throw {A} (e : Exn) : silent (@throw A e).
Proof. done. Qed.

Lemma silent_bind {A B} (m : M A) (k : A -> M B) :
  silent m -> (forall a, silent (k a)) -> silent (bind m k).
Proof.
  intros Hm Hk w. unfold bind. specialize (Hm w).
  destruct (m w) as [[e|a] w1]; simpl in *; [done|]. by rewrite Hk.
Qed.

Lemma silent_transaction {A} (m : M A) : silent m -> silent (transaction m).
Proof.
  intros Hm w. unfold transaction. specialize (Hm w).
  destruct (m w) as [[e|a] w1]; simpl in *; done.
Qed.

Lemma silent_when (b : bool) (m : M unit) : silent m -> silent (when b m).
Proof. intros Hm. destruct b; [done | apply silent_ret]. Qed.

Lemma silent_getStore : silent getStore.
Proof. done. Qed.

Lemma silent_modifyStore (f : Store -> Store) : silent (modifyStore f).
Proof. done. Qed.

Lemma silent_forEach {A} (f : A -> M unit) (l : list A) :
  (forall a, silent (f a)) -> silent (forEach f l).
Proof.
  intros Hf. induction l as [|a l IH]; simpl; [apply silent_ret|].
  apply silent_bind; [apply Hf | intros _; exact IH].
Qed.

Ltac silent_step :=
  lazymatch goal with
  | |- silent (ret _) => apply silent_ret
  | |- silent (throw _) => apply silent_throw
  | |- silent getStore => apply silent_getStore
  | |- silent (modifyStore _) => apply silent_modifyStore
  | |- silent (transaction _) => apply silent_transaction
  | |- silent (when _ _) => apply silent_when
  | |- silent (bind _ _) => apply silent_bind; [|intros ?]
  | |- silent (forEach _ _) => apply silent_forEach; intros ?
  | |- silent (match ?x with _ => _ end) => destruct x
  end.

Ltac silent_unfold :=
  unfold jobRun_update, endpoint_update, task_update, task_findUnique,
    taskAttempt_findFirstPending, jobRunSubscription_upsert, enqueue.

Section Silent.

Context `{Imports}.
Variable now : Z.

Lemma silent_failRunExecution reason run output status d :
  silent (failRunExecution now reason run output status d).
Proof.
  unfold failRunExecution, enqueueRunExecutionV3. silent_unfold.
  destruct reason; [destruct status|]; repeat silent_step.
Qed.

Lemma silent_dispatchChildError run d childError :
  silent (dispatchChildError now run d childError).
Proof.
  unfold dispatchChildError, resumeAutoYieldedRun, resumeAutoYieldedRunWithCompletedTask,
    recordAutoYield, resumeRunWithTask, retryRunWithTask, resumeYieldedRun,
    enqueueRunExecutionV3, ResumeTaskService_enqueue, CompleteRunTaskService_call,
    parseIfPresent.
  silent_unfold.
  destruct childError; repeat first [apply silent_failRunExecution | silent_step].
Qed.

Lemma silent_forEachChildError run d childErrors :
  silent (forEachChildError now run d childErrors).
Proof.
  induction childErrors as [|c rest IH]; simpl; [apply silent_ret|].
  apply silent_bind; [apply silent_dispatchChildError|].
  intros [|]; [exact IH | apply silent_ret].
Qed.

Lemma silent_dispatchResponse run data d : silent (dispatchResponse now run data d).
Proof.
  unfold dispatchResponse, completeRunWithSuccess, resumeParallelRunWithTask,
    failRunWithError, failRunWithUnresolvedAuthError, failRunWithInvalidPayloadError,
    cancelExecution, resumeAutoYieldedRun, resumeAutoYieldedRunWithCompletedTask,
    recordAutoYield, resumeRunWithTask, retryRunWithTask, resumeYieldedRun,
    enqueueRunExecutionV3, ResumeTaskService_enqueue, CompleteRunTaskService_call,
    parseIfPresent.
  silent_unfold.
  destruct data as [ | | []];
    repeat first
      [ apply silent_failRunExecution | apply silent_forEachChildError | silent_step ].
Qed.

Lemma silent_interpretResponse run input env ec :
  silent (interpretResponse now run input env ec).
Proof.
  unfold interpretResponse, applyResponseHeaders, failRunExecutionWithRetry,
    resumeRunExecutionAfterTimeout, findRunWithLatestTask, enqueueRunExecutionV3.
  silent_unfold.
  repeat first
    [ apply silent_failRunExecution | apply silent_dispatchResponse | silent_step ].
Qed.

(** The deprecated resume branch always returns and emits nothing. *)
Lemma resumeTaskById_returns resumeTaskId w :
  exists resumedTask w',
    resumeTaskById now resumeTaskId w = (inr resumedTask, w')
    /\ effects w' = effects w
    /\ registeredRuns w' = registeredRuns w
    /\ jobRun (db w') = jobRun (db w).
Proof.
  unfold resumeTaskById.
  destruct resumeTaskId as [id|]; [|by eexists _, _].
  destruct (truthy (Some id)); [|by eexists _, _].
  unfold task_findUnique, task_update, bind, getStore, ret. simpl.
  destruct (find (hasTaskId id) (task (db w))) as [t|] eqn:Hfind; simpl.
  - rewrite Hfind. simpl. by eexists _, _.
  - by eexists _, _.
Qed.

End Silent.

(** ** Attempts of a task *)














(** ** The loaded run and the header side effects *)

Section Loaded.

Context `{Imports}.

Lemma findRun_Some (s : Store) (id : string) (run : FoundRun.t) :
  findRun s id = Some run ->
  FoundRun.id run = id /\ jobRun s !! id = Some (FoundRun.run run).
Proof.
  unfold findRun. intros Hfind.
  destruct (jobRun s !! id) as [r|]; simpl in Hfind; [|done].
  destruct (endpoint s !! JobRun.endpointId r) as [e|]; simpl in Hfind; [|done].
  by injection Hfind as <-.
Qed.

Lemma call_EXECUTE_JOB now input drift env w run :
  reason input = EXECUTE_JOB ->
  findRun (db w) (input_id input) = Some run ->
  call now input drift env w = executeJob now run input drift env w.
Proof. intros Hreason Hfind. unfold call, bind, getStore. simpl. by rewrite Hfind, Hreason. Qed.

Lemma hasSubscriptionTo_false event run :
  hasSubscriptionTo event run = false ->
  forall s, s ∈ FoundRun.subscriptions run -> JobRunSubscription.event s <> event.
Proof.
  unfold hasSubscriptionTo. intros Hnone s Hin Hev.
  assert (existsb (fun s => bool_decide (JobRunSubscription.event s = event))
            (FoundRun.subscriptions run) = true) as Hsome; [|congruence].
  apply existsb_exists. exists s. split; [by apply list_elem_of_In|].
  by apply bool_decide_eq_true_2.
Qed.

Lemma subscriptionUpserts_only_when event run headers :
  event ∈ subscriptionUpserts run headers -> hasSubscriptionTo event run = false.
Proof.
  unfold subscriptionUpserts.
  destruct headers as [data|]; [|intros Hin; by apply elem_of_nil in Hin].
  destruct (x_trigger_run_metadata data) as [metadata|];
    [|intros Hin; by apply elem_of_nil in Hin].
  destruct (negb (JobRun.internal (FoundRun.run run)));
    [|intros Hin; by apply elem_of_nil in Hin].
  intros [Hin|Hin]%elem_of_app.
  - destruct (successSubscription metadata); simpl in Hin; [|by apply elem_of_nil in Hin].
    destruct (hasSubscriptionTo SubscriptionEvent.SUCCESS run) eqn:Hhas; simpl in Hin;
      [by apply elem_of_nil in Hin|].
    apply list_elem_of_singleton in Hin as ->. done.
  - destruct (failedSubscription metadata); simpl in Hin; [|by apply elem_of_nil in Hin].
    destruct (hasSubscriptionTo SubscriptionEvent.FAILURE run) eqn:Hhas; simpl in Hin;
      [by apply elem_of_nil in Hin|].
    apply list_elem_of_singleton in Hin as ->. done.
Qed.

Lemma rowsFor_upserts run event events w :
  event ∉ events ->
  rowsFor event
    (db (forEach (fun e => jobRunSubscription_upsert (subscriptionFor run e)) events w).2)
  = rowsFor event (db w).
Proof.
  revert w. induction events as [|e events IH]; intros w Hnotin; [done|].
  apply not_elem_of_cons in Hnotin as [Hne Hnotin].
  simpl. unfold bind at 1, jobRunSubscription_upsert at 1, modifyStore at 1.
  rewrite IH by done. unfold rowsFor. simpl.
  destruct (existsb (sameSubscriptionKey (subscriptionFor run e)) (jobRunSubscription (db w)));
    [done|].
  rewrite filter_app, filter_cons_False, filter_nil, app_nil_r; [done|].
  simpl. congruence.
Qed.

End Loaded.

(** ** What [#resumeYieldedRun] does on its own *)

Section YieldHandler.

Context `{Imports}.

Lemma resumeYieldedRun_over_the_ceiling now run key d executionCount w r :
  jobRun (db w) !! FoundRun.id run = Some r ->
  MAX_RUN_YIELDED_EXECUTIONS
    < Z.of_nat (length (JobRun.yieldedExecutions (FoundRun.run run))) + 1 ->
  exists w' r',
    resumeYieldedRun now run key d executionCount w = (inr tt, w')
    /\ jobRun (db w') !! FoundRun.id run = Some r'
    /\ JobRun.status r' = JobRunStatus.FAILURE
    /\ messageReferences (JobRun.output r') MAX_RUN_YIELDED_EXECUTIONS
    /\ JobRun.completedAt r' = Some now
    /\ JobRun.yieldedExecutions r' = JobRun.yieldedExecutions r
    /\ JobRun.executionCount r' = JobRun.executionCount r.
Proof.
  intros Hr Hover. unfold resumeYieldedRun.
  destruct (Z.ltb_spec MAX_RUN_YIELDED_EXECUTIONS
              (Z.of_nat (length (JobRun.yieldedExecutions (FoundRun.run run))) + 1));
    [|lia].
  unfold failRunExecution, transaction, jobRun_update, enqueue, bind, getStore, modifyStore, ret.
  simpl. rewrite Hr. simpl. eexists _, _. split; [reflexivity|]. simpl.
  rewrite lookup_insert_eq. done.
Qed.

Lemma resumeYieldedRun_under_the_ceiling now run key d executionCount w r :
  jobRun (db w) !! FoundRun.id run = Some r ->
  Z.of_nat (length (JobRun.yieldedExecutions (FoundRun.run run))) + 1
    <= MAX_RUN_YIELDED_EXECUTIONS ->
  exists w' r',
    resumeYieldedRun now run key d executionCount w = (inr tt, w')
    /\ jobRun (db w') !! FoundRun.id run = Some r'
    /\ JobRun.yieldedExecutions r' = JobRun.yieldedExecutions r ++ [key]
    /\ JobRun.executionDuration r' = JobRun.executionDuration r + d
    /\ JobRun.executionCount r' = JobRun.executionCount r + executionCount
    /\ JobRun.forceYieldImmediately r' = false
    /\ workerQueue (db w')
       = workerQueue (db w) ++ [PerformRunExecutionV3 (FoundRun.id run) (isDevelopment run)].
Proof.
  intros Hr Hunder. unfold resumeYieldedRun.
  destruct (Z.ltb_spec MAX_RUN_YIELDED_EXECUTIONS
              (Z.of_nat (length (JobRun.yieldedExecutions (FoundRun.run run))) + 1));
    [lia|].
  unfold enqueueRunExecutionV3, transaction, jobRun_update, enqueue, bind, getStore,
    modifyStore, ret.
  simpl. rewrite Hr. simpl. eexists _, _. split; [reflexivity|]. simpl.
  rewrite lookup_insert_eq. done.
Qed.

(** With a loaded run that shows the keys the store holds, the handler keeps
    the number of keys within the ceiling. *)
Lemma resumeYieldedRun_keeps_the_ceiling now run key d executionCount w r :
  jobRun (db w) !! FoundRun.id run = Some r ->
  JobRun.yieldedExecutions (FoundRun.run run) = JobRun.yieldedExecutions r ->
  Z.of_nat (length (JobRun.yieldedExecutions r)) <= MAX_RUN_YIELDED_EXECUTIONS ->
  exists r',
    jobRun (db (resumeYieldedRun now run key d executionCount w).2) !! FoundRun.id run = Some r'
    /\ Z.of_nat (length (JobRun.yieldedExecutions r')) <= MAX_RUN_YIELDED_EXECUTIONS.
Proof.
  intros Hr Hfresh Hle.
  destruct (Z.lt_ge_cases MAX_RUN_YIELDED_EXECUTIONS
              (Z.of_nat (length (JobRun.yieldedExecutions (FoundRun.run run))) + 1))
    as [Hover|Hunder].
  - destruct (resumeYieldedRun_over_the_ceiling now run key d executionCount w r Hr Hover)
      as (w' & r' & -> & Hr' & _ & _ & _ & Hsame & _).
    exists r'. split; [done|]. rewrite Hsame. done.
  - destruct (resumeYieldedRun_under_the_ceiling now run key d executionCount w r Hr Hunder)
      as (w' & r' & -> & Hr' & Hkeys & _).
    exists r'. split; [done|]. rewrite Hfresh in Hunder.
    rewrite Hkeys, length_app. simpl. lia.
Qed.

End YieldHandler.

(** ** What a chunk sends and counts *)

Section Chunk.

Context `{Imports}.

(** The deprecated resume branch always returns, and writes tasks only. *)
Lemma resumeTaskById_writes_tasks_only now resumeTaskId w :
  exists resumedTask w' g,
    resumeTaskById now resumeTaskId w = (inr resumedTask, w')
    /\ effects w' = effects w
    /\ registeredRuns w' = registeredRuns w
    /\ db w' = withTask g (db w).
Proof.
  assert (db w = withTask id (db w)) as Hsame by by destruct w as [[] ? ?].
  unfold resumeTaskById.
  destruct resumeTaskId as [i|]; [|by eexists _, _, _].
  destruct (truthy (Some i)); [|by eexists _, _, _].
  unfold task_findUnique, task_update, bind, getStore, ret. simpl.
  destruct (find (hasTaskId i) (task (db w))) as [t|] eqn:Hfind; simpl.
  - rewrite Hfind. simpl. by eexists _, _, _.
  - by eexists _, _, _.
Qed.

Lemma executeJob_sends_the_loaded_state now run input drift env w r :
  JobRun.status (FoundRun.run run) <> JobRunStatus.CANCELED ->
  isBlockedOrg env run = false ->
  connectionsResolve env = true ->
  jobRun (db w) !! FoundRun.id run = Some r ->
  exists resumedTask,
    effects (executeJob now run input drift env w).2
    = effects w
      ++ [ExecutionEvent start drift (FoundRun.id run);
          ExecuteJobRequest
            (createExecutionBody run (FoundRun.tasks run ++ option_list resumedTask) now
               (isRetry input));
          ExecutionEvent finish 0 (FoundRun.id run)].
Proof.
  intros Hstatus Hblocked Hresolve Hr.
  unfold executeJob, finally.
  rewrite bool_decide_eq_false_2 by done.
  unfold blockedOrgGuard. rewrite Hblocked, Hresolve.
  unfold try_catch, startChunk, jobRun_update, bind, getStore, modifyStore, ret. simpl.
  rewrite Hr. simpl.
  match goal with
  | |- context [resumeTaskById now ?i ?w1] =>
      destruct (resumeTaskById_writes_tasks_only now i w1)
        as (resumed & w2 & g & -> & Heff & _ & _)
  end.
  simpl in Heff. unfold registerRun, emit, deregisterRun. simpl.
  match goal with
  | |- context [interpretResponse now run input env ?ec ?w3] =>
      pose proof (silent_interpretResponse now run input env ec w3) as Hsilent;
      destruct (interpretResponse now run input env ec w3) as [res w4]
  end.
  simpl in *. exists resumed. rewrite Hsilent, Heff, <- !app_assoc. done.
Qed.

(** The first update of [#executeJob] is outside any transaction: what it
    counts stays, however the call ends. *)
Lemma executeJob_counts_the_chunk now run input drift env w r :
  JobRun.status (FoundRun.run run) <> JobRunStatus.CANCELED ->
  isBlockedOrg env run = false ->
  jobRun (db w) !! FoundRun.id run = Some r ->
  exists r',
    jobRun (db (executeJob now run input drift env w).2) !! FoundRun.id run = Some r'
    /\ JobRun.executionCount r + 1 <= JobRun.executionCount r'.
Proof.
  intros Hstatus Hblocked Hr.
  unfold executeJob, finally.
  rewrite bool_decide_eq_false_2 by done.
  unfold blockedOrgGuard. rewrite Hblocked.
  unfold try_catch, startChunk. unfold bind at 1. unfold ret at 1.
  unfold bind at 1. unfold jobRun_update at 1. unfold bind at 1. unfold getStore at 1.
  simpl. rewrite Hr. unfold bind at 1. unfold modifyStore at 1. simpl.
  match goal with
  | |- context [let '(_, _) := ?m ?w1 in _] =>
      assert (preserves (steady false) m) as Hsteady;
      [|destruct (Hsteady w1) as [_ Hcounts]; destruct (m w1) as [res w2]]
  end.
  { repeat first
      [ apply steady_failRunExecution | apply steady_resumeTaskById
      | apply grows_interpretResponse | steady_step ]. }
  simpl in *.
  destruct (Hcounts (FoundRun.id run) _ (lookup_insert_eq _ _ _)) as (r' & Hr' & Hle).
  exists r'. split; [exact Hr'|]. simpl in Hle. lia.
Qed.

End Chunk.

(** * The claims *)

(** ** C1: execution count *)

Section Claim_C1.

Context `{Imports}.

(** C1, as amended. (a) Whatever a call does, returning or throwing, no run's
    executionCount decreases. (b) An EXECUTE_JOB chunk that passes the
    preflight (run not CANCELED, organization not blocked) counts one on its
    run in the first update of [#executeJob], and that one stays however the
    call ends. (c) When the call returns from an accepted outcome, the
    handler has added what it counts and no other count has moved: for every
    run, the new count is the old one, plus the one of the first update on
    the run of the chunk, plus [countedOn]: on the run of the chunk, 1 for
    RESUME_WITH_TASK, AUTO_YIELD_EXECUTION,
    AUTO_YIELD_EXECUTION_WITH_COMPLETED_TASK, RESUME_WITH_PARALLEL_TASK whose
    children add 0, and YIELD_EXECUTION under the ceiling, and 0 for SUCCESS
    and the failing outcomes; for RETRY_WITH_TASK, 1 on the run of the task
    that the answer names, which need not be the run of the chunk. (d) So a
    run that starts at executionCount 0 and gets a YIELD_EXECUTION chunk
    followed by a SUCCESS chunk ends at 3. *)
Theorem C1_execution_count_accounting :
  (forall now input drift env w id r,
     jobRun (db w) !! id = Some r ->
     exists r', jobRun (db (call now input drift env w).2) !! id = Some r'
                /\ JobRun.executionCount r <= JobRun.executionCount r')
  /\ (forall now input drift env w run,
       reason input = EXECUTE_JOB ->
       findRun (db w) (input_id input) = Some run ->
       JobRun.status (FoundRun.run run) <> JobRunStatus.CANCELED ->
       isBlockedOrg env run = false ->
       exists r', jobRun (db (call now input drift env w).2) !! input_id input = Some r'
                  /\ JobRun.executionCount (FoundRun.run run) + 1
                     <= JobRun.executionCount r')
  /\ (forall now input drift env w w' run data owner,
       reason input = EXECUTE_JOB ->
       findRun (db w) (input_id input) = Some run ->
       acceptedChunk env run data ->
       namesTaskOf data owner (taskKeys (db w)) ->
       call now input drift env w = (inr tt, w') ->
       forall id r,
         jobRun (db w) !! id = Some r ->
         exists r', jobRun (db w') !! id = Some r'
                    /\ JobRun.executionCount r'
                       = JobRun.executionCount r + onRun id (input_id input) 1
                         + countedOn id run data owner)
  /\ (forall now1 now2 input drift1 drift2 env1 env2 w0 w1 w2 run0 run1 key output,
       reason input = EXECUTE_JOB ->
       findRun (db w0) (input_id input) = Some run0 ->
       JobRun.executionCount (FoundRun.run run0) = 0 ->
       Z.of_nat (length (JobRun.yieldedExecutions (FoundRun.run run0))) + 1
         <= MAX_RUN_YIELDED_EXECUTIONS ->
       acceptedChunk env1 run0 (Errored (YIELD_EXECUTION key)) ->
       call now1 input drift1 env1 w0 = (inr tt, w1) ->
       findRun (db w1) (input_id input) = Some run1 ->
       acceptedChunk env2 run1 (SUCCESS output) ->
       call now2 input drift2 env2 w1 = (inr tt, w2) ->
       exists r2, jobRun (db w2) !! input_id input = Some r2
                  /\ JobRun.executionCount r2 = 3).
Proof.
  assert (forall now input drift env w w' run data owner,
       reason input = EXECUTE_JOB ->
       findRun (db w) (input_id input) = Some run ->
       acceptedChunk env run data ->
       namesTaskOf data owner (taskKeys (db w)) ->
       call now input drift env w = (inr tt, w') ->
       forall id r,
         jobRun (db w) !! id = Some r ->
         exists r', jobRun (db w') !! id = Some r'
                    /\ JobRun.executionCount r'
                       = JobRun.executionCount r + onRun id (input_id input) 1
                         + countedOn id run data owner)
    as Hchunk.
  { intros now input drift env w w' run data owner Hreason Hfind Hacc Hown Hcall id r Hr.
    rewrite (call_EXECUTE_JOB _ _ _ _ _ _ Hreason Hfind) in Hcall.
    destruct (findRun_Some _ _ _ Hfind) as [Hid _].
    pose proof (counts_executeJob now id run input drift env data owner Hacc) as Hcounts.
    destruct (Hcounts _ _ _ Hown Hcall) as [_ Hc].
    destruct (Hc _ Hr) as (r' & Hr' & Heq). exists r'. split; [done|].
    rewrite Hid in Heq. lia. }
  split; [|split; [|split]].
  - intros now input drift env w id r Hr.
    destruct (grows_call now input drift env w) as [_ Hgrow].
    exact (Hgrow _ _ Hr).
  - intros now input drift env w run Hreason Hfind Hstatus Hblocked.
    rewrite (call_EXECUTE_JOB _ _ _ _ _ _ Hreason Hfind).
    destruct (findRun_Some _ _ _ Hfind) as [Hid Hrun]. rewrite <- Hid in Hrun |- *.
    exact (executeJob_counts_the_chunk now run input drift env w _ Hstatus Hblocked Hrun).
  - exact Hchunk.
  - intros now1 now2 input drift1 drift2 env1 env2 w0 w1 w2 run0 run1 key output
      Hreason Hfind0 Hzero Hceiling Hacc1 Hcall1 Hfind1 Hacc2 Hcall2.
    destruct (findRun_Some _ _ _ Hfind0) as [_ Hrun0].
    destruct (findRun_Some _ _ _ Hfind1) as [_ Hrun1].
    destruct (Hchunk _ _ _ _ _ _ _ _ (input_id input) Hreason Hfind0 Hacc1 I Hcall1 _ _ Hrun0)
      as (r1 & Hr1 & Heq1).
    destruct (Hchunk _ _ _ _ _ _ _ _ (input_id input) Hreason Hfind1 Hacc2 I Hcall2 _ _ Hrun1)
      as (r2 & Hr2 & Heq2).
    exists r2. split; [done|].
    rewrite Hr1 in Hrun1. injection Hrun1 as Hsame. rewrite <- Hsame in Heq2.
    destruct (findRun_Some _ _ _ Hfind0) as [Hid0 _].
    destruct (findRun_Some _ _ _ Hfind1) as [Hid1 _].
    unfold countedOn, countedByHandler, onRun in Heq1, Heq2.
    rewrite Hid0 in Heq1. rewrite Hid1 in Heq2.
    rewrite !bool_decide_eq_true_2 in Heq1, Heq2 by done.
    destruct (Z.ltb_spec MAX_RUN_YIELDED_EXECUTIONS
                (Z.of_nat (length (JobRun.yieldedExecutions (FoundRun.run run0))) + 1));
      lia.
Qed.

End Claim_C1.

(** C1 as stated fails on S2: the run ends with executionCount 3, not 2. The
    YIELD_EXECUTION chunk counts twice (first update of [#executeJob], then
    [#resumeYieldedRun]) and the SUCCESS chunk once. *)
Lemma C1_counterexample_yield_then_success :
  JobRun.executionCount <$> jobRun Scenario.store0 !! "r1" = Some 0
  /\ JobRun.yieldedExecutions <$> jobRun (db Scenario.afterSuccess) !! "r1" = Some ["k1"]
  /\ JobRun.status <$> jobRun (db Scenario.afterSuccess) !! "r1" = Some JobRunStatus.SUCCESS
  /\ JobRun.executionCount <$> jobRun (db Scenario.afterSuccess) !! "r1" = Some 3
  /\ JobRun.executionCount <$> jobRun (db Scenario.afterSuccess) !! "r1" <> Some 2.
Proof. vm_compute. repeat split; discriminate. Qed.

Lemma C1_witness_yield_then_success :
  (exists r2, jobRun (db Scenario.afterSuccess) !! "r1" = Some r2
              /\ JobRun.executionCount r2 = 3)
  /\ call (H := Scenario.imports) 3000 Scenario.executeR1 0 Cases.retryNamingT2
       (Scenario.world Cases.storeTwoRuns) = (inr tt, Cases.afterRetryNamingT2)
  /\ (exists r', jobRun (db Cases.afterRetryNamingT2) !! "r1" = Some r'
                 /\ JobRun.executionCount r' = 2)
  /\ (exists r', jobRun (db Cases.afterRetryNamingT2) !! "r2" = Some r'
                 /\ JobRun.executionCount r' = 8).
Proof.
  destruct (@C1_execution_count_accounting Scenario.imports) as (_ & _ & Hcounted & HS2).
  split.
  - eapply (HS2 1000 2000 Scenario.executeR1 12 0 Scenario.yieldK1 Scenario.succeeds
              (Scenario.world Scenario.store0) Scenario.afterYield Scenario.afterSuccess
              _ _ "k1" (Some "{ok:true}")).
    + reflexivity.
    + vm_compute. reflexivity.
    + reflexivity.
    + vm_compute. discriminate.
    + split; [discriminate|]. split; [reflexivity|]. split; [reflexivity|].
      eexists. split; [reflexivity|]. split; reflexivity.
    + vm_compute. reflexivity.
    + vm_compute. reflexivity.
    + split; [discriminate|]. split; [reflexivity|]. split; [reflexivity|].
      eexists. split; [reflexivity|]. split; reflexivity.
    + vm_compute. reflexivity.
  - split; [vm_compute; reflexivity|].
    pose proof (Hcounted 3000 Scenario.executeR1 0 Cases.retryNamingT2
                  (Scenario.world Cases.storeTwoRuns) Cases.afterRetryNamingT2
                  Cases.loadedBeforeTask
                  (Errored (RETRY_WITH_TASK Cases.namedT2 "boom" 7000)) "r2") as Hboth.
    assert (forall k : string * string, k ∈ [("t2", "r2")] -> k.1 = "t2" -> k.2 = "r2")
      as Hnames.
    { intros k Hk _. apply list_elem_of_singleton in Hk. by rewrite Hk. }
    split.
    + destruct (Hboth eq_refl eq_refl) with (id := "r1") (r := Cases.startedR1)
        as (r' & Hr' & Hcount).
      * split; [discriminate|]. split; [reflexivity|]. split; [reflexivity|].
        eexists. split; [reflexivity|]. split; reflexivity.
      * exact Hnames.
      * vm_compute. reflexivity.
      * reflexivity.
      * exists r'. split; [exact Hr'|]. rewrite Hcount. reflexivity.
    + destruct (Hboth eq_refl eq_refl) with (id := "r2") (r := Cases.otherRun)
        as (r' & Hr' & Hcount).
      * split; [discriminate|]. split; [reflexivity|]. split; [reflexivity|].
        eexists. split; [reflexivity|]. split; reflexivity.
      * exact Hnames.
      * vm_compute. reflexivity.
      * reflexivity.
      * exists r'. split; [exact Hr'|]. rewrite Hcount. reflexivity.
Defined.

(** ** C2: terminal runs *)

Section Claim_C2.

Context `{Imports}.

(** C2, as amended. An EXECUTE_JOB delivered for a run whose status is
    CANCELED changes nothing: the store (runs, tasks, attempts, endpoints,
    subscriptions, queue) is left as it was and nothing is emitted. The guard
    reads the status, not completedAt: a run of any other status, with its
    completedAt set or not, is executed again when its organization is not
    blocked and its connections resolve: the chunk is counted on the run,
    which stays however the call ends, and the request is sent between its
    two events. *)
Theorem C2_canceled_run_is_left_alone now input drift env w run :
  reason input = EXECUTE_JOB ->
  findRun (db w) (input_id input) = Some run ->
  (JobRun.status (FoundRun.run run) = JobRunStatus.CANCELED ->
   exists w', call now input drift env w = (inr tt, w')
              /\ db w' = db w
              /\ effects w' = effects w)
  /\ (JobRun.status (FoundRun.run run) <> JobRunStatus.CANCELED ->
      isBlockedOrg env run = false ->
      connectionsResolve env = true ->
      exists body r',
        effects (call now input drift env w).2
        = effects w
          ++ [ExecutionEvent start drift (input_id input);
              ExecuteJobRequest body;
              ExecutionEvent finish 0 (input_id input)]
        /\ jobRun (db (call now input drift env w).2) !! input_id input = Some r'
        /\ JobRun.executionCount (FoundRun.run run) + 1 <= JobRun.executionCount r').
Proof.
  intros Hreason Hfind.
  rewrite (call_EXECUTE_JOB _ _ _ _ _ _ Hreason Hfind).
  destruct (findRun_Some _ _ _ Hfind) as [Hid Hrun]. rewrite <- Hid in Hrun |- *.
  split.
  - intros Hstatus. unfold executeJob, finally. rewrite bool_decide_eq_true_2 by done.
    simpl. eexists. split; [reflexivity|]. split; reflexivity.
  - intros Hstatus Hblocked Hresolve.
    destruct (executeJob_sends_the_loaded_state now run input drift env w _
                Hstatus Hblocked Hresolve Hrun) as (resumed & Hsent).
    destruct (executeJob_counts_the_chunk now run input drift env w _
                Hstatus Hblocked Hrun) as (r' & Hr' & Hcount).
    eexists _, r'. split; [exact Hsent|]. split; [exact Hr' | exact Hcount].
Qed.

End Claim_C2.

(** C2 as stated fails: a run that completed with SUCCESS (completedAt set)
    is executed again by a second EXECUTE_JOB, which counts a chunk, calls the
    endpoint, rewrites completedAt and enqueues a delivery. *)
Lemma C2_counterexample_completed_run_is_executed_again :
  let w := Scenario.world Scenario.storeCompleted in
  let w' := (call (H := Scenario.imports) 2000 Scenario.executeR1 0 Scenario.succeeds w).2 in
  JobRun.completedAt <$> jobRun (db w) !! "r1" = Some (Some 500)
  /\ JobRun.executionCount <$> jobRun (db w) !! "r1" = Some 1
  /\ JobRun.executionCount <$> jobRun (db w') !! "r1" = Some 2
  /\ JobRun.completedAt <$> jobRun (db w') !! "r1" = Some (Some 2000)
  /\ workerQueue (db w') = [DeliverRunSubscriptions "r1"]
  /\ db w' <> db w.
Proof.
  vm_compute. repeat split. intros Heq. discriminate Heq.
Qed.

Lemma C2_witness_canceled_run :
  (exists w', call (H := Scenario.imports) 2000 Scenario.executeR1 0 Scenario.succeeds
                (Scenario.world Scenario.storeCanceled) = (inr tt, w')
              /\ db w' = Scenario.storeCanceled
              /\ effects w' = [])
  /\ (exists body r',
        effects (call (H := Scenario.imports) 2000 Scenario.executeR1 0 Scenario.succeeds
                   (Scenario.world Scenario.storeCompleted)).2
        = [ExecutionEvent start 0 "r1"; ExecuteJobRequest body; ExecutionEvent finish 0 "r1"]
        /\ jobRun (db (call (H := Scenario.imports) 2000 Scenario.executeR1 0
                         Scenario.succeeds (Scenario.world Scenario.storeCompleted)).2)
           !! "r1" = Some r'
        /\ JobRun.executionCount Scenario.completedR1 + 1 <= JobRun.executionCount r').
Proof.
  split.
  - apply (C2_canceled_run_is_left_alone (H := Scenario.imports) 2000 Scenario.executeR1 0
             Scenario.succeeds (Scenario.world Scenario.storeCanceled)
             (FoundRun.mk "r1" Scenario.canceledR1 Scenario.ep1 [] [] 0)).
    + reflexivity.
    + vm_compute. reflexivity.
    + reflexivity.
  - apply (C2_canceled_run_is_left_alone (H := Scenario.imports) 2000 Scenario.executeR1 0
             Scenario.succeeds (Scenario.world Scenario.storeCompleted)
             (FoundRun.mk "r1" Scenario.completedR1 Scenario.ep1 [] [] 0)).
    + reflexivity.
    + vm_compute. reflexivity.
    + vm_compute. discriminate.
    + reflexivity.
    + reflexivity.
Defined.

(** ** C3: yield ceiling *)

Section Claim_C3.

Context `{Imports}.

(** C3, where the code departs from it. The ceiling test of
    [#resumeYieldedRun] reads the loaded run, which [#resumeParallelRunWithTask]
    hands unchanged to every child. With one slot left, two YIELD_EXECUTION
    children both pass the test and both keys are appended: the run ends with
    MAX_RUN_YIELDED_EXECUTIONS + 1 keys. *)
Theorem C3_parallel_yields_pass_the_ceiling now run task k1 k2 d w r :
  jobRun (db w) !! FoundRun.id run = Some r ->
  JobRun.yieldedExecutions (FoundRun.run run) = JobRun.yieldedExecutions r ->
  Z.of_nat (length (JobRun.yieldedExecutions r)) + 1 = MAX_RUN_YIELDED_EXECUTIONS ->
  ServerTask.outputProperties task = None ->
  exists w' r',
    resumeParallelRunWithTask now run task [YIELD_EXECUTION k1; YIELD_EXECUTION k2] d w
      = (inr tt, w')
    /\ jobRun (db w') !! FoundRun.id run = Some r'
    /\ JobRun.yieldedExecutions r' = JobRun.yieldedExecutions r ++ [k1; k2]
    /\ MAX_RUN_YIELDED_EXECUTIONS < Z.of_nat (length (JobRun.yieldedExecutions r')).
Proof.
  intros Hr Hfresh Hslot Hprops.
  unfold resumeParallelRunWithTask. rewrite Hprops. simpl.
  unfold dispatchChildError, resumeYieldedRun. rewrite Hfresh.
  destruct (Z.ltb_spec MAX_RUN_YIELDED_EXECUTIONS
              (Z.of_nat (length (JobRun.yieldedExecutions r)) + 1)) as [Hlt|_]; [lia|].
  unfold bind, transaction, jobRun_update, enqueueRunExecutionV3, enqueue, bind,
    getStore, modifyStore, ret. simpl.
  rewrite Hr. simpl. rewrite lookup_insert_eq. simpl.
  rewrite lookup_insert_eq. simpl.
  eexists _, _. split; [reflexivity|]. simpl. rewrite lookup_insert_eq.
  split; [reflexivity|]. simpl. rewrite <- app_assoc. split; [reflexivity|].
  rewrite length_app. simpl. lia.
Qed.

End Claim_C3.

Lemma C3_witness_two_yielding_children :
  exists w' r',
    resumeParallelRunWithTask (H := Scenario.imports) 3000 Cases.loadedOneSlotLeft
      Cases.parentTask [YIELD_EXECUTION "a"; YIELD_EXECUTION "b"] 200
      (Scenario.world Cases.storeOneSlotLeft) = (inr tt, w')
    /\ jobRun (db w') !! "r1" = Some r'
    /\ JobRun.yieldedExecutions r' = replicate 99 "k" ++ ["a"; "b"]
    /\ 100 < Z.of_nat (length (JobRun.yieldedExecutions r')).
Proof.
  apply (C3_parallel_yields_pass_the_ceiling (H := Scenario.imports) 3000
           Cases.loadedOneSlotLeft Cases.parentTask "a" "b" 200
           (Scenario.world Cases.storeOneSlotLeft) Cases.oneSlotLeft).
  - vm_compute. reflexivity.
  - reflexivity.
  - vm_compute. reflexivity.
  - reflexivity.
Defined.

(** RESUME_WITH_PARALLEL_TASK with two YIELD_EXECUTION children, one slot
    left under the ceiling of 100: the run is re-enqueued twice and holds 101
    keys. *)
Example parallel_yields_through_call :
  let env := Scenario.answers
               (RESUME_WITH_PARALLEL_TASK Cases.parentTask
                  [YIELD_EXECUTION "a"; YIELD_EXECUTION "b"]) 200 in
  let w' := (call (H := Scenario.imports) 3000 Scenario.executeR1 0 env
               (Scenario.world Cases.storeOneSlotLeft)).2 in
  (length <$> (JobRun.yieldedExecutions <$> jobRun (db w') !! "r1")) = Some 101%nat
  /\ JobRun.status <$> jobRun (db w') !! "r1" = Some JobRunStatus.STARTED
  /\ workerQueue (db w')
     = [PerformRunExecutionV3 "r1" false; PerformRunExecutionV3 "r1" false].
Proof. vm_compute. repeat split. Qed.

(** ** C4: adaptive chunk limit *)

Section Claim_C4.

Context `{Imports}.

(** C4. On the timeout-resume path taken as forward progress (cumulative
    limit not reached, task count changed since the run was loaded) the
    endpoint's runChunkExecutionLimit becomes
    min(max(durationInMs, 10000), MAX_RUN_CHUNK_EXECUTION_LIMIT); with
    10000 <= MAX_RUN_CHUNK_EXECUTION_LIMIT it lies in
    [10000, MAX_RUN_CHUNK_EXECUTION_LIMIT], and it is 10000 for a duration of
    9000 ms. *)
Theorem C4_adaptive_chunk_limit now run input d executionCount w r e :
  10000 <= MAX_RUN_CHUNK_EXECUTION_LIMIT ->
  jobRun (db w) !! FoundRun.id run = Some r ->
  endpoint (db w) !! JobRun.endpointId r = Some e ->
  JobRun.executionDuration (FoundRun.run run) + d
    < JobRun.maximumExecutionTimePerRunInMs (FoundRun.run run) ->
  Z.of_nat (length (tasksOfRun (FoundRun.id run) (db w))) <> FoundRun.count_tasks run ->
  exists w' e',
    resumeRunExecutionAfterTimeout now run input d executionCount w = (inr tt, w')
    /\ endpoint (db w') !! JobRun.endpointId r = Some e'
    /\ Endpoint.runChunkExecutionLimit e'
       = Z.min (Z.max d 10000) MAX_RUN_CHUNK_EXECUTION_LIMIT
    /\ 10000 <= Endpoint.runChunkExecutionLimit e' <= MAX_RUN_CHUNK_EXECUTION_LIMIT
    /\ (d = 9000 -> Endpoint.runChunkExecutionLimit e' = 10000).
Proof.
  intros Hmax Hr He Hd Hcount.
  unfold resumeRunExecutionAfterTimeout.
  destruct (Z.leb_spec (JobRun.maximumExecutionTimePerRunInMs (FoundRun.run run))
              (JobRun.executionDuration (FoundRun.run run) + d)) as [Hle|_]; [lia|].
  unfold transaction, bind, findRunWithLatestTask, getStore, bind. simpl.
  rewrite Hr. simpl.
  rewrite bool_decide_eq_false_2 by done.
  unfold jobRun_update, bind, getStore. simpl. rewrite Hr. simpl.
  unfold endpoint_update, bind, getStore. simpl. rewrite He. simpl.
  eexists. eexists. split; [reflexivity|]. simpl. rewrite lookup_insert_eq.
  split; [reflexivity|]. simpl. unfold adaptedChunkLimit.
  split; [reflexivity|]. split; lia.
Qed.

End Claim_C4.

Lemma C4_witness_timeout_with_progress :
  exists w' e',
    resumeRunExecutionAfterTimeout (H := Scenario.imports) 9500 Cases.loadedBeforeTask
      Scenario.executeR1 9000 2 (Scenario.world Cases.storeWithTask) = (inr tt, w')
    /\ endpoint (db w') !! "ep1" = Some e'
    /\ Endpoint.runChunkExecutionLimit e' = Z.min (Z.max 9000 10000) 120000
    /\ 10000 <= Endpoint.runChunkExecutionLimit e' <= 120000
    /\ (9000 = 9000 -> Endpoint.runChunkExecutionLimit e' = 10000).
Proof.
  apply (C4_adaptive_chunk_limit (H := Scenario.imports) 9500 Cases.loadedBeforeTask
           Scenario.executeR1 9000 2 (Scenario.world Cases.storeWithTask)
           Cases.startedR1 Scenario.ep1).
  - vm_compute. discriminate.
  - vm_compute. reflexivity.
  - vm_compute. reflexivity.
  - vm_compute. reflexivity.
  - vm_compute. discriminate.
Defined.

(** ** C5: retry with task *)

Section Claim_C5.

Context `{Imports}.


End Claim_C5.



(** ** C6: children of a parallel task *)

Section Claim_C6.

Context `{Imports}.

(** C6, where the code departs from it. The parent update of
    [#resumeParallelRunWithTask] adds durationInMs, and a terminal child
    (ERROR, INVALID_PAYLOAD, UNRESOLVED_AUTH_ERROR) is then failed with the
    same durationInMs, not 0: the run's executionDuration grows by twice the
    chunk's duration. The execution count grows by one and the loop stops at
    that child. *)
Theorem C6_terminal_child_adds_the_duration_again now run task childError rest d w r :
  jobRun (db w) !! FoundRun.id run = Some r ->
  ServerTask.outputProperties task = None ->
  isTerminalChild childError = true ->
  exists w' r',
    resumeParallelRunWithTask now run task (childError :: rest) d w = (inr tt, w')
    /\ jobRun (db w') !! FoundRun.id run = Some r'
    /\ JobRun.executionDuration r' = JobRun.executionDuration r + d + d
    /\ JobRun.executionCount r' = JobRun.executionCount r + 1
    /\ JobRun.status r' = failStatusOfChild childError
    /\ workerQueue (db w') = workerQueue (db w) ++ [DeliverRunSubscriptions (FoundRun.id run)].
Proof.
  intros Hr Hprops Hterminal.
  unfold resumeParallelRunWithTask. rewrite Hprops.
  destruct childError; try discriminate Hterminal; simpl;
    unfold failRunExecution, bind, transaction, jobRun_update, enqueue, bind,
      getStore, modifyStore, ret; simpl;
    rewrite Hr; simpl; rewrite lookup_insert_eq; simpl;
    (eexists _, _; split; [reflexivity|]); simpl; rewrite lookup_insert_eq;
    (split; [reflexivity|]); unfold setIfDefined; repeat case_match; simpl; done.
Qed.

End Claim_C6.

Lemma C6_witness_error_child :
  exists w' r',
    resumeParallelRunWithTask (H := Scenario.imports) 3000 Cases.loadedBeforeTask
      Cases.parentTask [ERROR (Some "child failed") None] 100
      (Scenario.world Cases.storeWithTask) = (inr tt, w')
    /\ jobRun (db w') !! "r1" = Some r'
    /\ JobRun.executionDuration r' = 0 + 100 + 100
    /\ JobRun.executionCount r' = 1 + 1
    /\ JobRun.status r' = JobRunStatus.FAILURE
    /\ workerQueue (db w') = [] ++ [DeliverRunSubscriptions "r1"].
Proof.
  apply (C6_terminal_child_adds_the_duration_again (H := Scenario.imports) 3000
           Cases.loadedBeforeTask Cases.parentTask (ERROR (Some "child failed") None) [] 100
           (Scenario.world Cases.storeWithTask) Cases.startedR1).
  - vm_compute. reflexivity.
  - reflexivity.
  - reflexivity.
Defined.

(** RESUME_WITH_PARALLEL_TASK after 100 ms with one ERROR child: the run's
    executionDuration goes from 0 to 200. *)
Example parallel_error_child_through_call :
  let env := Scenario.answers
               (RESUME_WITH_PARALLEL_TASK Cases.parentTask [ERROR (Some "child failed") None])
               100 in
  let w' := (call (H := Scenario.imports) 3000 Scenario.executeR1 0 env
               (Scenario.world Cases.storeWithTask)).2 in
  JobRun.executionDuration <$> jobRun (db w') !! "r1" = Some 200
  /\ JobRun.status <$> jobRun (db w') !! "r1" = Some JobRunStatus.FAILURE.
Proof. vm_compute. repeat split. Qed.

(** ** C7: preprocess failure *)

Section Claim_C7.

Context `{Imports}.

(** C7, as amended. When the preprocess step fails, the driver has called the
    endpoint once and does not call it again. With [abort = true] the run is
    marked ABORTED and nothing is enqueued. For the other four outcomes the
    failure path sets the run to STARTED and enqueues one EXECUTE_JOB
    execution of the run. *)
Theorem C7_preprocess_failure now run env w r :
  jobRun (db w) !! FoundRun.id run = Some r ->
  preprocessFails env ->
  exists w' r',
    executePreprocessing now run env w = (inr tt, w')
    /\ effects w' = effects w ++ [PreprocessRunRequest (FoundRun.id run)]
    /\ jobRun (db w') !! FoundRun.id run = Some r'
    /\ if preprocessAborts env
       then workerQueue (db w') = workerQueue (db w)
            /\ JobRun.status r' = JobRunStatus.ABORTED
            /\ JobRun.completedAt r' = Some now
       else workerQueue (db w')
              = workerQueue (db w) ++ [PerformRunExecutionV3 (FoundRun.id run) (isDevelopment run)]
            /\ JobRun.status r' = JobRunStatus.STARTED
            /\ JobRun.startedAt r' = Some now
            /\ JobRun.completedAt r' = JobRun.completedAt r.
Proof.
  intros Hr Hfails.
  assert (forall output,
    failRunExecution now PREPROCESS run output F_FAILURE 0
      (mkWorld (db w) (effects w ++ [PreprocessRunRequest (FoundRun.id run)]) (registeredRuns w))
    = (inr tt,
       mkWorld
         (withWorkerQueue
            (fun q => q ++ [PerformRunExecutionV3 (FoundRun.id run) (isDevelopment run)])
            (withJobRun
               (insert (FoundRun.id run)
                  (JobRun.set_status JobRunStatus.STARTED (JobRun.set_startedAt (Some now) r)))
               (db w)))
         (effects w ++ [PreprocessRunRequest (FoundRun.id run)]) (registeredRuns w)))
    as Hrestart.
  { intros output. unfold failRunExecution, transaction, jobRun_update, bind, getStore. simpl.
    rewrite Hr. reflexivity. }
  assert (forall output,
    failRunExecution now PREPROCESS run output F_ABORTED 0
      (mkWorld (db w) (effects w ++ [PreprocessRunRequest (FoundRun.id run)]) (registeredRuns w))
    = (inr tt,
       mkWorld
         (withJobRun
            (insert (FoundRun.id run)
               (JobRun.set_completedAt (Some now)
                  (JobRun.set_status JobRunStatus.ABORTED
                     (setIfDefined JobRun.set_output output r))))
            (db w))
         (effects w ++ [PreprocessRunRequest (FoundRun.id run)]) (registeredRuns w)))
    as Habort.
  { intros output. unfold failRunExecution, transaction, jobRun_update, bind, getStore. simpl.
    rewrite Hr. reflexivity. }
  unfold preprocessFails, preprocessAborts in *.
  unfold executePreprocessing, bind at 1, emit at 1.
  destruct (preprocessRunRequest env) as [response|].
  - destruct (PreprocessResponse.ok response) eqn:Hok; simpl.
    + destruct Hfails as [?|Hbody]; [done|].
      destruct (PreprocessResponse.body response) as [|issues|data].
      * rewrite Hrestart. eexists _, _. split; [reflexivity|]. simpl.
        rewrite lookup_insert_eq. done.
      * rewrite Hrestart. eexists _, _. split; [reflexivity|]. simpl.
        rewrite lookup_insert_eq. done.
      * rewrite Hbody. rewrite Habort. eexists _, _. split; [reflexivity|]. simpl.
        rewrite lookup_insert_eq. done.
    + rewrite Hrestart. eexists _, _. split; [reflexivity|]. simpl.
      rewrite lookup_insert_eq. done.
  - rewrite Hrestart. eexists _, _. split; [reflexivity|]. simpl.
    rewrite lookup_insert_eq. done.
Qed.

End Claim_C7.

(** C7 as stated fails: when the endpoint cannot be reached for the
    preprocess request, the failure path starts the run and enqueues an
    EXECUTE_JOB execution of it. *)
Lemma C7_counterexample_unreachable_endpoint :
  let w' := (call (H := Scenario.imports) 1000 Scenario.preprocessR1 0 Cases.unreachable
               (Scenario.world Scenario.store0)).2 in
  workerQueue Scenario.store0 = []
  /\ workerQueue (db w') = [PerformRunExecutionV3 "r1" false]
  /\ JobRun.status <$> jobRun (db w') !! "r1" = Some JobRunStatus.STARTED
  /\ workerQueue (db w') <> workerQueue Scenario.store0.
Proof. vm_compute. repeat split. discriminate. Qed.

Lemma C7_witness_unreachable_endpoint :
  exists w' r',
    executePreprocessing 1000 Cases.loadedR1 Cases.unreachable
      (Scenario.world Scenario.store0) = (inr tt, w')
    /\ effects w' = [] ++ [PreprocessRunRequest "r1"]
    /\ jobRun (db w') !! "r1" = Some r'
    /\ workerQueue (db w') = [] ++ [PerformRunExecutionV3 "r1" false]
    /\ JobRun.status r' = JobRunStatus.STARTED
    /\ JobRun.startedAt r' = Some 1000
    /\ JobRun.completedAt r' = None.
Proof.
  apply (C7_preprocess_failure 1000 Cases.loadedR1 Cases.unreachable
           (Scenario.world Scenario.store0) Scenario.r1).
  - vm_compute. reflexivity.
  - exact I.
Defined.

(** ** C8: forceYieldImmediately *)

Section Claim_C8.

Context `{Imports}.

(** C8, where the code departs from it. The transaction of
    [#resumeRunWithTask] writes the duration and the count and nothing else
    on the run: forceYieldImmediately is what it was. *)
Theorem C8_resume_with_task_keeps_the_flag run task d executionCount w w' r :
  jobRun (db w) !! FoundRun.id run = Some r ->
  resumeRunWithTask run task d executionCount w = (inr tt, w') ->
  exists r',
    jobRun (db w') !! FoundRun.id run = Some r'
    /\ JobRun.forceYieldImmediately r' = JobRun.forceYieldImmediately r
    /\ JobRun.executionDuration r' = JobRun.executionDuration r + d
    /\ JobRun.executionCount r' = JobRun.executionCount r + executionCount.
Proof.
  intros Hr Hrun. unfold resumeRunWithTask in Hrun.
  apply transaction_returns in Hrun.
  apply bind_returns in Hrun as (updated & w1 & Hupd & Hrest).
  apply jobRun_update_returns in Hupd as (r0 & Hr0 & -> & Hdb1).
  rewrite Hr in Hr0. injection Hr0 as <-.
  apply bind_returns in Hrest as ([] & w2 & Hprops & Hrest).
  assert (jobRun (db w2) = jobRun (db w1)) as Hsame2.
  { destruct (ServerTask.outputProperties task) as [props|].
    - apply bind_returns in Hprops as (t & w2' & Htask & Hret).
      injection Hret as <-. apply task_update_returns in Htask as (? & _ & _ & _ & ->).
      done.
    - by injection Hprops as <-. }
  assert (jobRun (db w') = jobRun (db w2)) as Hsame3.
  { unfold when in Hrest. case_match; by injection Hrest as <-. }
  rewrite Hsame3, Hsame2, Hdb1. simpl. rewrite lookup_insert_eq.
  eexists. split; [reflexivity|]. done.
Qed.

End Claim_C8.

Lemma C8_witness_flag_stays_set :
  exists r',
    jobRun (db (resumeRunWithTask Cases.loadedBeforeTask Cases.namedT1 100 1
                  (Scenario.world Cases.storeWithTask)).2) !! "r1" = Some r'
    /\ JobRun.forceYieldImmediately r' = true
    /\ JobRun.executionDuration r' = 0 + 100
    /\ JobRun.executionCount r' = 1 + 1.
Proof.
  apply (C8_resume_with_task_keeps_the_flag Cases.loadedBeforeTask
           Cases.namedT1 100 1 (Scenario.world Cases.storeWithTask)
           (resumeRunWithTask Cases.loadedBeforeTask Cases.namedT1 100 1
              (Scenario.world Cases.storeWithTask)).2 Cases.startedR1).
  - vm_compute. reflexivity.
  - vm_compute. reflexivity.
Defined.

(** RESUME_WITH_TASK for a run whose forceYieldImmediately is set: the flag
    is still set after the call. *)
Example resume_with_task_through_call :
  let env := Scenario.answers (Errored (RESUME_WITH_TASK Cases.namedT1)) 100 in
  let w' := (call (H := Scenario.imports) 3000 Scenario.executeR1 0 env
               (Scenario.world Cases.storeWithTask)).2 in
  JobRun.forceYieldImmediately <$> jobRun Cases.storeWithTask !! "r1" = Some true
  /\ JobRun.forceYieldImmediately <$> jobRun (db w') !! "r1" = Some true
  /\ workerQueue (db w') = [ResumeTask "t1" None].
Proof. vm_compute. repeat split. Qed.

(** ** C9: blocked organisations *)

Section Claim_C9.

Context `{Imports}.

(** C9. For a run of a blocked organisation: when the CANCELED write throws,
    the exception is swallowed with nothing written, [#executeJob] goes on
    exactly as it does when the organisation is not blocked, and (connections
    resolving) it builds the body and calls the endpoint; when the write
    succeeds the run is CANCELED with completedAt set and nothing else
    happens. *)
Theorem C9_blocked_org_guard now run input drift env w r :
  JobRun.status (FoundRun.run run) <> JobRunStatus.CANCELED ->
  isBlockedOrg env run = true ->
  jobRun (db w) !! FoundRun.id run = Some r ->
  (blockedOrgWriteFails env = true ->
     blockedOrgGuard now run env w = (inr false, w)
     /\ executeJob now run input drift env w
        = executeJob now run input drift (withoutBlockedOrgs env) w
     /\ (connectionsResolve env = true ->
         exists body,
           effects (executeJob now run input drift env w).2
           = effects w ++ [ExecutionEvent start drift (FoundRun.id run);
                           ExecuteJobRequest body;
                           ExecutionEvent finish 0 (FoundRun.id run)]))
  /\ (blockedOrgWriteFails env = false ->
      exists w',
        executeJob now run input drift env w = (inr tt, w')
        /\ jobRun (db w') !! FoundRun.id run
           = Some (JobRun.set_status JobRunStatus.CANCELED
                     (JobRun.set_completedAt (Some now) r))
        /\ effects w' = effects w
        /\ workerQueue (db w') = workerQueue (db w)).
Proof.
  intros Hstatus Hblocked Hr. split.
  - intros Hfails.
    assert (blockedOrgGuard now run env = ret false) as Hguard.
    { unfold blockedOrgGuard. rewrite Hblocked, Hfails. reflexivity. }
    assert (blockedOrgGuard now run (withoutBlockedOrgs env) = ret false) as Hguard'.
    { by apply blockedOrgGuard_not_blocked. }
    split; [by rewrite Hguard|]. split.
    + unfold executeJob. rewrite Hguard, Hguard'. reflexivity.
    + intros Hconn. unfold executeJob, finally.
      rewrite bool_decide_eq_false_2 by done. rewrite Hguard.
      unfold bind at 1, ret at 1. unfold bind at 1.
      unfold startChunk, jobRun_update, bind at 1, getStore at 1. simpl.
      rewrite Hr. simpl. rewrite Hconn. simpl.
      unfold bind at 1.
      match goal with
      | |- context [resumeTaskById now ?i ?w1] =>
          destruct (resumeTaskById_returns now i w1) as (resumed & w2 & -> & Heff & _ & _)
      end.
      simpl in Heff. unfold bind, registerRun, emit, deregisterRun. simpl.
      match goal with
      | |- context [interpretResponse now run input env ?ec ?w3] =>
          pose proof (silent_interpretResponse now run input env ec w3) as Hsilent;
          destruct (interpretResponse now run input env ec w3) as [res w4]
      end.
      simpl in *. rewrite Hsilent, Heff. rewrite <- !app_assoc. simpl. by eexists.
  - intros Hok. unfold executeJob, finally.
    rewrite bool_decide_eq_false_2 by done.
    unfold blockedOrgGuard. rewrite Hblocked, Hok.
    unfold bind, try_catch, jobRun_update, bind, getStore. simpl.
    rewrite Hr. simpl. eexists. split; [reflexivity|]. simpl.
    rewrite lookup_insert_eq. done.
Qed.

End Claim_C9.

Lemma C9_witness_write_fails :
  executeJob (H := Scenario.imports) 1000 Cases.loadedR1 Scenario.executeR1 5 Cases.blockedWriteFails
    (Scenario.world Scenario.store0)
  = executeJob (H := Scenario.imports) 1000 Cases.loadedR1 Scenario.executeR1 5
      (withoutBlockedOrgs Cases.blockedWriteFails) (Scenario.world Scenario.store0)
  /\ exists body,
       effects (executeJob (H := Scenario.imports) 1000 Cases.loadedR1 Scenario.executeR1 5
                  Cases.blockedWriteFails (Scenario.world Scenario.store0)).2
       = [] ++ [ExecutionEvent start 5 "r1"; ExecuteJobRequest body; ExecutionEvent finish 0 "r1"].
Proof.
  destruct (C9_blocked_org_guard (H := Scenario.imports) 1000 Cases.loadedR1 Scenario.executeR1 5
              Cases.blockedWriteFails (Scenario.world Scenario.store0) Scenario.r1)
    as [Hfails _].
  - vm_compute. discriminate.
  - vm_compute. reflexivity.
  - vm_compute. reflexivity.
  - destruct (Hfails eq_refl) as (_ & Hsame & Hcalls).
    split; [exact Hsame|]. exact (Hcalls eq_refl).
Defined.

(** ** C10: header-driven subscriptions *)

Section Claim_C10.

Context `{Imports}.

(** C10. An upsert for an event is issued only when no subscription of the
    loaded run has that event, whatever its recipient. So when the store holds
    an ENDPOINT subscription of the run for the event, to any recipient, the
    header side effects leave the rows for that event as they were, and a row
    for (run, endpoint, event) that was not there is not created. *)
Theorem C10_subscription_upsert_guard event :
  (forall run headers,
     event ∈ subscriptionUpserts run headers ->
     forall s, s ∈ FoundRun.subscriptions run -> JobRunSubscription.event s <> event)
  /\ (forall w id run headers x,
       findRun (db w) id = Some run ->
       x ∈ jobRunSubscription (db w) ->
       JobRunSubscription.runId x = id ->
       JobRunSubscription.recipientMethod x = RecipientMethod.ENDPOINT ->
       JobRunSubscription.event x = event ->
       (event ∉ subscriptionUpserts run headers)
       /\ rowsFor event (db (applyResponseHeaders run headers w).2) = rowsFor event (db w)
       /\ (subscriptionFor run event ∉ jobRunSubscription (db w) ->
           subscriptionFor run event
             ∉ jobRunSubscription (db (applyResponseHeaders run headers w).2))).
Proof.
  split.
  - intros run headers Hin.
    exact (hasSubscriptionTo_false _ _ (subscriptionUpserts_only_when _ _ _ Hin)).
  - intros w id run headers x Hfind Hx Hrun Hmethod Hevent.
    assert (x ∈ FoundRun.subscriptions run) as Hloaded.
    { unfold findRun in Hfind.
      destruct (jobRun (db w) !! id) as [r|]; simpl in Hfind; [|done].
      destruct (endpoint (db w) !! JobRun.endpointId r) as [e|]; simpl in Hfind; [|done].
      injection Hfind as <-. simpl. apply list_elem_of_filter. done. }
    assert (event ∉ subscriptionUpserts run headers) as Hnot.
    { intros Hin. apply subscriptionUpserts_only_when in Hin.
      by apply (hasSubscriptionTo_false _ _ Hin x). }
    assert (rowsFor event (db (applyResponseHeaders run headers w).2) = rowsFor event (db w))
      as Hrows.
    { unfold applyResponseHeaders, bind at 1.
      match goal with
      | |- context [match ?m w with _ => _ end] =>
          assert (jobRunSubscription (db (m w).2) = jobRunSubscription (db w)) as Hsame;
          [|destruct (m w) as [[e|[]] w1]; simpl in Hsame |- *]
      end.
      - destruct headers as [data|]; [|done].
        unfold when. case_match; [|done].
        unfold endpoint_update, bind, getStore. simpl. by case_match.
      - unfold rowsFor. by rewrite Hsame.
      - rewrite rowsFor_upserts by done. unfold rowsFor. by rewrite Hsame. }
    split; [done|]. split; [done|].
    intros Habsent Hpresent. apply Habsent.
    assert (subscriptionFor run event ∈ rowsFor event (db w)) as Hin.
    { rewrite <- Hrows. apply list_elem_of_filter. done. }
    by apply list_elem_of_filter in Hin as [_ Hin].
Qed.

End Claim_C10.

Lemma C10_witness_other_recipient :
  (SubscriptionEvent.SUCCESS ∉ subscriptionUpserts Cases.loadedSubscribed Cases.asksForSuccess)
  /\ rowsFor SubscriptionEvent.SUCCESS
       (db (applyResponseHeaders Cases.loadedSubscribed Cases.asksForSuccess
              (Scenario.world Cases.storeSubscribed)).2)
     = [Cases.otherRecipient].
Proof.
  destruct (@C10_subscription_upsert_guard SubscriptionEvent.SUCCESS) as [_ Hguard].
  destruct (Hguard (Scenario.world Cases.storeSubscribed) "r1" Cases.loadedSubscribed
              Cases.asksForSuccess Cases.otherRecipient)
    as (Hnone & Hrows & _).
  - vm_compute. reflexivity.
  - apply list_elem_of_here.
  - reflexivity.
  - reflexivity.
  - reflexivity.
  - split; [exact Hnone|]. rewrite Hrows. vm_compute. reflexivity.
Defined.

(** * The scenarios of the specification that the model runs *)

(** S1: SUCCESS after 300 ms for a queued run. *)
Example S1_happy_path :
  let w' := (call (H := Scenario.imports) 1000 Scenario.executeR1 12
               (Scenario.answers (SUCCESS (Some "{ok:true}")) 300)
               (Scenario.world Scenario.store0)).2 in
  jobRun (db w') !! "r1"
  = Some (JobRun.mk JobRunStatus.SUCCESS (Some 1000) (Some 1000) 1 300 []
            (Some (OutPayload "{ok:true}")) None false false false "org1" "ep1"
            RuntimeEnvironmentType.PRODUCTION 60000)
  /\ workerQueue (db w') = [DeliverRunSubscriptions "r1"].
Proof. vm_compute. split; reflexivity. Qed.

(** S3: the chunk times out and no task was created: the run is TIMED_OUT,
    the diagnostic blames code outside a task, and no execution is enqueued. *)
Example S3_timeout_without_task :
  let w' := (call (H := Scenario.imports) 1000 Scenario.executeR1 0 Cases.gatewayTimeout
               (Scenario.world Scenario.store0)).2 in
  JobRun.status <$> jobRun (db w') !! "r1" = Some JobRunStatus.TIMED_OUT
  /\ JobRun.completedAt <$> jobRun (db w') !! "r1" = Some (Some 1000)
  /\ JobRun.output <$> jobRun (db w') !! "r1"
     = Some (Some (OutMessage (FunctionTimeout 9000 CausedByCodeOutsideTask)))
  /\ workerQueue (db w') = [DeliverRunSubscriptions "r1"].
Proof. vm_compute. repeat split. Qed.

(** S6: YIELD_EXECUTION for a run at the ceiling: FAILURE, with the message
    that names the maximum. *)
Example S6_yield_at_the_ceiling :
  let w' := (call (H := Scenario.imports) 1000 Scenario.executeR1 0
               (Scenario.answers (Errored (YIELD_EXECUTION "k")) 200)
               (Scenario.world Cases.storeAtTheCeiling)).2 in
  JobRun.status <$> jobRun (db w') !! "r1" = Some JobRunStatus.FAILURE
  /\ JobRun.output <$> jobRun (db w') !! "r1"
     = Some (Some (OutMessage (YieldedTooManyTimes 100)))
  /\ (length <$> (JobRun.yieldedExecutions <$> jobRun (db w') !! "r1")) = Some 100%nat.
Proof. vm_compute. repeat split. Qed.

(** * Further properties of the service *)

(** ** Projections of the world that a computation leaves alone *)

Section Frames.

Context {X : Type} (f : World -> X).
Hypothesis f_storeBlind : storeBlind f.

Lemma frames_ret {A} (a : A) : frames f (ret a).
Proof. done. Qed.

Lemma frames_throw {A} (e : Exn) : frames f (@throw A e).
Proof. done. Qed.

Lemma frames_bind {A B} (m : M A) (k : A -> M B) :
  frames f m -> (forall a, frames f (k a)) -> frames f (bind m k).
Proof.
  intros Hm Hk w. unfold bind. specialize (Hm w).
  destruct (m w) as [[e|a] w1]; simpl in *; [done|]. by rewrite Hk.
Qed.

Lemma frames_transaction {A} (m : M A) : frames f m -> frames f (transaction m).
Proof.
  intros Hm w. unfold transaction. specialize (Hm w).
  destruct (m w) as [[e|a] w1]; simpl in *; [|done].
  by rewrite (f_storeBlind w1 (db w)).
Qed.

Lemma frames_try_catch {A} (m handler : M A) :
  frames f m -> frames f handler -> frames f (try_catch m handler).
Proof.
  intros Hm Hh w. unfold try_catch. specialize (Hm w).
  destruct (m w) as [[e|a] w1]; simpl in *; [|done]. by rewrite Hh.
Qed.

Lemma frames_when (b : bool) (m : M unit) : frames f m -> frames f (when b m).
Proof. intros Hm. destruct b; [done | apply frames_ret]. Qed.

Lemma frames_getStore : frames f getStore.
Proof. done. Qed.

Lemma frames_modifyStore (g : Store -> Store) : frames f (modifyStore g).
Proof. intros w. unfold modifyStore. simpl. apply f_storeBlind. Qed.

Lemma frames_forEach {A} (g : A -> M unit) (l : list A) :
  (forall a, frames f (g a)) -> frames f (forEach g l).
Proof.
  intros Hg. induction l as [|a l IH]; simpl; [apply frames_ret|].
  apply frames_bind; [apply Hg | intros _; exact IH].
Qed.

End Frames.

Ltac frames_step :=
  lazymatch goal with
  | |- frames _ (ret _) => apply frames_ret
  | |- frames _ (throw _) => apply frames_throw
  | |- frames _ getStore => apply frames_getStore
  | |- frames _ (modifyStore _) => apply frames_modifyStore; assumption
  | |- frames _ (transaction _) => apply frames_transaction; [assumption|]
  | |- frames _ (try_catch _ _) => apply frames_try_catch
  | |- frames _ (when _ _) => apply frames_when
  | |- frames _ (bind _ _) => apply frames_bind; [|intros ?]
  | |- frames _ (forEach _ _) => apply frames_forEach; intros ?
  | |- frames _ (match ?x with _ => _ end) => destruct x
  end.

Ltac store_unfold :=
  unfold jobRun_update, endpoint_update, task_update, task_findUnique,
    taskAttempt_findFirstPending, jobRunSubscription_upsert, enqueue.

Section FramesOfHandlers.

Context `{Imports}.
Context {X : Type} (f : World -> X).
Hypothesis f_storeBlind : storeBlind f.
Variable now : Z.

Lemma frames_failRunExecution reason run output status d :
  frames f (failRunExecution now reason run output status d).
Proof.
  unfold failRunExecution, enqueueRunExecutionV3. store_unfold.
  destruct reason; [destruct status|]; repeat frames_step.
Qed.

Lemma frames_dispatchChildError run d childError :
  frames f (dispatchChildError now run d childError).
Proof.
  unfold dispatchChildError, resumeAutoYieldedRun, resumeAutoYieldedRunWithCompletedTask,
    recordAutoYield, resumeRunWithTask, retryRunWithTask, resumeYieldedRun,
    enqueueRunExecutionV3, ResumeTaskService_enqueue, CompleteRunTaskService_call,
    parseIfPresent.
  store_unfold.
  destruct childError; repeat first [apply frames_failRunExecution | frames_step].
Qed.

Lemma frames_forEachChildError run d childErrors :
  frames f (forEachChildError now run d childErrors).
Proof.
  induction childErrors as [|c rest IH]; simpl; [apply frames_ret|].
  apply frames_bind; [apply frames_dispatchChildError|].
  intros [|]; [exact IH | apply frames_ret].
Qed.

Lemma frames_dispatchResponse run data d : frames f (dispatchResponse now run data d).
Proof.
  unfold dispatchResponse, completeRunWithSuccess, resumeParallelRunWithTask,
    failRunWithError, failRunWithUnresolvedAuthError, failRunWithInvalidPayloadError,
    cancelExecution, resumeAutoYieldedRun, resumeAutoYieldedRunWithCompletedTask,
    recordAutoYield, resumeRunWithTask, retryRunWithTask, resumeYieldedRun,
    enqueueRunExecutionV3, ResumeTaskService_enqueue, CompleteRunTaskService_call,
    parseIfPresent.
  store_unfold.
  destruct data as [ | | []];
    repeat first
      [ apply frames_failRunExecution | apply frames_forEachChildError | frames_step ].
Qed.

Lemma frames_interpretResponse run input env ec :
  frames f (interpretResponse now run input env ec).
Proof.
  unfold interpretResponse, applyResponseHeaders, failRunExecutionWithRetry,
    resumeRunExecutionAfterTimeout, findRunWithLatestTask, enqueueRunExecutionV3.
  store_unfold.
  repeat first
    [ apply frames_failRunExecution | apply frames_dispatchResponse | frames_step ].
Qed.

Lemma frames_blockedOrgGuard run env : frames f (blockedOrgGuard now run env).
Proof. unfold blockedOrgGuard. store_unfold. repeat frames_step. Qed.

Lemma frames_startChunk run : frames f (startChunk now run).
Proof. unfold startChunk. store_unfold. repeat frames_step. Qed.

Lemma frames_resumeTaskById resumeTaskId : frames f (resumeTaskById now resumeTaskId).
Proof. unfold resumeTaskById. store_unfold. repeat frames_step. Qed.

End FramesOfHandlers.

(** ** The registry and the telemetry of [#executeJob] *)

Section Registry_and_telemetry.

Context `{Imports}.

Lemma storeBlind_effects : storeBlind effects.
Proof. done. Qed.

Lemma storeBlind_others (id : string) : storeBlind (fun w => registeredRuns w ∖ {[id]}).
Proof. done. Qed.

(** X1. Whatever [#executeJob] does, returning or throwing, it leaves the run
    out of the force-yield registry and every other run's registration as it
    was. *)
Theorem X1_executeJob_deregisters_on_every_exit now run input drift env w :
  registeredRuns (executeJob now run input drift env w).2
  = registeredRuns w ∖ {[FoundRun.id run]}.
Proof.
  unfold executeJob, finally.
  match goal with
  | |- registeredRuns (let '(_, _) := ?m w in _).2 = _ =>
      assert (frames (fun w => registeredRuns w ∖ {[FoundRun.id run]}) m) as Hm
  end.
  { pose proof (storeBlind_others (FoundRun.id run)) as Hblind.
    unfold cancelExecution.
    repeat first
      [ apply frames_failRunExecution; assumption
      | apply frames_blockedOrgGuard; assumption
      | apply frames_startChunk; assumption
      | apply frames_resumeTaskById; assumption
      | apply frames_interpretResponse; assumption
      | lazymatch goal with
        | |- frames _ (emit _) => by intros ?
        | |- frames _ (registerRun _) =>
            intros ?; unfold registerRun; simpl;
            by rewrite difference_union_distr_l_L, difference_diag_L, union_empty_l_L
        | |- frames _ (deregisterRun _) =>
            intros ?; unfold deregisterRun, deregister; simpl;
            by rewrite difference_difference_l_L, union_idemp_L
        end
      | frames_step ]. }
  specialize (Hm w).
  destruct (_ w) as [res w1]. simpl in *. exact Hm.
Qed.

(** X2. One [#executeJob] sends at most one request to the endpoint, and a
    request is always bracketed by a start event carrying the drift and a
    finish event with drift 0; nothing else is emitted, whether the call
    returns or throws. *)
Theorem X2_executeJob_requests_at_most_once now run input drift env w :
  exists emitted,
    effects (executeJob now run input drift env w).2 = effects w ++ emitted
    /\ (emitted = []
        \/ exists body,
             emitted = [ExecutionEvent start drift (FoundRun.id run);
                        ExecuteJobRequest body;
                        ExecutionEvent finish 0 (FoundRun.id run)]).
Proof.
  assert (forall l : list Effect, l = effects w ->
            exists emitted, l = effects w ++ emitted /\ (emitted = [] \/
              exists body,
                emitted = [ExecutionEvent start drift (FoundRun.id run);
                           ExecuteJobRequest body;
                           ExecutionEvent finish 0 (FoundRun.id run)])) as Hnothing.
  { intros l ->. exists []. rewrite app_nil_r. by split; [|left]. }
  unfold executeJob, finally.
  case_bool_decide; [by apply Hnothing|].
  unfold bind at 1.
  pose proof (frames_blockedOrgGuard effects storeBlind_effects now run env w) as Hguard.
  destruct (blockedOrgGuard now run env w) as [[e|[|]] w1]; simpl in *;
    [by apply Hnothing..|].
  unfold bind at 1.
  pose proof (frames_startChunk effects storeBlind_effects now run w1) as Hstart.
  destruct (startChunk now run w1) as [[e|updated] w2]; simpl in *;
    [apply Hnothing; congruence|].
  destruct (connectionsResolve env); simpl.
  - unfold bind at 1.
    pose proof (frames_resumeTaskById effects storeBlind_effects now (resumeTaskId input) w2)
      as Hresume.
    destruct (resumeTaskById now (resumeTaskId input) w2) as [[e|resumed] w3]; simpl in *;
      [apply Hnothing; congruence|].
    unfold bind, registerRun, emit, deregisterRun. simpl.
    match goal with
    | |- context [interpretResponse now run input env ?ec ?w4] =>
        pose proof (frames_interpretResponse effects storeBlind_effects now run input env
                      ec w4) as Hinterpret;
        destruct (interpretResponse now run input env ec w4) as [res w5]
    end.
    simpl in *. eexists. split; [|right; by eexists].
    rewrite Hinterpret, Hresume, Hstart, Hguard. rewrite <- !app_assoc. reflexivity.
  - pose proof (frames_failRunExecution effects storeBlind_effects now EXECUTE_JOB run
                  (Some (OutMessage (CouldNotResolveConnections (FoundRun.id run))))
                  F_FAILURE 0 w2) as Hfail.
    destruct (failRunExecution _ _ _ _ _ _ w2) as [res w3]. simpl in *.
    apply Hnothing. congruence.
Qed.

End Registry_and_telemetry.

(** ** What a computation can throw *)

Section ThrowsOnly.

Variable E : Exn -> Prop.

Lemma throwsOnly_ret {A} (a : A) : throwsOnly E (ret a).
Proof. intros w e [=]. Qed.

Lemma throwsOnly_throw {A} (e : Exn) : E e -> throwsOnly E (@throw A e).
Proof. by intros He w e' [= <-]. Qed.

Lemma throwsOnly_bind {A B} (m : M A) (k : A -> M B) :
  throwsOnly E m -> (forall a, throwsOnly E (k a)) -> throwsOnly E (bind m k).
Proof.
  intros Hm Hk w e. unfold bind. specialize (Hm w).
  destruct (m w) as [[e'|a] w1]; simpl in *.
  - intros [= <-]. by apply Hm.
  - apply Hk.
Qed.

Lemma throwsOnly_transaction {A} (m : M A) : throwsOnly E m -> throwsOnly E (transaction m).
Proof.
  intros Hm w e. unfold transaction. specialize (Hm w).
  destruct (m w) as [[e'|a] w1]; simpl in *; [|done].
  intros [= <-]. by apply Hm.
Qed.

Lemma throwsOnly_try_catch {A} (m handler : M A) :
  throwsOnly E handler -> throwsOnly E (try_catch m handler).
Proof.
  intros Hh w e. unfold try_catch.
  destruct (m w) as [[e'|a] w1]; simpl; [apply Hh | done].
Qed.

Lemma throwsOnly_finally {A} (m : M A) (h : World -> World) :
  throwsOnly E m -> throwsOnly E (finally m h).
Proof.
  intros Hm w e. unfold finally. specialize (Hm w e).
  destruct (m w) as [res w1]. simpl in *. exact Hm.
Qed.

Lemma throwsOnly_when (b : bool) (m : M unit) : throwsOnly E m -> throwsOnly E (when b m).
Proof. intros Hm. destruct b; [done | apply throwsOnly_ret]. Qed.

Lemma throwsOnly_total {A} (m : M A) : (forall w, exists a, (m w).1 = inr a) -> throwsOnly E m.
Proof. intros Hm w e He. destruct (Hm w) as [a Ha]. congruence. Qed.

Lemma throwsOnly_forEach {A} (g : A -> M unit) (l : list A) :
  (forall a, throwsOnly E (g a)) -> throwsOnly E (forEach g l).
Proof.
  intros Hg. induction l as [|a l IH]; simpl; [apply throwsOnly_ret|].
  apply throwsOnly_bind; [apply Hg | intros _; exact IH].
Qed.

End ThrowsOnly.

Ltac throws_step :=
  lazymatch goal with
  | |- throwsOnly _ (ret _) => apply throwsOnly_ret
  | |- throwsOnly _ (throw (RetryError _)) => fail
  | |- throwsOnly _ (throw _) => apply throwsOnly_throw; intros []
  | |- throwsOnly _ getStore => apply throwsOnly_total; intros ?; by eexists
  | |- throwsOnly _ (modifyStore _) => apply throwsOnly_total; intros ?; by eexists
  | |- throwsOnly _ (emit _) => apply throwsOnly_total; intros ?; by eexists
  | |- throwsOnly _ (registerRun _) => apply throwsOnly_total; intros ?; by eexists
  | |- throwsOnly _ (deregisterRun _) => apply throwsOnly_total; intros ?; by eexists
  | |- throwsOnly _ (transaction _) => apply throwsOnly_transaction
  | |- throwsOnly _ (try_catch _ _) => apply throwsOnly_try_catch
  | |- throwsOnly _ (finally _ _) => apply throwsOnly_finally
  | |- throwsOnly _ (when _ _) => apply throwsOnly_when
  | |- throwsOnly _ (bind _ _) => apply throwsOnly_bind; [|intros ?]
  | |- throwsOnly _ (forEach _ _) => apply throwsOnly_forEach; intros ?
  | |- throwsOnly _ (match ?x with _ => _ end) => destruct x
  end.

Section Retries.

Context `{Imports}.
Variable now : Z.

Lemma neverRetries_failRunExecution reason run output status d :
  throwsOnly notRetry (failRunExecution now reason run output status d).
Proof.
  unfold failRunExecution, enqueueRunExecutionV3. store_unfold.
  destruct reason; [destruct status|]; repeat throws_step.
Qed.

Lemma neverRetries_dispatchChildError run d childError :
  throwsOnly notRetry (dispatchChildError now run d childError).
Proof.
  unfold dispatchChildError, resumeAutoYieldedRun, resumeAutoYieldedRunWithCompletedTask,
    recordAutoYield, resumeRunWithTask, retryRunWithTask, resumeYieldedRun,
    enqueueRunExecutionV3, ResumeTaskService_enqueue, CompleteRunTaskService_call,
    parseIfPresent.
  store_unfold.
  destruct childError; repeat first [apply neverRetries_failRunExecution | throws_step].
Qed.

Lemma neverRetries_forEachChildError run d childErrors :
  throwsOnly notRetry (forEachChildError now run d childErrors).
Proof.
  induction childErrors as [|c rest IH]; simpl; [apply throwsOnly_ret|].
  apply throwsOnly_bind; [apply neverRetries_dispatchChildError|].
  intros [|]; [exact IH | apply throwsOnly_ret].
Qed.

Lemma neverRetries_dispatchResponse run data d :
  throwsOnly notRetry (dispatchResponse now run data d).
Proof.
  unfold dispatchResponse, completeRunWithSuccess, resumeParallelRunWithTask,
    failRunWithError, failRunWithUnresolvedAuthError, failRunWithInvalidPayloadError,
    cancelExecution, resumeAutoYieldedRun, resumeAutoYieldedRunWithCompletedTask,
    recordAutoYield, resumeRunWithTask, retryRunWithTask, resumeYieldedRun,
    enqueueRunExecutionV3, ResumeTaskService_enqueue, CompleteRunTaskService_call,
    parseIfPresent.
  store_unfold.
  destruct data as [ | | []];
    repeat first
      [ apply neverRetries_failRunExecution | apply neverRetries_forEachChildError
      | throws_step ].
Qed.

Lemma neverRetries_applyResponseHeaders run headers :
  throwsOnly notRetry (applyResponseHeaders run headers).
Proof. unfold applyResponseHeaders. store_unfold. repeat throws_step. Qed.

(** X3. The service asks the queue to retry (throws the retry error) only on
    transport-level outcomes: when the endpoint answers 2xx, whatever the
    body, or 4xx other than 408, [#executeJob] never throws the retry error. *)
Theorem X3_no_retry_after_2xx_or_4xx run input drift env w response :
  executeJobRequest env = Some response ->
  Response.ok response = true
  \/ (is4xx (Response.status response) = true /\ Response.status response <> 408) ->
  asksForRetry (executeJob now run input drift env w).1 = false.
Proof.
  intros Hresponse Hstatus. revert w.
  cut (throwsOnly notRetry (executeJob now run input drift env)).
  { intros Hnever w. specialize (Hnever w).
    destruct (executeJob now run input drift env w).1 as [[]|]; try reflexivity.
    by destruct (Hnever _ eq_refl). }
  assert (forall ec, throwsOnly notRetry (interpretResponse now run input env ec)) as Hinterpret.
  { intros ec. unfold interpretResponse. rewrite Hresponse.
    apply throwsOnly_bind; [case_match; throws_step|]. intros headers.
    apply throwsOnly_bind; [apply neverRetries_applyResponseHeaders|]. intros _.
    destruct Hstatus as [->|[H4xx Hne]]; simpl.
    - repeat first
        [ apply neverRetries_failRunExecution | apply neverRetries_dispatchResponse
        | throws_step ].
    - rewrite H4xx, bool_decide_eq_false_2 by done. simpl.
      repeat first
        [ apply neverRetries_failRunExecution | apply neverRetries_dispatchResponse
        | throws_step ]. }
  unfold executeJob, blockedOrgGuard, startChunk, resumeTaskById, cancelExecution.
  store_unfold.
  repeat first [apply neverRetries_failRunExecution | apply Hinterpret | throws_step].
Qed.

End Retries.

Lemma X3_witness_success_answer :
  asksForRetry
    (executeJob (H := Scenario.imports) 2000 Cases.loadedR1 Scenario.executeR1 0
       Scenario.succeeds (Scenario.world Scenario.store0)).1
  = false.
Proof.
  apply (X3_no_retry_after_2xx_or_4xx (H := Scenario.imports) 2000 Cases.loadedR1
           Scenario.executeR1 0 Scenario.succeeds (Scenario.world Scenario.store0)
           (Response.mk 200 (HeadersVerdict None) NotJson
              (Parsed (SUCCESS (Some "{ok:true}"))))).
  - reflexivity.
  - left. reflexivity.
Defined.

(** ** Chunks that get no answer, or are not sent *)

Section Unanswered.

Context `{Imports}.
Variable now : Z.

(** X4. When the endpoint cannot be reached for the execute request,
    [#executeJob] throws the retry error, and the chunk has been counted all
    the same: the run row is the one written by the first update (execution
    count + 1, started), it is not completed by this call, the request was
    announced and sent once, and the run is no longer registered. *)
Theorem X4_unanswered_chunk_is_counted_and_retried run input drift env w r :
  JobRun.status (FoundRun.run run) <> JobRunStatus.CANCELED ->
  isBlockedOrg env run = false ->
  connectionsResolve env = true ->
  executeJobRequest env = None ->
  jobRun (db w) !! FoundRun.id run = Some r ->
  exists w' r' body,
    executeJob now run input drift env w
    = (inl (RetryError
              (OutMessage (ConnectionNotEstablished (Endpoint.url (FoundRun.endpoint run))))),
       w')
    /\ jobRun (db w') !! FoundRun.id run = Some r'
    /\ JobRun.executionCount r' = JobRun.executionCount r + 1
    /\ JobRun.completedAt r' = JobRun.completedAt r
    /\ JobRun.executionDuration r' = JobRun.executionDuration r
    /\ workerQueue (db w') = workerQueue (db w)
    /\ effects w'
       = effects w ++ [ExecutionEvent start drift (FoundRun.id run);
                       ExecuteJobRequest body;
                       ExecutionEvent finish 0 (FoundRun.id run)]
    /\ registeredRuns w' = registeredRuns w ∖ {[FoundRun.id run]}.
Proof.
  intros Hstatus Hblocked Hresolve Hnone Hr.
  unfold executeJob, finally.
  rewrite bool_decide_eq_false_2 by done.
  unfold blockedOrgGuard. rewrite Hblocked, Hresolve.
  unfold try_catch, startChunk, jobRun_update, bind, getStore, modifyStore, ret. simpl.
  rewrite Hr. simpl.
  match goal with
  | |- context [resumeTaskById now ?i ?w1] =>
      destruct (resumeTaskById_writes_tasks_only now i w1)
        as (resumed & w2 & g & -> & Heff & Hreg & Hdb)
  end.
  simpl in *.
  unfold interpretResponse. rewrite Hnone.
  unfold registerRun, emit, deregisterRun, deregister, failRunExecutionWithRetry, throw. simpl.
  eexists _, _, _. split; [reflexivity|]. simpl.
  rewrite Hdb. simpl. rewrite lookup_insert_eq. split; [reflexivity|]. simpl.
  rewrite Heff, Hreg, <- !app_assoc. simpl.
  repeat split; try done.
  rewrite difference_difference_l_L, union_idemp_L.
  by rewrite difference_union_distr_l_L, difference_diag_L, union_empty_l_L.
Qed.

End Unanswered.

Lemma X4_witness_unreachable_endpoint :
  exists w' r' body,
    executeJob (H := Scenario.imports) 1000 Cases.loadedR1 Scenario.executeR1 5
      Cases.unreachable (Scenario.world Scenario.store0)
    = (inl (RetryError
              (OutMessage (ConnectionNotEstablished (Endpoint.url (FoundRun.endpoint Cases.loadedR1))))),
       w')
    /\ jobRun (db w') !! FoundRun.id Cases.loadedR1 = Some r'
    /\ JobRun.executionCount r' = JobRun.executionCount Scenario.r1 + 1
    /\ JobRun.completedAt r' = JobRun.completedAt Scenario.r1
    /\ JobRun.executionDuration r' = JobRun.executionDuration Scenario.r1
    /\ workerQueue (db w') = workerQueue (db (Scenario.world Scenario.store0))
    /\ effects w'
       = effects (Scenario.world Scenario.store0)
         ++ [ExecutionEvent start 5 (FoundRun.id Cases.loadedR1);
             ExecuteJobRequest body;
             ExecutionEvent finish 0 (FoundRun.id Cases.loadedR1)]
    /\ registeredRuns w'
       = registeredRuns (Scenario.world Scenario.store0) ∖ {[FoundRun.id Cases.loadedR1]}.
Proof.
  apply (X4_unanswered_chunk_is_counted_and_retried (H := Scenario.imports) 1000
           Cases.loadedR1 Scenario.executeR1 5 Cases.unreachable
           (Scenario.world Scenario.store0) Scenario.r1).
  - vm_compute. discriminate.
  - reflexivity.
  - reflexivity.
  - reflexivity.
  - reflexivity.
Defined.

(** ** Failing a run *)

Section Failing.

Context `{Imports}.
Variable now : Z.

Lemma failRunExecution_EXECUTE_JOB_returns run output status d w r :
  jobRun (db w) !! FoundRun.id run = Some r ->
  failRunExecution now EXECUTE_JOB run output status d w
  = (inr tt,
     mkWorld
       (withWorkerQueue (fun q => q ++ [DeliverRunSubscriptions (FoundRun.id run)])
          (withTask (map (fun t =>
             if bool_decide (Task.runId t = FoundRun.id run) && isOpenTask t
             then closedTask now status t else t))
             (withJobRun (insert (FoundRun.id run)
                (JobRun.set_completedAt (Some now)
                  (JobRun.set_status (toRunStatus status)
                    (setIfDefined JobRun.set_output output
                      (JobRun.set_executionDuration (JobRun.executionDuration r + d)
                        (JobRun.set_forceYieldImmediately false r))))))
                (db w))))
       (effects w) (registeredRuns w)).
Proof.
  intros Hr.
  unfold failRunExecution, transaction, jobRun_update, enqueue, bind, getStore,
    modifyStore, ret. simpl.
  rewrite Hr. simpl. reflexivity.
Qed.

Lemma closedTask_is_closed status t : isOpenTask (closedTask now status t) = false.
Proof. by destruct status. Qed.

(** X5. When [#failRunExecution] fails a run for EXECUTE_JOB, no task of the
    run stays open (WAITING, RUNNING or PENDING): each open task of the run
    is CANCELED when the run timed out and ERRORED otherwise, and completed
    now. Tasks of other runs and tasks that were not open are as before, at
    the same place of the table. *)
Theorem X5_failed_run_has_no_open_task run output status d w r :
  jobRun (db w) !! FoundRun.id run = Some r ->
  exists w',
    failRunExecution now EXECUTE_JOB run output status d w = (inr tt, w')
    /\ length (task (db w')) = length (task (db w))
    /\ (forall t', t' ∈ task (db w') -> Task.runId t' = FoundRun.id run ->
          isOpenTask t' = false)
    /\ forall i t, task (db w) !! i = Some t ->
         exists t', task (db w') !! i = Some t'
           /\ Task.id t' = Task.id t /\ Task.runId t' = Task.runId t
           /\ (Task.runId t <> FoundRun.id run \/ isOpenTask t = false -> t' = t)
           /\ (Task.runId t = FoundRun.id run -> isOpenTask t = true ->
                 Task.completedAt t' = Some now
                 /\ Task.status t'
                    = match status with
                      | F_TIMED_OUT => TaskStatus.CANCELED
                      | _ => TaskStatus.ERRORED
                      end).
Proof.
  intros Hr. eexists. split; [by apply failRunExecution_EXECUTE_JOB_returns|]. simpl.
  split; [by rewrite length_map|]. split.
  - intros t' Hin Hrun. apply list_elem_of_fmap in Hin as (t & -> & _).
    destruct (bool_decide (Task.runId t = FoundRun.id run)) eqn:Hown; simpl in *.
    + destruct (isOpenTask t) eqn:Hopen; [apply closedTask_is_closed | done].
    + apply bool_decide_eq_false in Hown. by destruct Hown.
  - intros i t Hi. rewrite list_lookup_fmap, Hi. simpl. eexists. split; [reflexivity|].
    destruct (bool_decide (Task.runId t = FoundRun.id run)) eqn:Hown; simpl.
    + apply bool_decide_eq_true in Hown.
      destruct (isOpenTask t) eqn:Hopen.
      * repeat split; try done. intros [Hne|Hno]; [by destruct Hne | done].
      * repeat split; done.
    + apply bool_decide_eq_false in Hown. repeat split; done.
Qed.

(** X6. When the connections of the run do not resolve, [#executeJob] fails
    the run without asking the endpoint: nothing is sent and no event is
    recorded, the run is FAILURE and completed now with the message naming
    the run, its execution count has gone up by one all the same, and the
    delivery of its subscriptions is queued. *)
Theorem X6_unresolved_connections_fail_the_run_unsent run input drift env w r :
  JobRun.status (FoundRun.run run) <> JobRunStatus.CANCELED ->
  isBlockedOrg env run = false ->
  connectionsResolve env = false ->
  jobRun (db w) !! FoundRun.id run = Some r ->
  exists w' r',
    executeJob now run input drift env w = (inr tt, w')
    /\ effects w' = effects w
    /\ jobRun (db w') !! FoundRun.id run = Some r'
    /\ JobRun.status r' = JobRunStatus.FAILURE
    /\ JobRun.completedAt r' = Some now
    /\ JobRun.output r' = Some (OutMessage (CouldNotResolveConnections (FoundRun.id run)))
    /\ JobRun.executionCount r' = JobRun.executionCount r + 1
    /\ JobRun.executionDuration r' = JobRun.executionDuration r
    /\ workerQueue (db w')
       = workerQueue (db w) ++ [DeliverRunSubscriptions (FoundRun.id run)].
Proof.
  intros Hstatus Hblocked Hresolve Hr.
  unfold executeJob, finally.
  rewrite bool_decide_eq_false_2 by done.
  unfold blockedOrgGuard. rewrite Hblocked, Hresolve.
  unfold try_catch, startChunk, jobRun_update, bind, getStore, modifyStore, ret. simpl.
  rewrite Hr. simpl.
  erewrite failRunExecution_EXECUTE_JOB_returns by (simpl; apply lookup_insert_eq).
  simpl. eexists _, _. split; [reflexivity|]. simpl.
  rewrite lookup_insert_eq. repeat split; try done. simpl. lia.
Qed.

End Failing.

Lemma X6_witness_unresolved_connections :
  exists w' r',
    executeJob (H := Scenario.imports) 1000 Cases.loadedR1 Scenario.executeR1 5
      (mkCallInput None false false None None 0) (Scenario.world Scenario.store0)
    = (inr tt, w')
    /\ effects w' = effects (Scenario.world Scenario.store0)
    /\ jobRun (db w') !! FoundRun.id Cases.loadedR1 = Some r'
    /\ JobRun.status r' = JobRunStatus.FAILURE
    /\ JobRun.completedAt r' = Some 1000
    /\ JobRun.output r'
       = Some (OutMessage (CouldNotResolveConnections (FoundRun.id Cases.loadedR1)))
    /\ JobRun.executionCount r' = JobRun.executionCount Scenario.r1 + 1
    /\ JobRun.executionDuration r' = JobRun.executionDuration Scenario.r1
    /\ workerQueue (db w')
       = workerQueue (db (Scenario.world Scenario.store0))
         ++ [DeliverRunSubscriptions (FoundRun.id Cases.loadedR1)].
Proof.
  apply (X6_unresolved_connections_fail_the_run_unsent (H := Scenario.imports) 1000
           Cases.loadedR1 Scenario.executeR1 5 (mkCallInput None false false None None 0)
           (Scenario.world Scenario.store0) Scenario.r1).
  - vm_compute. discriminate.
  - reflexivity.
  - reflexivity.
  - reflexivity.
Defined.

Lemma X5_witness_running_task_is_canceled :
  exists w',
    failRunExecution 9500 EXECUTE_JOB Cases.loadedBeforeTask None F_TIMED_OUT 9000
      (Scenario.world Cases.storeWithTask)
    = (inr tt, w')
    /\ length (task (db w')) = length (task (db (Scenario.world Cases.storeWithTask)))
    /\ (forall t', t' ∈ task (db w') -> Task.runId t' = FoundRun.id Cases.loadedBeforeTask ->
          isOpenTask t' = false)
    /\ forall i t, task (db (Scenario.world Cases.storeWithTask)) !! i = Some t ->
         exists t', task (db w') !! i = Some t'
           /\ Task.id t' = Task.id t /\ Task.runId t' = Task.runId t
           /\ (Task.runId t <> FoundRun.id Cases.loadedBeforeTask \/ isOpenTask t = false
               -> t' = t)
           /\ (Task.runId t = FoundRun.id Cases.loadedBeforeTask -> isOpenTask t = true ->
                 Task.completedAt t' = Some 9500
                 /\ Task.status t' = TaskStatus.CANCELED).
Proof.
  apply (X5_failed_run_has_no_open_task 9500 Cases.loadedBeforeTask None F_TIMED_OUT 9000
           (Scenario.world Cases.storeWithTask) Cases.startedR1).
  reflexivity.
Defined.

(** ** Timeouts that end the run *)

Section TimedOut.

Context `{Imports}.
Variable now : Z.

(** X7. A timeout is the end of the run when the cumulative limit of the
    organization is reached (judged on the loaded duration plus this chunk's)
    or when no task was created since the run was loaded: the run is
    TIMED_OUT and completed now, the chunk's duration is added, the message
    says which of the two it was (the cumulative limit first), the endpoint
    keeps its chunk limit, and only the delivery of subscriptions is queued. *)
Theorem X7_timeout_without_progress_ends_the_run run input d executionCount w r :
  jobRun (db w) !! FoundRun.id run = Some r ->
  JobRun.maximumExecutionTimePerRunInMs (FoundRun.run run)
    <= JobRun.executionDuration (FoundRun.run run) + d
  \/ Z.of_nat (length (tasksOfRun (FoundRun.id run) (db w))) = FoundRun.count_tasks run ->
  exists w' r',
    resumeRunExecutionAfterTimeout now run input d executionCount w = (inr tt, w')
    /\ jobRun (db w') !! FoundRun.id run = Some r'
    /\ JobRun.status r' = JobRunStatus.TIMED_OUT
    /\ JobRun.completedAt r' = Some now
    /\ JobRun.executionDuration r' = JobRun.executionDuration r + d
    /\ JobRun.executionCount r' = JobRun.executionCount r
    /\ JobRun.output r'
       = Some (OutMessage
           (if JobRun.maximumExecutionTimePerRunInMs (FoundRun.run run)
                 <=? JobRun.executionDuration (FoundRun.run run) + d
            then ExecutionTimedOut (JobRun.maximumExecutionTimePerRunInMs (FoundRun.run run))
            else FunctionTimeout d
                   (timeoutCause (latestBy Task.createdAt (tasksOfRun (FoundRun.id run) (db w))))))
    /\ endpoint (db w') = endpoint (db w)
    /\ workerQueue (db w') = workerQueue (db w) ++ [DeliverRunSubscriptions (FoundRun.id run)].
Proof.
  intros Hr Hend. unfold resumeRunExecutionAfterTimeout.
  destruct (JobRun.maximumExecutionTimePerRunInMs (FoundRun.run run)
              <=? JobRun.executionDuration (FoundRun.run run) + d) eqn:Hover.
  - unfold transaction at 1.
    rewrite (failRunExecution_EXECUTE_JOB_returns now run _ F_TIMED_OUT d w r Hr).
    eexists _, _. split; [reflexivity|]. simpl. rewrite lookup_insert_eq.
    repeat split; done.
  - destruct Hend as [Hle|Hsame]; [apply Z.leb_gt in Hover; lia|].
    unfold transaction at 1. unfold bind at 1.
    unfold findRunWithLatestTask, bind, getStore, ret. simpl. rewrite Hr. simpl.
    rewrite bool_decide_eq_true_2 by done.
    rewrite (failRunExecution_EXECUTE_JOB_returns now run _ F_TIMED_OUT d w r Hr).
    eexists _, _. split; [reflexivity|]. simpl. rewrite lookup_insert_eq.
    repeat split; done.
Qed.

End TimedOut.

Lemma X7_witness_no_task_created :
  exists w' r',
    resumeRunExecutionAfterTimeout (H := Scenario.imports) 9500 Cases.loadedWithTask
      Scenario.executeR1 9000 2 (Scenario.world Cases.storeWithTask) = (inr tt, w')
    /\ jobRun (db w') !! FoundRun.id Cases.loadedWithTask = Some r'
    /\ JobRun.status r' = JobRunStatus.TIMED_OUT
    /\ JobRun.completedAt r' = Some 9500
    /\ JobRun.executionDuration r' = JobRun.executionDuration Cases.startedR1 + 9000
    /\ JobRun.executionCount r' = JobRun.executionCount Cases.startedR1
    /\ JobRun.output r'
       = Some (OutMessage
           (if JobRun.maximumExecutionTimePerRunInMs (FoundRun.run Cases.loadedWithTask)
                 <=? JobRun.executionDuration (FoundRun.run Cases.loadedWithTask) + 9000
            then ExecutionTimedOut
                   (JobRun.maximumExecutionTimePerRunInMs (FoundRun.run Cases.loadedWithTask))
            else FunctionTimeout 9000
                   (timeoutCause
                      (latestBy Task.createdAt
                         (tasksOfRun (FoundRun.id Cases.loadedWithTask)
                            (db (Scenario.world Cases.storeWithTask)))))))
    /\ endpoint (db w') = endpoint (db (Scenario.world Cases.storeWithTask))
    /\ workerQueue (db w')
       = workerQueue (db (Scenario.world Cases.storeWithTask))
         ++ [DeliverRunSubscriptions (FoundRun.id Cases.loadedWithTask)].
Proof.
  apply (X7_timeout_without_progress_ends_the_run (H := Scenario.imports) 9500
           Cases.loadedWithTask Scenario.executeR1 9000 2
           (Scenario.world Cases.storeWithTask) Cases.startedR1).
  - reflexivity.
  - right. reflexivity.
Defined.

(** ** What preprocessing writes *)

#[local] Instance touchesRunOnly_preorder id : PreOrder (touchesRunOnly id).
Proof.
  split.
  - intros s. split; [by repeat split|]. split; [done|]. split.
    + intros r Hr. exists r. by repeat split.
    + exists []. split; [by rewrite app_nil_r|]. intros j Hj. by apply elem_of_nil in Hj.
  - intros s1 s2 s3 (Hsame12 & Hothers12 & Hrow12 & added12 & Hq12 & Hadded12)
                    (Hsame23 & Hothers23 & Hrow23 & added23 & Hq23 & Hadded23).
    split; [|split; [|split]].
    + destruct Hsame12 as (? & ? & ? & ? & ?), Hsame23 as (? & ? & ? & ? & ?).
      repeat split; congruence.
    + intros id' Hne. by rewrite Hothers23, Hothers12.
    + intros r Hr.
      destruct (Hrow12 _ Hr) as (r2 & Hr2 & ? & ? & ?).
      destruct (Hrow23 _ Hr2) as (r3 & Hr3 & ? & ? & ?).
      exists r3. split; [done|]. repeat split; congruence.
    + exists (added12 ++ added23). split; [by rewrite Hq23, Hq12, app_assoc|].
      intros j [Hj|Hj]%elem_of_app; auto.
Qed.

Lemma touchesRunOnly_update (id : string) (s : Store) (r new : JobRun.t) :
  jobRun s !! id = Some r -> sameAccounting r new ->
  touchesRunOnly id s (withJobRun (insert id new) s).
Proof.
  intros Hr Hsame. split; [by repeat split|]. split; [|split].
  - intros id' Hne. simpl. by rewrite lookup_insert_ne.
  - intros r0 Hr0. exists new. simpl. rewrite lookup_insert_eq. split; [done|]. congruence.
  - exists []. split; [by rewrite app_nil_r|]. intros j Hj. by apply elem_of_nil in Hj.
Qed.

Lemma touchesRunOnly_enqueue (id : string) (s : Store) (skipRetrying : bool) :
  touchesRunOnly id s
    (withWorkerQueue (fun q => q ++ [PerformRunExecutionV3 id skipRetrying]) s).
Proof.
  split; [by repeat split|]. split; [done|]. split.
  - intros r Hr. exists r. by repeat split.
  - eexists. split; [reflexivity|]. intros j Hj%list_elem_of_singleton. by eexists.
Qed.

Ltac touchesRunOnly_side :=
  first
    [ apply touchesRunOnly_enqueue
    | eapply touchesRunOnly_update;
      [ eassumption
      | unfold sameAccounting, setIfDefined; repeat case_match; by repeat split ] ].

Section Preprocessing.

Variable now : Z.

(** X8. Preprocessing sends the preprocess request once and writes nothing
    but the row of its run: whatever the endpoint answers, tasks, attempts,
    endpoints, subscriptions and the rows of other runs are as before, the
    run's execution count, execution duration and yield keys are as before,
    the run is not registered as executing, and what is queued, if anything,
    is an execution of this run. *)
Theorem X8_preprocessing_writes_the_run_row_only run env w :
  touchesRunOnly (FoundRun.id run) (db w) (db (executePreprocessing now run env w).2)
  /\ effects (executePreprocessing now run env w).2
     = effects w ++ [PreprocessRunRequest (FoundRun.id run)]
  /\ registeredRuns (executePreprocessing now run env w).2 = registeredRuns w.
Proof.
  split; [|split].
  - revert w.
    change (preserves (touchesRunOnly (FoundRun.id run)) (executePreprocessing now run env)).
    unfold executePreprocessing, failRunExecution, enqueueRunExecutionV3, enqueue.
    repeat preserves_step (touchesRunOnly (FoundRun.id run)) ltac:(touchesRunOnly_side).
  - unfold executePreprocessing. unfold bind at 1. unfold emit at 1. simpl.
    match goal with
    | |- effects (?m ?w1).2 = _ =>
        assert (silent m) as Hsilent; [|exact (Hsilent w1)]
    end.
    unfold enqueueRunExecutionV3. silent_unfold.
    repeat first [apply silent_failRunExecution | silent_step].
  - revert w.
    change (frames registeredRuns (executePreprocessing now run env)).
    assert (storeBlind registeredRuns) as Hblind by done.
    unfold executePreprocessing, failRunExecution, enqueueRunExecutionV3. store_unfold.
    repeat first [by intros ? | frames_step].
Qed.

(** X9. When the endpoint answers the preprocess request with a valid body
    that does not abort, the run is STARTED now, takes the properties of the
    answer when it has some and keeps its own otherwise, has its force-yield
    flag cleared, and one execution of the run is queued, not to be retried
    in a development environment. Its accounting is as before. *)
Theorem X9_preprocessing_starts_the_run run env w r response data :
  jobRun (db w) !! FoundRun.id run = Some r ->
  preprocessRunRequest env = Some response ->
  PreprocessResponse.ok response = true ->
  PreprocessResponse.body response = Parsed data ->
  abort data = false ->
  exists w' r',
    executePreprocessing now run env w = (inr tt, w')
    /\ jobRun (db w') !! FoundRun.id run = Some r'
    /\ JobRun.status r' = JobRunStatus.STARTED
    /\ JobRun.startedAt r' = Some now
    /\ JobRun.completedAt r' = JobRun.completedAt r
    /\ JobRun.properties r'
       = match preprocess_properties data with
         | Some properties => Some properties
         | None => JobRun.properties r
         end
    /\ JobRun.forceYieldImmediately r' = false
    /\ sameAccounting r r'
    /\ workerQueue (db w')
       = workerQueue (db w)
         ++ [PerformRunExecutionV3 (FoundRun.id run) (isDevelopment run)].
Proof.
  intros Hr Hresponse Hok Hbody Habort.
  unfold executePreprocessing. rewrite Hresponse, Hok, Hbody, Habort. simpl.
  unfold transaction, jobRun_update, enqueueRunExecutionV3, enqueue, emit, bind,
    getStore, modifyStore, ret. simpl.
  rewrite Hr. simpl. eexists _, _. split; [reflexivity|]. simpl.
  rewrite lookup_insert_eq. split; [reflexivity|].
  unfold setIfDefined, sameAccounting.
  destruct (preprocess_properties data); by repeat split.
Qed.

End Preprocessing.

Lemma X9_witness_properties_taken :
  exists w' r',
    executePreprocessing 1000 Cases.loadedR1
      (mkCallInput None false true
         (Some (PreprocessResponse.mk 200 (Parsed (mkPreprocessBody false (Some "{plan:1}")))))
         None 0)
      (Scenario.world Scenario.store0)
    = (inr tt, w')
    /\ jobRun (db w') !! FoundRun.id Cases.loadedR1 = Some r'
    /\ JobRun.status r' = JobRunStatus.STARTED
    /\ JobRun.startedAt r' = Some 1000
    /\ JobRun.completedAt r' = JobRun.completedAt Scenario.r1
    /\ JobRun.properties r'
       = match preprocess_properties (mkPreprocessBody false (Some "{plan:1}")) with
         | Some properties => Some properties
         | None => JobRun.properties Scenario.r1
         end
    /\ JobRun.forceYieldImmediately r' = false
    /\ sameAccounting Scenario.r1 r'
    /\ workerQueue (db w')
       = workerQueue (db (Scenario.world Scenario.store0))
         ++ [PerformRunExecutionV3 (FoundRun.id Cases.loadedR1) (isDevelopment Cases.loadedR1)].
Proof.
  apply (X9_preprocessing_starts_the_run 1000 Cases.loadedR1 _
           (Scenario.world Scenario.store0) Scenario.r1
           (PreprocessResponse.mk 200 (Parsed (mkPreprocessBody false (Some "{plan:1}"))))
           (mkPreprocessBody false (Some "{plan:1}"))).
  - reflexivity.
  - reflexivity.
  - reflexivity.
  - reflexivity.
  - reflexivity.
Defined.

(** ** What a call never loses *)

#[local] Instance runHistory_preorder : PreOrder runHistory.
Proof.
  split.
  - intros r. by split.
  - intros r1 r2 r3 [] []. split; try congruence. by etransitivity.
Qed.

#[local] Instance keepsHistory_preorder : PreOrder keepsHistory.
Proof.
  split.
  - intros s. split; try done. intros id r Hr. by exists r.
  - intros s1 s2 s3 [Hq12 Ha12 Hs12 Hu12 Ht12 Hk12 Hr12] [Hq23 Ha23 Hs23 Hu23 Ht23 Hk23 Hr23].
    split; try (by etransitivity); try (by auto); try congruence.
    intros id r Hr.
    destruct (Hr12 _ _ Hr) as (r2 & Hr2 & Hh2).
    destruct (Hr23 _ _ Hr2) as (r3 & Hr3 & Hh3).
    exists r3. split; [done | by etransitivity].
Qed.

Lemma keepsHistory_update (s : Store) (id : string) (r new : JobRun.t) :
  jobRun s !! id = Some r -> runHistory r new ->
  keepsHistory s (withJobRun (insert id new) s).
Proof.
  intros Hr Hnew. split; try done. intros id' r' Hr'. simpl.
  destruct (decide (id = id')) as [<-|Hne].
  - rewrite lookup_insert_eq. exists new. split; [done|]. congruence.
  - rewrite lookup_insert_ne by done. by exists r'.
Qed.

Lemma keepsHistory_runs_same (s s' : Store) :
  jobRun s' = jobRun s ->
  workerQueue s `prefix_of` workerQueue s' ->
  autoYieldExecution s `prefix_of` autoYieldExecution s' ->
  jobRunSubscription s' = jobRunSubscription s ->
  map attemptIdentity (taskAttempt s) `prefix_of` map attemptIdentity (taskAttempt s') ->
  map taskIdentity (task s') = map taskIdentity (task s) ->
  keepsHistory s s'.
Proof.
  intros Hruns Hqueue Hyields Hsubs Hattempts Htasks. split; try done.
  - by rewrite Hsubs.
  - by rewrite Hsubs.
  - intros id r Hr. exists r. by rewrite Hruns.
Qed.

Lemma keepsHistory_endpoint (s : Store) f : keepsHistory s (withEndpoint f s).
Proof. by apply keepsHistory_runs_same. Qed.

Lemma keepsHistory_task (s : Store) (f : Task.t -> Task.t) :
  (forall t, taskIdentity (f t) = taskIdentity t) ->
  keepsHistory s (withTask (map f) s).
Proof.
  intros Hf. apply keepsHistory_runs_same; try done. simpl.
  rewrite map_map. by rewrite (map_ext _ _ Hf).
Qed.

Lemma keepsHistory_enqueue (s : Store) (j : QueueJob) :
  keepsHistory s (withWorkerQueue (fun q => q ++ [j]) s).
Proof. apply keepsHistory_runs_same; try done. apply prefix_app_r. done. Qed.

Lemma keepsHistory_autoYield (s : Store) (row : AutoYieldExecution.t) :
  keepsHistory s (withAutoYieldExecution (fun rows => rows ++ [row]) s).
Proof. apply keepsHistory_runs_same; try done. apply prefix_app_r. done. Qed.

Lemma keepsHistory_attempt_map (s : Store) (f : TaskAttempt.t -> TaskAttempt.t) :
  (forall a, attemptIdentity (f a) = attemptIdentity a) ->
  keepsHistory s (withTaskAttempt (map f) s).
Proof.
  intros Hf. apply keepsHistory_runs_same; try done. simpl.
  rewrite map_map. by rewrite (map_ext _ _ Hf).
Qed.

Lemma keepsHistory_attempt_snoc (s : Store) (new : list TaskAttempt.t -> TaskAttempt.t) :
  keepsHistory s (withTaskAttempt (fun rows => rows ++ [new rows]) s).
Proof.
  apply keepsHistory_runs_same; try done. simpl. rewrite map_app. by apply prefix_app_r.
Qed.

Lemma sameSubscriptionKey_spec (a b : JobRunSubscription.t) :
  sameSubscriptionKey a b = true <-> subscriptionKey a = subscriptionKey b.
Proof.
  unfold sameSubscriptionKey, subscriptionKey.
  rewrite !andb_true_iff, !bool_decide_eq_true. split.
  - intros [[-> ->] ->]. done.
  - intros [= -> -> ->]. done.
Qed.

Lemma keepsHistory_upsert (s : Store) (create : JobRunSubscription.t) :
  keepsHistory s
    (withJobRunSubscription
       (fun rows => if existsb (sameSubscriptionKey create) rows then rows else rows ++ [create])
       s).
Proof.
  destruct (existsb (sameSubscriptionKey create) (jobRunSubscription s)) eqn:Hexists.
  - split; simpl; rewrite ?Hexists; try done. intros id r Hr. by exists r.
  - split; simpl; rewrite ?Hexists; try done.
    + by apply prefix_app_r.
    + intros Hnodup. rewrite map_app. simpl. apply NoDup_app. split; [done|]. split.
      * intros key Hin Hnew. apply list_elem_of_singleton in Hnew as ->.
        apply list_elem_of_fmap in Hin as (row & Hkey & Hrow).
        assert (existsb (sameSubscriptionKey create) (jobRunSubscription s) = true) as Hyes.
        { apply existsb_exists. exists row. split; [by apply list_elem_of_In|].
          by apply sameSubscriptionKey_spec. }
        congruence.
      * apply NoDup_singleton.
    + intros id r Hr. by exists r.
Qed.

Ltac history_side :=
  first
    [ apply keepsHistory_enqueue
    | apply keepsHistory_autoYield
    | apply keepsHistory_upsert
    | apply keepsHistory_endpoint
    | apply keepsHistory_task; intros ?; unfold setIfDefined; by repeat case_match
    | apply keepsHistory_attempt_snoc
    | apply keepsHistory_attempt_map; intros ?; by case_match
    | eapply keepsHistory_update;
      [ eassumption
      | unfold setIfDefined; repeat case_match; split; simpl;
        first [ reflexivity | by apply prefix_app_r ] ] ].

Ltac history_step := preserves_step keepsHistory ltac:(history_side).

Section History.

Context `{Imports}.
Variable now : Z.

Lemma history_failRunExecution reason run output status d :
  preserves keepsHistory (failRunExecution now reason run output status d).
Proof.
  unfold failRunExecution, enqueueRunExecutionV3, enqueue.
  destruct reason; [destruct status|]; repeat history_step.
Qed.

Lemma history_dispatchChildError run d childError :
  preserves keepsHistory (dispatchChildError now run d childError).
Proof.
  unfold dispatchChildError, resumeAutoYieldedRun, resumeAutoYieldedRunWithCompletedTask,
    recordAutoYield, resumeRunWithTask, retryRunWithTask, resumeYieldedRun,
    enqueueRunExecutionV3, ResumeTaskService_enqueue, CompleteRunTaskService_call,
    parseIfPresent, taskAttempt_findFirstPending, enqueue.
  destruct childError;
    repeat first [apply history_failRunExecution | history_step].
Qed.

Lemma history_forEachChildError run d childErrors :
  preserves keepsHistory (forEachChildError now run d childErrors).
Proof.
  induction childErrors as [|c rest IH]; simpl.
  - apply (preserves_ret keepsHistory).
  - apply (preserves_bind keepsHistory); [apply history_dispatchChildError|].
    intros [|]; [exact IH | apply (preserves_ret keepsHistory)].
Qed.

Lemma history_dispatchResponse run data d :
  preserves keepsHistory (dispatchResponse now run data d).
Proof.
  unfold dispatchResponse, completeRunWithSuccess, resumeParallelRunWithTask,
    failRunWithError, failRunWithUnresolvedAuthError, failRunWithInvalidPayloadError,
    cancelExecution, resumeAutoYieldedRun, resumeAutoYieldedRunWithCompletedTask,
    recordAutoYield, resumeRunWithTask, retryRunWithTask, resumeYieldedRun,
    enqueueRunExecutionV3, ResumeTaskService_enqueue, CompleteRunTaskService_call,
    parseIfPresent, taskAttempt_findFirstPending, enqueue.
  destruct data as [ | | []];
    repeat first
      [ apply history_failRunExecution
      | apply history_forEachChildError
      | history_step ].
Qed.

Lemma history_interpretResponse run input env ec :
  preserves keepsHistory (interpretResponse now run input env ec).
Proof.
  unfold interpretResponse, applyResponseHeaders, jobRunSubscription_upsert,
    failRunExecutionWithRetry, resumeRunExecutionAfterTimeout, findRunWithLatestTask,
    enqueueRunExecutionV3, enqueue.
  repeat first
    [ apply history_failRunExecution
    | apply history_dispatchResponse
    | history_step ].
Qed.

Lemma history_executeJob run input drift env :
  preserves keepsHistory (executeJob now run input drift env).
Proof.
  unfold executeJob, blockedOrgGuard, startChunk, resumeTaskById, task_findUnique,
    cancelExecution.
  repeat first
    [ apply history_failRunExecution
    | apply history_interpretResponse
    | history_step ].
Qed.

Lemma history_executePreprocessing run env :
  preserves keepsHistory (executePreprocessing now run env).
Proof.
  unfold executePreprocessing, enqueueRunExecutionV3, enqueue.
  repeat first [apply history_failRunExecution | history_step].
Qed.

Lemma history_call input drift env :
  preserves keepsHistory (call now input drift env).
Proof.
  unfold call.
  repeat first
    [ apply history_executePreprocessing
    | apply history_executeJob
    | history_step ].
Qed.

End History.

Section Kept.

Context `{Imports}.

(** X10. A call only adds to what has been recorded: whatever it does and
    however it ends, the jobs that were queued, the auto-yield records and
    the subscriptions are still there, unchanged and in front of what the
    call added, and so are the attempts with their id, task, number and due
    time. *)
Theorem X10_call_only_appends now input drift env w :
  workerQueue (db w) `prefix_of` workerQueue (db (call now input drift env w).2)
  /\ autoYieldExecution (db w)
     `prefix_of` autoYieldExecution (db (call now input drift env w).2)
  /\ jobRunSubscription (db w)
     `prefix_of` jobRunSubscription (db (call now input drift env w).2)
  /\ map attemptIdentity (taskAttempt (db w))
     `prefix_of` map attemptIdentity (taskAttempt (db (call now input drift env w).2)).
Proof. by destruct (history_call now input drift env w). Qed.


(** X12. A call deletes no run and leaves what a run is as it was: every run
    of the store is there after the call with the same organization,
    endpoint, environment, test and internal marks and cumulative limit, and
    with its yield keys in front of those the call recorded. *)
Theorem X12_call_keeps_every_run now input drift env w id r :
  jobRun (db w) !! id = Some r ->
  exists r', jobRun (db (call now input drift env w).2) !! id = Some r' /\ runHistory r r'.
Proof.
  intros Hr. destruct (history_call now input drift env w) as [_ _ _ _ _ _ Hruns].
  exact (Hruns _ _ Hr).
Qed.

(** X13. A call creates no task, deletes none and moves none to another run:
    the task table holds the same tasks in the same order, each with its id,
    run, idempotency key, name, creation time and no-op mark. *)
Theorem X13_call_keeps_the_tasks now input drift env w :
  map taskIdentity (task (db (call now input drift env w).2))
  = map taskIdentity (task (db w)).
Proof. by destruct (history_call now input drift env w). Qed.

End Kept.


Lemma X12_witness_run_r1 :
  exists r',
    jobRun (db (call (H := Scenario.imports) 1000 Scenario.executeR1 12 Scenario.yieldK1
                  (Scenario.world Scenario.store0)).2) !! "r1" = Some r'
    /\ runHistory Scenario.r1 r'.
Proof.
  apply (X12_call_keeps_every_run (H := Scenario.imports) 1000 Scenario.executeR1 12
           Scenario.yieldK1 (Scenario.world Scenario.store0) "r1" Scenario.r1).
  reflexivity.
Defined.

(** ** Which organizations the guard blocks *)

Lemma prefix_spec (sub s : string) :
  String.prefix sub s = true <-> exists post, s = (sub ++ post)%string.
Proof.
  revert s. induction sub as [|c sub IH]; intros s; simpl.
  - split; [intros _; by exists s | intros _; by destruct s].
  - destruct s as [|c' s]; simpl.
    + split; [done | by intros [post [=]]].
    + destruct (Ascii.ascii_dec c c') as [<-|Hne].
      * rewrite IH. split.
        -- intros [post ->]. by exists post.
        -- intros [post [= ->]]. by exists post.
      * split; [done | intros [post [= -> _]]; by destruct Hne].
Qed.

Lemma includes_spec (s sub : string) :
  includes s sub = true <-> exists pre post, s = (pre ++ sub ++ post)%string.
Proof.
  induction s as [|c s IH].
  - change (includes "" sub) with (String.prefix sub "" || false).
    rewrite orb_false_r, prefix_spec. split.
    + intros [post Hs]. by exists ""%string, post.
    + intros ([|c pre] & post & Hs); [by exists post | done].
  - change (includes (String c s) sub)
      with (String.prefix sub (String c s) || includes s sub).
    rewrite orb_true_iff, prefix_spec, IH. split.
    + intros [[post Hs]|(pre & post & ->)].
      * by exists ""%string, post.
      * by exists (String c pre), post.
    + intros ([|c' pre] & post & Hs).
      * left. by exists post.
      * right. injection Hs as -> ->. by exists pre, post.
Qed.

(** X14. The guard of [#executeJob] takes an organization for blocked exactly
    when BLOCKED_ORGS is set and the organization's id occurs somewhere in
    its text, be it as a whole entry or inside a longer one. *)
Theorem X14_blocked_means_id_occurs_in_the_text env run :
  isBlockedOrg env run = true
  <-> exists pre post,
        BLOCKED_ORGS env
        = Some (pre ++ JobRun.organizationId (FoundRun.run run) ++ post)%string.
Proof.
  unfold isBlockedOrg. destruct (BLOCKED_ORGS env) as [blocked|].
  - rewrite includes_spec. split.
    + intros (pre & post & ->). by exists pre, post.
    + intros (pre & post & [= ->]). by exists pre, post.
  - split; [done | by intros (pre & post & [=])].
Qed.

Lemma X14_witness_blocked_inside_a_longer_id :
  isBlockedOrg (mkCallInput (Some "org10,org2") false true None None 0) Cases.loadedR1 = true.
Proof.
  apply (X14_blocked_means_id_occurs_in_the_text
           (mkCallInput (Some "org10,org2") false true None None 0) Cases.loadedR1).
  exists ""%string, "0,org2"%string. reflexivity.
Defined.

(** ** Auto-yields, and handlers that throw *)

Section Handlers.

Context `{Imports}.
Variable now : Z.

(** X15. An auto-yield is not held to the ceiling on yields: however many
    yield keys the run has, [#resumeAutoYieldedRun] returns, records the
    auto-yield (with limit 0 when the endpoint gave none) after the earlier
    records, adds the duration and the executions to the run, clears the
    force-yield flag, leaves status, completion and yield keys alone, and
    queues the next execution of the run. *)
Theorem X15_auto_yield_has_no_ceiling run data d executionCount w r :
  jobRun (db w) !! FoundRun.id run = Some r ->
  exists w' r',
    resumeAutoYieldedRun run data d executionCount w = (inr tt, w')
    /\ jobRun (db w') !! FoundRun.id run = Some r'
    /\ JobRun.status r' = JobRun.status r
    /\ JobRun.completedAt r' = JobRun.completedAt r
    /\ JobRun.yieldedExecutions r' = JobRun.yieldedExecutions r
    /\ JobRun.executionCount r' = JobRun.executionCount r + executionCount
    /\ JobRun.executionDuration r' = JobRun.executionDuration r + d
    /\ JobRun.forceYieldImmediately r' = false
    /\ autoYieldExecution (db w')
       = autoYieldExecution (db w)
         ++ [AutoYieldExecution.mk (FoundRun.id run) (AutoYieldMetadata.location data)
               (AutoYieldMetadata.timeRemaining data) (AutoYieldMetadata.timeElapsed data)
               (default 0 (AutoYieldMetadata.limit data))]
    /\ workerQueue (db w')
       = workerQueue (db w)
         ++ [PerformRunExecutionV3 (FoundRun.id run) (isDevelopment run)].
Proof.
  intros Hr.
  unfold resumeAutoYieldedRun, recordAutoYield, transaction, jobRun_update,
    enqueueRunExecutionV3, enqueue, bind, getStore, modifyStore, ret. simpl.
  rewrite Hr. simpl. eexists _, _. split; [reflexivity|]. simpl.
  rewrite lookup_insert_eq. by repeat split.
Qed.

(** X16. [#resumeParallelRunWithTask] is not atomic: its first update is
    outside any transaction, so that however it ends, also when the update of
    the parent task or the handler of a child fails, the execution it has
    counted for the run stays counted. *)
Theorem X16_parallel_count_stays_on_every_exit run task childErrors d w r :
  jobRun (db w) !! FoundRun.id run = Some r ->
  exists r',
    jobRun (db (resumeParallelRunWithTask now run task childErrors d w).2) !! FoundRun.id run
    = Some r'
    /\ JobRun.executionCount r + 1 <= JobRun.executionCount r'.
Proof.
  intros Hr. unfold resumeParallelRunWithTask.
  unfold bind at 1. unfold jobRun_update at 1. unfold bind at 1. unfold getStore at 1.
  simpl. rewrite Hr. unfold bind at 1. unfold modifyStore at 1. simpl.
  match goal with
  | |- context [(?m ?w1).2] =>
      assert (preserves (steady false) m) as Hsteady;
      [|destruct (Hsteady w1) as [_ Hcounts]]
  end.
  { repeat first [apply steady_forEachChildError | steady_step]. }
  simpl in Hcounts.
  destruct (Hcounts (FoundRun.id run) _ (lookup_insert_eq _ _ _)) as (r' & Hr' & Hle).
  exists r'. split; [exact Hr'|]. simpl in Hle. lia.
Qed.

(** X17. When the output of a task completed before an auto-yield is not
    JSON, [#resumeAutoYieldedRunWithCompletedTask] throws the parser's
    error and its transaction takes back the update it had made: the world
    is as before, with no auto-yield recorded and nothing queued. *)
Theorem X17_malformed_output_undoes_the_auto_yield
    run id properties data d executionCount w r :
  jobRun (db w) !! FoundRun.id run = Some r ->
  resumeAutoYieldedRunWithCompletedTask now run id properties (Some Malformed) data d
    executionCount w
  = (inl SyntaxError, w).
Proof.
  intros Hr.
  unfold resumeAutoYieldedRunWithCompletedTask, recordAutoYield, transaction, jobRun_update,
    parseIfPresent, bind, getStore, modifyStore, ret, throw. simpl.
  rewrite Hr. simpl. by destruct w.
Qed.

(** X18. An ERROR answer that names a task the store does not have fails
    nothing: in [#failRunWithError] the update of the task fails before the
    run is failed, the transaction is undone, and the world is as before.
    What comes of it is not the exception that asks for a retry. *)
Theorem X18_error_naming_an_unknown_task_fails_nothing run error named d w :
  find (hasTaskId (ServerTask.id named)) (task (db w)) = None ->
  (failRunWithError now run error (Some named) d w).2 = w
  /\ asksForRetry (failRunWithError now run error (Some named) d w).1 = false.
Proof.
  intros Hunknown.
  unfold failRunWithError, transaction, task_update, bind, getStore, throw. simpl.
  rewrite Hunknown. simpl. by destruct w.
Qed.

(** X27. [#resumeRunWithTask] schedules the task for resuming only when
    nothing else will: with neither an operation nor a callback URL it
    queues one ResumeTask job for the task, at the task's delay when it has
    one; with either of them it queues nothing. In both cases it returns,
    provided that a task whose output properties it is to store exists, and
    the run keeps its status and its completion time. *)
Theorem X27_resume_is_scheduled_unless_the_task_waits_elsewhere
    run named d executionCount w r :
  jobRun (db w) !! FoundRun.id run = Some r ->
  (is_Some (ServerTask.outputProperties named) ->
   is_Some (find (hasTaskId (ServerTask.id named)) (task (db w)))) ->
  exists w' r',
    resumeRunWithTask run named d executionCount w = (inr tt, w')
    /\ jobRun (db w') !! FoundRun.id run = Some r'
    /\ JobRun.status r' = JobRun.status r
    /\ JobRun.completedAt r' = JobRun.completedAt r
    /\ workerQueue (db w')
       = workerQueue (db w)
         ++ (if truthy (ServerTask.operation named) || truthy (ServerTask.callbackUrl named)
             then []
             else [ResumeTask (ServerTask.id named) (ServerTask.delayUntil named)]).
Proof.
  intros Hr Hexists.
  unfold resumeRunWithTask, transaction, jobRun_update, task_update,
    ResumeTaskService_enqueue, enqueue, when, bind, getStore, modifyStore, ret.
  simpl. rewrite Hr. simpl.
  destruct (ServerTask.outputProperties named) as [props|]; simpl.
  - destruct Hexists as [t Ht]; [by eexists|]. rewrite Ht. simpl.
    destruct (truthy (ServerTask.operation named)), (truthy (ServerTask.callbackUrl named));
      simpl; eexists _, _; (split; [reflexivity|]); simpl; rewrite lookup_insert_eq;
      rewrite ?app_nil_r; by repeat split.
  - destruct (truthy (ServerTask.operation named)), (truthy (ServerTask.callbackUrl named));
      simpl; eexists _, _; (split; [reflexivity|]); simpl; rewrite lookup_insert_eq;
      rewrite ?app_nil_r; by repeat split.
Qed.

End Handlers.

Lemma X15_witness_at_the_ceiling :
  exists w' r',
    resumeAutoYieldedRun (FoundRun.mk "r1" Cases.atTheCeiling Scenario.ep1 [] [] 0)
      (AutoYieldMetadata.mk "before_complete_task" 120 880 None) 880 1
      (Scenario.world Cases.storeAtTheCeiling)
    = (inr tt, w')
    /\ jobRun (db w') !! "r1" = Some r'
    /\ JobRun.status r' = JobRun.status Cases.atTheCeiling
    /\ JobRun.completedAt r' = JobRun.completedAt Cases.atTheCeiling
    /\ JobRun.yieldedExecutions r' = JobRun.yieldedExecutions Cases.atTheCeiling
    /\ JobRun.executionCount r' = JobRun.executionCount Cases.atTheCeiling + 1
    /\ JobRun.executionDuration r' = JobRun.executionDuration Cases.atTheCeiling + 880
    /\ JobRun.forceYieldImmediately r' = false
    /\ autoYieldExecution (db w')
       = autoYieldExecution (db (Scenario.world Cases.storeAtTheCeiling))
         ++ [AutoYieldExecution.mk "r1" "before_complete_task" 120 880 (default 0 None)]
    /\ workerQueue (db w')
       = workerQueue (db (Scenario.world Cases.storeAtTheCeiling))
         ++ [PerformRunExecutionV3 "r1"
               (isDevelopment (FoundRun.mk "r1" Cases.atTheCeiling Scenario.ep1 [] [] 0))].
Proof.
  apply (X15_auto_yield_has_no_ceiling
           (FoundRun.mk "r1" Cases.atTheCeiling Scenario.ep1 [] [] 0)
           (AutoYieldMetadata.mk "before_complete_task" 120 880 None) 880 1
           (Scenario.world Cases.storeAtTheCeiling) Cases.atTheCeiling).
  reflexivity.
Defined.

Lemma X16_witness_child_names_a_missing_task :
  exists r',
    jobRun
      (db (resumeParallelRunWithTask (H := Scenario.imports) 1000 Cases.loadedR1
             Cases.parentTask
             [RETRY_WITH_TASK (ServerTask.mk "missing" None None None None) "boom" 5000]
             200 (Scenario.world Scenario.store0)).2) !! FoundRun.id Cases.loadedR1
    = Some r'
    /\ JobRun.executionCount Scenario.r1 + 1 <= JobRun.executionCount r'.
Proof.
  apply (X16_parallel_count_stays_on_every_exit (H := Scenario.imports) 1000 Cases.loadedR1
           Cases.parentTask
           [RETRY_WITH_TASK (ServerTask.mk "missing" None None None None) "boom" 5000]
           200 (Scenario.world Scenario.store0) Scenario.r1).
  reflexivity.
Defined.

Lemma X17_witness_output_is_not_json :
  resumeAutoYieldedRunWithCompletedTask 1000 Cases.loadedR1 "t1" None (Some Malformed)
    (AutoYieldMetadata.mk "after_complete_task" 120 880 None) 880 1
    (Scenario.world Scenario.store0)
  = (inl SyntaxError, Scenario.world Scenario.store0).
Proof.
  apply (X17_malformed_output_undoes_the_auto_yield 1000 Cases.loadedR1 "t1" None
           (AutoYieldMetadata.mk "after_complete_task" 120 880 None) 880 1
           (Scenario.world Scenario.store0) Scenario.r1).
  reflexivity.
Defined.

Lemma X18_witness_task_is_missing :
  (failRunWithError 1000 Cases.loadedR1 (Some "boom")
     (Some (ServerTask.mk "missing" None None None None)) 200
     (Scenario.world Scenario.store0)).2
  = Scenario.world Scenario.store0
  /\ asksForRetry
       (failRunWithError 1000 Cases.loadedR1 (Some "boom")
          (Some (ServerTask.mk "missing" None None None None)) 200
          (Scenario.world Scenario.store0)).1
     = false.
Proof.
  apply (X18_error_naming_an_unknown_task_fails_nothing 1000 Cases.loadedR1 (Some "boom")
           (ServerTask.mk "missing" None None None None) 200 (Scenario.world Scenario.store0)).
  reflexivity.
Defined.

Lemma X27_witness_task_with_a_callback :
  exists w' r',
    resumeRunWithTask Cases.loadedBeforeTask
      (ServerTask.mk "t1" (Some "{rows:3}") None (Some "https://example.test/callback") None)
      100 1 (Scenario.world Cases.storeWithTask)
    = (inr tt, w')
    /\ jobRun (db w') !! FoundRun.id Cases.loadedBeforeTask = Some r'
    /\ JobRun.status r' = JobRun.status Cases.startedR1
    /\ JobRun.completedAt r' = JobRun.completedAt Cases.startedR1
    /\ workerQueue (db w')
       = workerQueue (db (Scenario.world Cases.storeWithTask))
         ++ (if truthy (ServerTask.operation
                          (ServerTask.mk "t1" (Some "{rows:3}") None
                             (Some "https://example.test/callback") None))
                || truthy (ServerTask.callbackUrl
                             (ServerTask.mk "t1" (Some "{rows:3}") None
                                (Some "https://example.test/callback") None))
             then []
             else [ResumeTask "t1" None]).
Proof.
  apply (X27_resume_is_scheduled_unless_the_task_waits_elsewhere Cases.loadedBeforeTask
           (ServerTask.mk "t1" (Some "{rows:3}") None (Some "https://example.test/callback")
              None)
           100 1 (Scenario.world Cases.storeWithTask) Cases.startedR1).
  - reflexivity.
  - intros _. vm_compute. eexists. reflexivity.
Defined.

(** ** Completed runs are delivered *)

#[local] Instance completionsAreDelivered_preorder : PreOrder completionsAreDelivered.
Proof.
  split.
  - intros s. exists []. split; [by rewrite app_nil_r|]. intros id r Hr. exists r. by split; [|left].
  - intros s1 s2 s3 (added12 & Hq12 & Hr12) (added23 & Hq23 & Hr23).
    exists (added12 ++ added23). split; [by rewrite Hq23, Hq12, app_assoc|].
    intros id r Hr.
    destruct (Hr12 _ _ Hr) as (r2 & Hr2 & Hc2).
    destruct (Hr23 _ _ Hr2) as (r3 & Hr3 & Hc3).
    exists r3. split; [done|]. rewrite elem_of_app.
    destruct Hc2 as [Hc2|?]; [|by right; left].
    destruct Hc3 as [Hc3|?]; [|by right; right].
    left. congruence.
Qed.

Lemma delivered_update (s : Store) (id : string) (r new : JobRun.t) :
  jobRun s !! id = Some r -> JobRun.completedAt new = JobRun.completedAt r ->
  completionsAreDelivered s (withJobRun (insert id new) s).
Proof.
  intros Hr Hsame. exists []. split; [by rewrite app_nil_r|].
  intros id' r' Hr'. simpl. destruct (decide (id = id')) as [<-|Hne].
  - rewrite lookup_insert_eq. exists new. split; [done|]. left. congruence.
  - rewrite lookup_insert_ne by done. exists r'. by split; [|left].
Qed.

Lemma delivered_runs_same (s s' : Store) (added : list QueueJob) :
  jobRun s' = jobRun s -> workerQueue s' = workerQueue s ++ added ->
  completionsAreDelivered s s'.
Proof.
  intros Hruns Hqueue. exists added. split; [done|].
  intros id r Hr. exists r. rewrite Hruns. by split; [|left].
Qed.

Ltac delivered_side :=
  first
    [ eapply (delivered_runs_same _ _ []); [reflexivity | by rewrite app_nil_r]
    | eapply delivered_runs_same; [reflexivity | reflexivity]
    | eapply delivered_update;
      [ eassumption | unfold setIfDefined; by repeat case_match ] ].

Ltac delivered_step := preserves_step completionsAreDelivered ltac:(delivered_side).

Section Delivered.

Context `{Imports}.
Variable now : Z.

Lemma delivered_failRunExecution run output status d :
  preserves completionsAreDelivered (failRunExecution now EXECUTE_JOB run output status d).
Proof.
  intros w. destruct (jobRun (db w) !! FoundRun.id run) as [r|] eqn:Hr.
  - rewrite (failRunExecution_EXECUTE_JOB_returns now run output status d w r Hr). simpl.
    eexists. split; [reflexivity|]. intros id' r' Hr'. simpl.
    destruct (decide (FoundRun.id run = id')) as [<-|Hne].
    + rewrite lookup_insert_eq. eexists. split; [reflexivity|]. right.
      by apply list_elem_of_singleton.
    + rewrite lookup_insert_ne by done. exists r'. by split; [|left].
  - unfold failRunExecution, transaction, jobRun_update, bind, getStore. simpl.
    rewrite Hr. simpl. reflexivity.
Qed.

Lemma delivered_completeRunWithSuccess run output d :
  preserves completionsAreDelivered (completeRunWithSuccess now run output d).
Proof.
  intros w. unfold completeRunWithSuccess, transaction, jobRun_update, enqueue, bind, getStore,
    modifyStore, ret. simpl.
  destruct (jobRun (db w) !! FoundRun.id run) as [r|] eqn:Hr; simpl; [|reflexivity].
  eexists. split; [reflexivity|]. intros id' r' Hr'. simpl.
  destruct (decide (FoundRun.id run = id')) as [<-|Hne].
  - rewrite lookup_insert_eq. eexists. split; [reflexivity|]. right.
    by apply list_elem_of_singleton.
  - rewrite lookup_insert_ne by done. exists r'. by split; [|left].
Qed.

Lemma delivered_dispatchChildError run d childError :
  preserves completionsAreDelivered (dispatchChildError now run d childError).
Proof.
  unfold dispatchChildError, resumeAutoYieldedRun, resumeAutoYieldedRunWithCompletedTask,
    recordAutoYield, resumeRunWithTask, retryRunWithTask, resumeYieldedRun,
    enqueueRunExecutionV3, ResumeTaskService_enqueue, CompleteRunTaskService_call,
    parseIfPresent, taskAttempt_findFirstPending, enqueue.
  destruct childError;
    repeat first [apply delivered_failRunExecution | delivered_step].
Qed.

Lemma delivered_forEachChildError run d childErrors :
  preserves completionsAreDelivered (forEachChildError now run d childErrors).
Proof.
  induction childErrors as [|c rest IH]; simpl.
  - apply (preserves_ret completionsAreDelivered).
  - apply (preserves_bind completionsAreDelivered); [apply delivered_dispatchChildError|].
    intros [|]; [exact IH | apply (preserves_ret completionsAreDelivered)].
Qed.

Lemma delivered_dispatchResponse run data d :
  preserves completionsAreDelivered (dispatchResponse now run data d).
Proof.
  unfold dispatchResponse, resumeParallelRunWithTask,
    failRunWithError, failRunWithUnresolvedAuthError, failRunWithInvalidPayloadError,
    cancelExecution, resumeAutoYieldedRun, resumeAutoYieldedRunWithCompletedTask,
    recordAutoYield, resumeRunWithTask, retryRunWithTask, resumeYieldedRun,
    enqueueRunExecutionV3, ResumeTaskService_enqueue, CompleteRunTaskService_call,
    parseIfPresent, taskAttempt_findFirstPending, enqueue.
  destruct data as [ | | []];
    repeat first
      [ apply delivered_failRunExecution
      | apply delivered_completeRunWithSuccess
      | apply delivered_forEachChildError
      | delivered_step ].
Qed.

Lemma delivered_interpretResponse run input env ec :
  preserves completionsAreDelivered (interpretResponse now run input env ec).
Proof.
  unfold interpretResponse, applyResponseHeaders, jobRunSubscription_upsert,
    failRunExecutionWithRetry, resumeRunExecutionAfterTimeout, findRunWithLatestTask,
    enqueueRunExecutionV3, enqueue.
  repeat first
    [ apply delivered_failRunExecution
    | apply delivered_dispatchResponse
    | delivered_step ].
Qed.

(** X19. Unless the organization is blocked, [#executeJob] completes no run
    without queuing the delivery of its subscriptions: however the chunk
    ends, by return or by exception, the jobs queued before are still queued
    in front of the new ones, and every run whose completion time has changed
    has a delivery among the new ones. *)
Theorem X19_completed_runs_are_delivered run input drift env w :
  isBlockedOrg env run = false ->
  completionsAreDelivered (db w) (db (executeJob now run input drift env w).2).
Proof.
  intros Hblocked. revert w.
  change (preserves completionsAreDelivered (executeJob now run input drift env)).
  unfold executeJob, blockedOrgGuard, startChunk, resumeTaskById, task_findUnique,
    cancelExecution.
  rewrite Hblocked.
  repeat first
    [ apply delivered_failRunExecution
    | apply delivered_interpretResponse
    | delivered_step ].
Qed.

End Delivered.

Lemma X19_witness_success_is_delivered :
  completionsAreDelivered (db (Scenario.world Scenario.store0))
    (db (executeJob (H := Scenario.imports) 2000 Cases.loadedR1 Scenario.executeR1 0
           Scenario.succeeds (Scenario.world Scenario.store0)).2).
Proof.
  apply (X19_completed_runs_are_delivered (H := Scenario.imports) 2000 Cases.loadedR1
           Scenario.executeR1 0 Scenario.succeeds (Scenario.world Scenario.store0)).
  reflexivity.
Defined.

(** ** What the request of a chunk carries *)

Section Request.

Context `{Imports}.

Lemma call_sends_the_stored_run now input drift env w r e :
  reason input = EXECUTE_JOB ->
  jobRun (db w) !! input_id input = Some r ->
  endpoint (db w) !! JobRun.endpointId r = Some e ->
  JobRun.status r <> JobRunStatus.CANCELED ->
  BLOCKED_ORGS env = None ->
  connectionsResolve env = true ->
  exists body,
    effects (call now input drift env w).2
    = effects w
      ++ [ExecutionEvent start drift (input_id input);
          ExecuteJobRequest body;
          ExecutionEvent finish 0 (input_id input)]
    /\ body_runId body = input_id input
    /\ body_isTest body = JobRun.isTest r
    /\ body_startedAt body = now
    /\ body_isRetry body = isRetry input
    /\ (is_Some (body_lazy body) <-> supportsLazyLoadedCachedTasks (Endpoint.version e) = true)
    /\ forall fields, body_lazy body = Some fields ->
         body_yieldedExecutions fields = JobRun.yieldedExecutions r
         /\ body_runChunkExecutionLimit fields
            = Endpoint.runChunkExecutionLimit e - RUN_CHUNK_EXECUTION_BUFFER.
Proof.
  intros Hreason Hr He Hstatus Hblocked Hresolve.
  assert (exists run, findRun (db w) (input_id input) = Some run
                      /\ FoundRun.id run = input_id input
                      /\ FoundRun.run run = r /\ FoundRun.endpoint run = e)
    as (run & Hfind & Hid & Hrun & Hendpoint).
  { unfold findRun. rewrite Hr. simpl. rewrite He. simpl. by eexists. }
  rewrite (call_EXECUTE_JOB now input drift env w run Hreason Hfind).
  destruct (executeJob_sends_the_loaded_state now run input drift env w r)
    as (resumed & ->); try done.
  { by rewrite Hrun. }
  { unfold isBlockedOrg. by rewrite Hblocked. }
  { by rewrite Hid. }
  eexists. rewrite Hid. split; [reflexivity|].
  unfold createExecutionBody. rewrite Hendpoint, Hrun.
  destruct (supportsLazyLoadedCachedTasks (Endpoint.version e)); simpl.
  - do 4 (split; [done|]). split; [by split|]. by intros fields [= <-].
  - do 4 (split; [done|]). split; [|done]. split; [by intros [? ?] | done].
Qed.

(** X20. The request of a chunk carries the state of the run as the store
    has it when the call begins. For a run that is not cancelled, whose
    organization is not blocked and whose connections resolve, the call
    records the start of the chunk, sends one request and records its end;
    the request names the run and the start time of the call and says
    whether this is a retry; and when the endpoint loads cached tasks lazily,
    it carries the yield keys of the run row and the chunk limit of the
    endpoint row less the buffer. *)
Theorem X20_request_carries_the_stored_run now input drift env w r e :
  reason input = EXECUTE_JOB ->
  jobRun (db w) !! input_id input = Some r ->
  endpoint (db w) !! JobRun.endpointId r = Some e ->
  JobRun.status r <> JobRunStatus.CANCELED ->
  BLOCKED_ORGS env = None ->
  connectionsResolve env = true ->
  exists body,
    effects (call now input drift env w).2
    = effects w
      ++ [ExecutionEvent start drift (input_id input);
          ExecuteJobRequest body;
          ExecutionEvent finish 0 (input_id input)]
    /\ body_runId body = input_id input
    /\ body_isTest body = JobRun.isTest r
    /\ body_startedAt body = now
    /\ body_isRetry body = isRetry input
    /\ (is_Some (body_lazy body) <-> supportsLazyLoadedCachedTasks (Endpoint.version e) = true)
    /\ forall fields, body_lazy body = Some fields ->
         body_yieldedExecutions fields = JobRun.yieldedExecutions r
         /\ body_runChunkExecutionLimit fields
            = Endpoint.runChunkExecutionLimit e - RUN_CHUNK_EXECUTION_BUFFER.
Proof. exact (call_sends_the_stored_run now input drift env w r e). Qed.

Lemma upserts_return run events w :
  exists w',
    forEach (fun event => jobRunSubscription_upsert (subscriptionFor run event)) events w
    = (inr tt, w')
    /\ effects w' = effects w /\ registeredRuns w' = registeredRuns w
    /\ jobRun (db w') = jobRun (db w) /\ endpoint (db w') = endpoint (db w)
    /\ workerQueue (db w') = workerQueue (db w).
Proof.
  revert w. induction events as [|event events IH]; intros w; simpl.
  - by exists w.
  - unfold bind at 1, jobRunSubscription_upsert at 1, modifyStore at 1.
    match goal with
    | |- context [forEach _ events ?w1] =>
        destruct (IH w1) as (w' & -> & Heff & Hreg & Hruns & Hendpoints & Hqueue)
    end.
    simpl in *. by exists w'.
Qed.

Lemma applyResponseHeaders_returns run headers w e :
  endpoint (db w) !! FoundRun.endpoint_id run = Some e ->
  exists w' e',
    applyResponseHeaders run headers w = (inr tt, w')
    /\ effects w' = effects w /\ registeredRuns w' = registeredRuns w
    /\ jobRun (db w') = jobRun (db w)
    /\ workerQueue (db w') = workerQueue (db w)
    /\ endpoint (db w') !! FoundRun.endpoint_id run = Some e'.
Proof.
  intros He. unfold applyResponseHeaders.
  assert (exists w1 e1,
    match headers with
    | Some data =>
        when (truthy (trigger_version data)
              && negb (bool_decide (trigger_version data
                                    = Some (Endpoint.version (FoundRun.endpoint run)))))
          (endpoint_update (FoundRun.endpoint_id run)
             (Endpoint.set_version (default "" (trigger_version data))))
    | None => ret tt
    end w = (inr tt, w1)
    /\ effects w1 = effects w /\ registeredRuns w1 = registeredRuns w
    /\ jobRun (db w1) = jobRun (db w) /\ workerQueue (db w1) = workerQueue (db w)
    /\ endpoint (db w1) !! FoundRun.endpoint_id run = Some e1)
    as (w1 & e1 & Hfirst & Heff1 & Hreg1 & Hruns1 & Hqueue1 & He1).
  { destruct headers as [data|]; [|by exists w, e].
    destruct (truthy (trigger_version data) && _); simpl; [|by exists w, e].
    unfold endpoint_update, bind, getStore, modifyStore. simpl. rewrite He. simpl.
    eexists _, _. split; [reflexivity|]. simpl. by rewrite lookup_insert_eq. }
  unfold bind at 1. rewrite Hfirst.
  destruct (upserts_return run (subscriptionUpserts run headers) w1)
    as (w' & -> & Heff & Hreg & Hruns & Hendpoints & Hqueue).
  exists w', e1. rewrite Hendpoints. repeat split; congruence.
Qed.

Lemma executeJob_yield_returns now run input drift env w r e key :
  acceptedChunk env run (Errored (YIELD_EXECUTION key)) ->
  headersAreRead env = true ->
  Z.of_nat (length (JobRun.yieldedExecutions (FoundRun.run run))) + 1
    <= MAX_RUN_YIELDED_EXECUTIONS ->
  jobRun (db w) !! FoundRun.id run = Some r ->
  endpoint (db w) !! FoundRun.endpoint_id run = Some e ->
  exists w' r' e',
    executeJob now run input drift env w = (inr tt, w')
    /\ jobRun (db w') !! FoundRun.id run = Some r'
    /\ JobRun.yieldedExecutions r' = JobRun.yieldedExecutions r ++ [key]
    /\ JobRun.status r'
       = (if bool_decide (JobRun.status (FoundRun.run run) = JobRunStatus.QUEUED)
          then JobRunStatus.STARTED else JobRun.status (FoundRun.run run))
    /\ JobRun.endpointId r' = JobRun.endpointId r
    /\ endpoint (db w') !! FoundRun.endpoint_id run = Some e'.
Proof.
  intros (Hstatus & Hblocked & Hresolve & response & Hresponse & Hok & Hbody)
    Hheaders Hunder Hr He.
  unfold headersAreRead in Hheaders. rewrite Hresponse in Hheaders.
  destruct (Response.headers response) as [verdict|] eqn:Hverdict; [|done].
  unfold executeJob, finally.
  rewrite bool_decide_eq_false_2 by done.
  unfold blockedOrgGuard. rewrite Hblocked, Hresolve.
  unfold try_catch, startChunk, jobRun_update, bind, getStore, modifyStore, ret. simpl.
  rewrite Hr. simpl.
  match goal with
  | |- context [resumeTaskById now ?i ?w1] =>
      destruct (resumeTaskById_writes_tasks_only now i w1)
        as (resumed & w2 & g & -> & _ & _ & Hdb2)
  end.
  simpl in Hdb2. unfold registerRun, emit, deregisterRun. simpl.
  unfold interpretResponse. rewrite Hresponse, Hverdict. unfold bind at 1, ret at 1.
  unfold bind at 1.
  match goal with
  | |- context [applyResponseHeaders run ?h ?w3] =>
      destruct (applyResponseHeaders_returns run h w3 e)
        as (w4 & e4 & -> & _ & _ & Hruns4 & _ & He4)
  end.
  { simpl. by rewrite Hdb2. }
  simpl in Hruns4. rewrite Hok, Hbody. simpl.
  assert (jobRun (db w4) !! FoundRun.id run
          = Some (JobRun.set_status
                    (if bool_decide (JobRun.status (FoundRun.run run) = JobRunStatus.QUEUED)
                     then JobRunStatus.STARTED else JobRun.status (FoundRun.run run))
                    (JobRun.set_startedAt
                       (Some (default now (JobRun.startedAt (FoundRun.run run))))
                       (JobRun.set_executionCount (JobRun.executionCount r + 1) r))))
    as Hr4.
  { rewrite Hruns4, Hdb2. simpl. apply lookup_insert_eq. }
  unfold resumeYieldedRun.
  destruct (Z.ltb_spec MAX_RUN_YIELDED_EXECUTIONS
              (Z.of_nat (length (JobRun.yieldedExecutions (FoundRun.run run))) + 1));
    [lia|].
  unfold enqueueRunExecutionV3, transaction, jobRun_update, enqueue, bind, getStore,
    modifyStore, ret.
  simpl. rewrite Hr4. simpl. eexists _, _, e4. split; [reflexivity|]. simpl.
  rewrite lookup_insert_eq. by repeat split.
Qed.

(** X21. A yield key comes back with the next request. When a chunk of a
    run ends with YIELD_EXECUTION under the ceiling and the headers of the
    answer are read without a throw, the call returns, and the next call for the run (organization not blocked, connections
    resolved) sends a request that, when the endpoint loads cached tasks
    lazily, carries the yield keys the run had and then the new key. *)
Theorem X21_yield_key_comes_back_with_the_next_request
    now1 now2 input1 input2 drift1 drift2 env1 env2 w run key :
  reason input1 = EXECUTE_JOB ->
  findRun (db w) (input_id input1) = Some run ->
  acceptedChunk env1 run (Errored (YIELD_EXECUTION key)) ->
  headersAreRead env1 = true ->
  Z.of_nat (length (JobRun.yieldedExecutions (FoundRun.run run))) + 1
    <= MAX_RUN_YIELDED_EXECUTIONS ->
  reason input2 = EXECUTE_JOB ->
  input_id input2 = input_id input1 ->
  BLOCKED_ORGS env2 = None ->
  connectionsResolve env2 = true ->
  exists w1 body,
    call now1 input1 drift1 env1 w = (inr tt, w1)
    /\ effects (call now2 input2 drift2 env2 w1).2
       = effects w1
         ++ [ExecutionEvent start drift2 (input_id input2);
             ExecuteJobRequest body;
             ExecutionEvent finish 0 (input_id input2)]
    /\ body_runId body = input_id input1
    /\ forall fields, body_lazy body = Some fields ->
         body_yieldedExecutions fields
         = JobRun.yieldedExecutions (FoundRun.run run) ++ [key].
Proof.
  intros Hreason1 Hfind Haccepted Hheaders Hunder Hreason2 Hsame Hblocked2 Hresolve2.
  rewrite (call_EXECUTE_JOB now1 input1 drift1 env1 w run Hreason1 Hfind).
  destruct (findRun_Some _ _ _ Hfind) as [Hid Hr].
  assert (exists e, endpoint (db w) !! FoundRun.endpoint_id run = Some e) as [e He].
  { unfold findRun in Hfind. rewrite Hr in Hfind. simpl in Hfind. unfold FoundRun.endpoint_id.
    destruct (endpoint (db w) !! JobRun.endpointId (FoundRun.run run)) as [e|]; [|done].
    by exists e. }
  rewrite <- Hid in Hr.
  destruct (executeJob_yield_returns now1 run input1 drift1 env1 w _ e key
              Haccepted Hheaders Hunder Hr He)
    as (w1 & r1 & e1 & -> & Hr1 & Hkeys & Hstatus1 & Hendpoint1 & He1).
  rewrite Hid, <- Hsame in Hr1. unfold FoundRun.endpoint_id in He1.
  rewrite <- Hendpoint1 in He1.
  destruct (call_sends_the_stored_run now2 input2 drift2 env2 w1 r1 e1)
    as (body & Heffects & Hrun & _ & _ & _ & _ & Hfields); try done.
  { rewrite Hstatus1. destruct Haccepted as [Hnot _].
    destruct (bool_decide _); [done | exact Hnot]. }
  exists w1, body. split; [done|]. split; [done|]. split; [congruence|].
  intros fields Hlazy. destruct (Hfields fields Hlazy) as [-> _]. done.
Qed.

End Request.

Lemma X20_witness_first_chunk_of_r1 :
  exists body,
    effects (call (H := Scenario.imports) 1000 Scenario.executeR1 12 Scenario.yieldK1
               (Scenario.world Scenario.store0)).2
    = effects (Scenario.world Scenario.store0)
      ++ [ExecutionEvent start 12 (input_id Scenario.executeR1);
          ExecuteJobRequest body;
          ExecutionEvent finish 0 (input_id Scenario.executeR1)]
    /\ body_runId body = input_id Scenario.executeR1
    /\ body_isTest body = JobRun.isTest Scenario.r1
    /\ body_startedAt body = 1000
    /\ body_isRetry body = isRetry Scenario.executeR1
    /\ (is_Some (body_lazy body)
        <-> supportsLazyLoadedCachedTasks (Imports := Scenario.imports)
              (Endpoint.version Scenario.ep1) = true)
    /\ forall fields, body_lazy body = Some fields ->
         body_yieldedExecutions fields = JobRun.yieldedExecutions Scenario.r1
         /\ body_runChunkExecutionLimit fields
            = Endpoint.runChunkExecutionLimit Scenario.ep1
              - RUN_CHUNK_EXECUTION_BUFFER (Imports := Scenario.imports).
Proof.
  apply (X20_request_carries_the_stored_run (H := Scenario.imports) 1000 Scenario.executeR1
           12 Scenario.yieldK1 (Scenario.world Scenario.store0) Scenario.r1 Scenario.ep1).
  - reflexivity.
  - reflexivity.
  - reflexivity.
  - vm_compute. discriminate.
  - reflexivity.
  - reflexivity.
Defined.

Lemma X21_witness_key_k1_comes_back :
  exists w1 body,
    call (H := Scenario.imports) 1000 Scenario.executeR1 12 Scenario.yieldK1
      (Scenario.world Scenario.store0) = (inr tt, w1)
    /\ effects (call (H := Scenario.imports) 2000 Scenario.executeR1 0 Scenario.succeeds w1).2
       = effects w1
         ++ [ExecutionEvent start 0 (input_id Scenario.executeR1);
             ExecuteJobRequest body;
             ExecutionEvent finish 0 (input_id Scenario.executeR1)]
    /\ body_runId body = input_id Scenario.executeR1
    /\ forall fields, body_lazy body = Some fields ->
         body_yieldedExecutions fields
         = JobRun.yieldedExecutions (FoundRun.run Cases.loadedR1) ++ ["k1"].
Proof.
  apply (X21_yield_key_comes_back_with_the_next_request (H := Scenario.imports) 1000 2000
           Scenario.executeR1 Scenario.executeR1 12 0 Scenario.yieldK1 Scenario.succeeds
           (Scenario.world Scenario.store0) Cases.loadedR1 "k1").
  - reflexivity.
  - reflexivity.
  - split; [vm_compute; discriminate|]. split; [reflexivity|]. split; [reflexivity|].
    eexists. split; [reflexivity|]. split; reflexivity.
  - reflexivity.
  - vm_compute. discriminate.
  - reflexivity.
  - reflexivity.
  - reflexivity.
  - reflexivity.
Defined.

(** * Properties of the resume service *)

Section Resume.

Import ResumeAttemptService.

Context {Completion Execution : Type}.
Variable marqs : bool.
Variable getCompletion : Store -> string -> option Completion.
Variable getExecution : Store -> string -> option Execution.

Lemma collect_Done s ids completions0 executions0 completions executions :
  collect getCompletion getExecution s ids completions0 executions0
  = Done completions executions
  <-> exists cs es,
        completions = completions0 ++ cs /\ executions = executions0 ++ es
        /\ Forall3 (resumableFrom getCompletion getExecution s) ids cs es.
Proof.
  revert completions0 executions0.
  induction ids as [|[id|] ids IH]; intros completions0 executions0; simpl.
  - split.
    + intros [= <- <-]. exists [], []. rewrite !app_nil_r. by repeat split; constructor.
    + intros (cs & es & -> & -> & Hall). inversion Hall. by rewrite !app_nil_r.
  - destruct (findLockedAttempt s id) as [a|] eqn:Ha.
    2:{ split; [done|]. intros (cs & es & _ & _ & Hall). inversion Hall as [|? ? ? ? ? ? Hhead].
        destruct Hhead as (id' & a' & [= <-] & Ha' & _). congruence. }
    destruct (getCompletion s (TaskRunAttempt.id a)) as [c|] eqn:Hc.
    2:{ split; [done|]. intros (cs & es & _ & _ & Hall). inversion Hall as [|? ? ? ? ? ? Hhead].
        destruct Hhead as (id' & a' & [= <-] & Ha' & Hc' & _). congruence. }
    destruct (getExecution s (TaskRunAttempt.id a)) as [e|] eqn:He.
    2:{ split; [done|]. intros (cs & es & _ & _ & Hall). inversion Hall as [|? ? ? ? ? ? Hhead].
        destruct Hhead as (id' & a' & [= <-] & Ha' & _ & He'). congruence. }
    rewrite IH. split.
    + intros (cs & es & -> & -> & Hall). exists (c :: cs), (e :: es).
      rewrite <- !app_assoc. repeat split; [done..|]. constructor; [|done].
      by exists id, a.
    + intros (cs & es & -> & -> & Hall).
      inversion Hall as [|? c' e' ? cs' es' Hhead Htail]; subst.
      destruct Hhead as (id' & a' & [= <-] & Ha' & Hc' & He').
      assert (a' = a) as -> by congruence.
      assert (c' = c) as -> by congruence. assert (e' = e) as -> by congruence.
      exists cs', es'. by rewrite <- !app_assoc.
  - split; [done|]. intros (cs & es & _ & _ & Hall). inversion Hall as [|? ? ? ? ? ? Hhead].
    by destruct Hhead as (id' & a' & [=] & _).
Qed.

Lemma collect_Threw s ids completions executions e :
  collect getCompletion getExecution s ids completions executions = Threw e -> None ∈ ids.
Proof.
  revert completions executions.
  induction ids as [|[id|] ids IH]; intros completions executions Hloop; simpl in *.
  - done.
  - destruct (findLockedAttempt s id); [|done].
    destruct (getCompletion s _); [|done]. destruct (getExecution s _); [|done].
    right. by eapply IH.
  - left.
Qed.

Lemma handleDependencyResume_cases a ids s :
  let o := handleDependencyResume marqs getCompletion getExecution a ids s [] in
  (db o = s /\ effects o = [] /\ (thrown o = None \/ None ∈ ids))
  \/ (db o = s /\ thrown o = None /\ ids <> []
      /\ effects o = acknowledgeMessage marqs (TaskRunAttempt.taskRunId a))
  \/ (exists completions executions,
        ids <> [] /\ thrown o = None /\ db o = resumeAttempt a s
        /\ effects o
           = [Emit (RESUME_AFTER_DEPENDENCY (TaskRunAttempt.taskRunId a) (TaskRunAttempt.id a)
                      (TaskRunAttempt.friendlyId a) completions executions)]
        /\ Forall3 (resumableFrom getCompletion getExecution s) ids completions executions).
Proof.
  unfold handleDependencyResume.
  destruct ids as [|id ids]; [left; by repeat split; left|].
  destruct (collect getCompletion getExecution s (id :: ids) [] []) as [e| |cs es] eqn:Hloop.
  - left. repeat split; try done. right. by eapply collect_Threw.
  - right. left. by repeat split.
  - right. right. apply collect_Done in Hloop as (cs' & es' & -> & -> & Hall).
    exists cs', es'. by repeat split.
Qed.

Lemma call_cases params s :
  (db (call marqs getCompletion getExecution params s) = s
   /\ Forall (fun e => ~ isResumeAfterDependency e)
        (effects (call marqs getCompletion getExecution params s)))
  \/ exists found ids completions executions,
       findAttempt s (attemptFriendlyId params) = Some found
       /\ TaskRun.status (attempt_taskRun found) = "WAITING_TO_RESUME"
       /\ match type params with
          | WAIT_FOR_DURATION => False
          | WAIT_FOR_TASK =>
              exists id, head (dependencies found) = Some (Some id) /\ ids = [Some id]
          | WAIT_FOR_BATCH => head (batchDependencies found) = Some ids
          end
       /\ Forall3 (resumableFrom getCompletion getExecution s) ids completions executions
       /\ thrown (call marqs getCompletion getExecution params s) = None
       /\ db (call marqs getCompletion getExecution params s) = resumeAttempt (attempt found) s
       /\ effects (call marqs getCompletion getExecution params s)
          = [Emit (RESUME_AFTER_DEPENDENCY
                     (TaskRunAttempt.taskRunId (attempt found))
                     (TaskRunAttempt.id (attempt found))
                     (TaskRunAttempt.friendlyId (attempt found))
                     completions executions)].
Proof.
  unfold call.
  destruct (findAttempt s (attemptFriendlyId params)) as [found|] eqn:Hfound;
    [|left; by split].
  destruct (bool_decide (TaskRun.status (attempt_taskRun found) = "WAITING_TO_RESUME"))
    eqn:Hwaiting; simpl; [|left; by split].
  apply bool_decide_eq_true in Hwaiting.
  assert (forall ids,
    (db (handleDependencyResume marqs getCompletion getExecution (attempt found) ids s []) = s
     /\ Forall (fun e => ~ isResumeAfterDependency e)
          (effects (handleDependencyResume marqs getCompletion getExecution
                      (attempt found) ids s [])))
    \/ exists completions executions,
         Forall3 (resumableFrom getCompletion getExecution s) ids completions executions
         /\ thrown (handleDependencyResume marqs getCompletion getExecution
                      (attempt found) ids s []) = None
         /\ db (handleDependencyResume marqs getCompletion getExecution
                  (attempt found) ids s []) = resumeAttempt (attempt found) s
         /\ effects (handleDependencyResume marqs getCompletion getExecution
                       (attempt found) ids s [])
            = [Emit (RESUME_AFTER_DEPENDENCY
                       (TaskRunAttempt.taskRunId (attempt found))
                       (TaskRunAttempt.id (attempt found))
                       (TaskRunAttempt.friendlyId (attempt found))
                       completions executions)]) as Hhandle.
  { intros ids.
    destruct (handleDependencyResume_cases (attempt found) ids s)
      as [(-> & -> & _)|[(-> & _ & _ & ->)|(cs & es & _ & Hnone & Hdb & Heff & Hall)]].
    - left. by split.
    - left. split; [done|]. unfold acknowledgeMessage.
      destruct marqs; repeat constructor. by intros [].
    - right. by exists cs, es. }
  destruct (type params).
  - left. by repeat constructor; try intros [].
  - destruct (dependencies found) as [|[id|] rest] eqn:Hdependencies;
      [left; by split| |left; by split].
    destruct (Hhandle [Some id]) as [?|(cs & es & ? & ? & ? & ?)]; [by left|].
    right. exists found, [Some id], cs, es. rewrite Hdependencies.
    repeat split; try done. by exists id.
  - destruct (batchDependencies found) as [|ids rest] eqn:Hbatches; [left; by split|].
    destruct (Hhandle ids) as [?|(cs & es & ? & ? & ? & ?)]; [by left|].
    right. exists found, ids, cs, es. rewrite Hbatches. by repeat split.
Qed.

(** X22. A call of the resume service is all or nothing. Either the store
    is as it was and no attempt is told to resume after its dependencies; or
    the attempt was found waiting to resume and was not asked about a
    duration wait, every dependency handed over can be resumed from (its
    latest attempt is there, on a locked run, with both payloads), the
    attempt and its run are set to work again, and the one thing sent is the
    resume message with one completion and one execution per dependency, in
    their order. *)
Theorem X22_resume_is_all_or_nothing params s :
  (db (call marqs getCompletion getExecution params s) = s
   /\ Forall (fun e => ~ isResumeAfterDependency e)
        (effects (call marqs getCompletion getExecution params s)))
  \/ exists found ids completions executions,
       findAttempt s (attemptFriendlyId params) = Some found
       /\ TaskRun.status (attempt_taskRun found) = "WAITING_TO_RESUME"
       /\ match type params with
          | WAIT_FOR_DURATION => False
          | WAIT_FOR_TASK =>
              exists id, head (dependencies found) = Some (Some id) /\ ids = [Some id]
          | WAIT_FOR_BATCH => head (batchDependencies found) = Some ids
          end
       /\ Forall3 (resumableFrom getCompletion getExecution s) ids completions executions
       /\ thrown (call marqs getCompletion getExecution params s) = None
       /\ db (call marqs getCompletion getExecution params s) = resumeAttempt (attempt found) s
       /\ effects (call marqs getCompletion getExecution params s)
          = [Emit (RESUME_AFTER_DEPENDENCY
                     (TaskRunAttempt.taskRunId (attempt found))
                     (TaskRunAttempt.id (attempt found))
                     (TaskRunAttempt.friendlyId (attempt found))
                     completions executions)].
Proof. exact (call_cases params s). Qed.

(** X23. A call of the resume service sends at most one thing, a message to
    the coordinator or an acknowledgement to the queue; and it writes to the
    store only when what it sends is the message to resume after the
    dependencies. *)
Theorem X23_resume_sends_at_most_one_thing params s :
  (length (effects (call marqs getCompletion getExecution params s)) <= 1)%nat
  /\ (db (call marqs getCompletion getExecution params s) = s
      \/ Forall isResumeAfterDependency
           (effects (call marqs getCompletion getExecution params s))).
Proof.
  destruct (call_cases params s) as [[Hdb Hnone]|(found & ids & cs & es & Hfound & _ & _ & _ & _ & _ & ->)].
  2:{ split; [simpl; lia|]. right. by repeat constructor. }
  split; [|by left]. clear Hdb Hnone. unfold call.
  destruct (findAttempt s (attemptFriendlyId params)) as [found|]; [|simpl; lia].
  destruct (negb _); [simpl; lia|].
  assert (forall ids,
    (length (effects (handleDependencyResume marqs getCompletion getExecution
                        (attempt found) ids s [])) <= 1)%nat) as Hhandle.
  { intros ids.
    destruct (handleDependencyResume_cases (attempt found) ids s)
      as [(_ & -> & _)|[(_ & _ & _ & ->)|(cs & es & _ & _ & _ & -> & _)]]; simpl; try lia.
    unfold acknowledgeMessage. destruct marqs; simpl; lia. }
  destruct (type params); [simpl; lia| |].
  - destruct (dependencies found) as [|[id|] rest]; [simpl; lia | apply Hhandle | simpl; lia].
  - destruct (batchDependencies found) as [|ids rest]; [simpl; lia | apply Hhandle].
Qed.

(** X24. A call of the resume service throws only when asked about a batch
    wait, and then before it has written or sent anything. For an attempt
    that waits to resume and has no batch dependency it always throws: the
    branch of the code that is to report the missing batch dependency is
    never taken, since the empty list of dependencies is truthy. *)
Theorem X24_resume_throws_only_for_batches params s :
  (forall e, thrown (call marqs getCompletion getExecution params s) = Some e ->
     type params = WAIT_FOR_BATCH
     /\ db (call marqs getCompletion getExecution params s) = s
     /\ effects (call marqs getCompletion getExecution params s) = [])
  /\ (forall found,
        findAttempt s (attemptFriendlyId params) = Some found ->
        TaskRun.status (attempt_taskRun found) = "WAITING_TO_RESUME" ->
        type params = WAIT_FOR_BATCH ->
        batchDependencies found = [] ->
        call marqs getCompletion getExecution params s = mkOutcome (Some TypeError) s []).
Proof.
  split.
  - intros e. unfold call.
    destruct (findAttempt s (attemptFriendlyId params)) as [found|]; [|done].
    destruct (negb _); [done|].
    assert (forall ids e,
      thrown (handleDependencyResume marqs getCompletion getExecution
                (attempt found) ids s []) = Some e ->
      db (handleDependencyResume marqs getCompletion getExecution
            (attempt found) ids s []) = s
      /\ effects (handleDependencyResume marqs getCompletion getExecution
                    (attempt found) ids s []) = []) as Hhandle.
    { intros ids e'.
      destruct (handleDependencyResume_cases (attempt found) ids s)
        as [(-> & -> & _)|[(_ & -> & _)|(cs & es & _ & -> & _)]]; done. }
    destruct (type params); [done| |].
    + destruct (dependencies found) as [|[id|] rest]; [done| |done].
      unfold handleDependencyResume.
      destruct (collect getCompletion getExecution s [Some id] [] []) eqn:Hloop; try done.
      apply collect_Threw in Hloop. apply list_elem_of_singleton in Hloop. done.
    + destruct (batchDependencies found) as [|ids rest]; [done|].
      intros Hthrown. split; [done|]. by eapply Hhandle.
  - intros found Hfound Hwaiting Htype Hnone. unfold call.
    by rewrite Hfound, Hwaiting, Htype, Hnone.
Qed.

(** X25. Asked about a duration wait for an attempt that waits to resume,
    the resume service tells the coordinator to resume after the duration and
    writes nothing: the run is still waiting to resume, so that the same
    question gets the same answer again. *)
Theorem X25_duration_wait_is_answered_without_a_write params s found :
  findAttempt s (attemptFriendlyId params) = Some found ->
  TaskRun.status (attempt_taskRun found) = "WAITING_TO_RESUME" ->
  type params = WAIT_FOR_DURATION ->
  call marqs getCompletion getExecution params s
  = mkOutcome None s
      [Emit (RESUME_AFTER_DURATION (TaskRunAttempt.id (attempt found))
               (TaskRunAttempt.friendlyId (attempt found)))]
  /\ call marqs getCompletion getExecution params
       (db (call marqs getCompletion getExecution params s))
     = call marqs getCompletion getExecution params s.
Proof.
  intros Hfound Hwaiting Htype.
  assert (call marqs getCompletion getExecution params s
          = mkOutcome None s
              [Emit (RESUME_AFTER_DURATION (TaskRunAttempt.id (attempt found))
                       (TaskRunAttempt.friendlyId (attempt found)))]) as Hcall.
  { unfold call. by rewrite Hfound, Hwaiting, Htype. }
  split; [exact Hcall|]. by rewrite Hcall.
Qed.

Lemma find_map_same {A} (p : A -> bool) (f : A -> A) (l : list A) :
  (forall a, p (f a) = p a) -> find p (map f l) = f <$> find p l.
Proof.
  intros Hp. induction l as [|a l IH]; simpl; [done|].
  rewrite Hp. by destruct (p a).
Qed.

(** X26. Resuming after the dependencies is done once: after a call that
    sent the message to resume after the dependencies, the same call on the
    store it left finds the run at work, and neither writes nor sends. *)
Theorem X26_resume_after_dependencies_happens_once params s :
  Exists isResumeAfterDependency (effects (call marqs getCompletion getExecution params s)) ->
  call marqs getCompletion getExecution params
    (db (call marqs getCompletion getExecution params s))
  = mkOutcome None (db (call marqs getCompletion getExecution params s)) [].
Proof.
  intros Hsent.
  destruct (call_cases params s)
    as [[_ Hnone]|(found & ids & cs & es & Hfound & _ & _ & _ & _ & -> & _)].
  { apply Exists_exists in Hsent as (e & He & Hyes).
    rewrite Forall_forall in Hnone. by destruct (Hnone e He). }
  clear Hsent. unfold call at 1.
  assert (exists found',
    findAttempt (resumeAttempt (attempt found) s) (attemptFriendlyId params) = Some found'
    /\ TaskRun.status (attempt_taskRun found') <> "WAITING_TO_RESUME")
    as (found' & -> & Hworking).
  { unfold findAttempt in *. simpl.
    rewrite find_map_same by (intros a; by destruct (bool_decide (TaskRunAttempt.id a = _))).
    destruct (find _ (taskRunAttempt s)) as [a|]; simpl in *; [|done].
    destruct (taskRun s !! TaskRunAttempt.taskRunId a) as [r|] eqn:Hr; simpl in *; [|done].
    injection Hfound as <-. simpl.
    rewrite bool_decide_eq_true_2 by done. simpl.
    rewrite lookup_alter_eq, Hr. simpl. eexists. split; [reflexivity|]. simpl.
    by destruct (1 <? TaskRunAttempt.number a). }
  by rewrite bool_decide_eq_false_2.
Qed.

End Resume.

Lemma X24_witness_no_batch_dependency :
  ResumeAttemptService.call true ResumeCases.payloadOf ResumeCases.payloadOf
    (ResumeCases.readyAfter ResumeAttemptService.WAIT_FOR_BATCH) ResumeCases.waiting
  = ResumeAttemptService.mkOutcome (Some ResumeAttemptService.TypeError)
      ResumeCases.waiting [].
Proof.
  apply (proj2 (X24_resume_throws_only_for_batches true ResumeCases.payloadOf
                  ResumeCases.payloadOf
                  (ResumeCases.readyAfter ResumeAttemptService.WAIT_FOR_BATCH)
                  ResumeCases.waiting) ResumeCases.found).
  - reflexivity.
  - reflexivity.
  - reflexivity.
  - reflexivity.
Defined.

Lemma X25_witness_duration_wait :
  ResumeAttemptService.call true ResumeCases.payloadOf ResumeCases.payloadOf
    (ResumeCases.readyAfter ResumeAttemptService.WAIT_FOR_DURATION) ResumeCases.waiting
  = ResumeAttemptService.mkOutcome None ResumeCases.waiting
      [ResumeAttemptService.Emit
         (ResumeAttemptService.RESUME_AFTER_DURATION
            (ResumeAttemptService.TaskRunAttempt.id
               (ResumeAttemptService.attempt ResumeCases.found))
            (ResumeAttemptService.TaskRunAttempt.friendlyId
               (ResumeAttemptService.attempt ResumeCases.found)))]
  /\ ResumeAttemptService.call true ResumeCases.payloadOf ResumeCases.payloadOf
       (ResumeCases.readyAfter ResumeAttemptService.WAIT_FOR_DURATION)
       (ResumeAttemptService.db
          (ResumeAttemptService.call true ResumeCases.payloadOf ResumeCases.payloadOf
             (ResumeCases.readyAfter ResumeAttemptService.WAIT_FOR_DURATION)
             ResumeCases.waiting))
     = ResumeAttemptService.call true ResumeCases.payloadOf ResumeCases.payloadOf
         (ResumeCases.readyAfter ResumeAttemptService.WAIT_FOR_DURATION) ResumeCases.waiting.
Proof.
  apply (X25_duration_wait_is_answered_without_a_write true ResumeCases.payloadOf
           ResumeCases.payloadOf
           (ResumeCases.readyAfter ResumeAttemptService.WAIT_FOR_DURATION)
           ResumeCases.waiting ResumeCases.found).
  - reflexivity.
  - reflexivity.
  - reflexivity.
Defined.

Lemma X26_witness_second_call_does_nothing :
  ResumeAttemptService.call true ResumeCases.payloadOf ResumeCases.payloadOf
    (ResumeCases.readyAfter ResumeAttemptService.WAIT_FOR_TASK)
    (ResumeAttemptService.db
       (ResumeAttemptService.call true ResumeCases.payloadOf ResumeCases.payloadOf
          (ResumeCases.readyAfter ResumeAttemptService.WAIT_FOR_TASK) ResumeCases.waiting))
  = ResumeAttemptService.mkOutcome None
      (ResumeAttemptService.db
         (ResumeAttemptService.call true ResumeCases.payloadOf ResumeCases.payloadOf
            (ResumeCases.readyAfter ResumeAttemptService.WAIT_FOR_TASK) ResumeCases.waiting))
      [].
Proof.
  apply (X26_resume_after_dependencies_happens_once true ResumeCases.payloadOf
           ResumeCases.payloadOf
           (ResumeCases.readyAfter ResumeAttemptService.WAIT_FOR_TASK) ResumeCases.waiting).
  vm_compute. apply Exists_cons_hd. exact I.
Defined.

(** The task wait of the case: the attempt and its run are at work again, and
    the coordinator has the payloads of the child's attempt. *)
Example resume_after_the_child_run :
  ResumeAttemptService.call true ResumeCases.payloadOf ResumeCases.payloadOf
    (ResumeCases.readyAfter ResumeAttemptService.WAIT_FOR_TASK) ResumeCases.waiting
  = ResumeAttemptService.mkOutcome None
      (ResumeAttemptService.mkStore
         (<["run_c" := ResumeCases.childRun]>
            {["run_p" := ResumeAttemptService.TaskRun.mk "EXECUTING" (Some 10) (Some "worker_1")]})
         [ResumeAttemptService.TaskRunAttempt.mk "attempt_p" "attempt_friendly_p" "run_p" 1
            "EXECUTING";
          ResumeCases.childAttempt]
         [ResumeAttemptService.TaskRunDependency.mk "run_c" (Some "attempt_p") 15] [])
      [ResumeAttemptService.Emit
         (ResumeAttemptService.RESUME_AFTER_DEPENDENCY "run_p" "attempt_p" "attempt_friendly_p"
            ["attempt_c"] ["attempt_c"])].
Proof. vm_compute. reflexivity. Qed.
